(** * Size, count and value-type layer of the code generator

    A shallow embedding of
      - [llvm/include/llvm/Support/TypeSize.h]   (StackOffset, FixedOrScalableQuantity,
                                                  ElementCount, TypeSize, alignTo),
      - [llvm/lib/CodeGen/ValueTypes.cpp]        (EVT::getTypeForEVT, MVT::getVT, EVT::getEVT, ...),
      - [llvm/lib/CodeGen/LowLevelType.cpp]      (LLT::LLT(MVT)),
    followed by the properties proved about them.

    Conventions.
      - A [w]-bit unsigned integer is a [Z] in [0, 2^w); every arithmetic
        operator of the source is followed by its wrap-around [wrap w].
      - [assert], [llvm_unreachable] and a division by zero do not return a
        value: functions that contain one return an [Outcome]. *)

From Stdlib Require Import ZArith Lia Bool String List DecimalString.
Import ListNotations.
Local Open Scope Z_scope.

(* ===================================================================== *)
(** * Outcomes of fallible code *)
(* ===================================================================== *)

Inductive Outcome (A : Type) : Type :=
| Ok (a : A)                         (* normal return *)
| AssertionFailure (msg : string)    (* assert(cond && msg) with cond false *)
| Unreachable (msg : string)         (* llvm_unreachable(msg) *)
| DivisionByZero.                    (* x / 0 or x % 0: undefined behaviour *)

Arguments Ok {A} a.
Arguments AssertionFailure {A} msg.
Arguments Unreachable {A} msg.
Arguments DivisionByZero {A}.

Definition bind {A B : Type} (c : Outcome A) (k : A -> Outcome B) : Outcome B :=
  match c with
  | Ok a => k a
  | AssertionFailure m => AssertionFailure m
  | Unreachable m => Unreachable m
  | DivisionByZero => DivisionByZero
  end.

Declare Scope outcome_scope.
Delimit Scope outcome_scope with outcome.
Notation "x <- c ;; k" := (bind c (fun x => k))
  (at level 61, c at next level, right associativity) : outcome_scope.

(** [assert(cond && msg); k] *)
Definition assert {A : Type} (cond : bool) (msg : string) (k : Outcome A) : Outcome A :=
  if cond then k else AssertionFailure msg.

(** Wrap-around of a [w]-bit unsigned integer. *)
Definition wrap (w : N) (x : Z) : Z := x mod 2 ^ Z.of_N w.

(* ===================================================================== *)
(** * TypeSize.h *)
(* ===================================================================== *)

(** ** class StackOffset: five int64_t accumulators. *)
Module StackOffset.

Record t : Type := mk {
  Fixed : Z;
  ScalableV : Z;
  ScalableM : Z;
  ScalableN : Z;
  ScalableMN : Z
}.

(** The private constructor: member initialisers in declaration order. *)
Definition ctor (Fixed ScalableV ScalableM ScalableN ScalableMN : Z) : t :=
  mk Fixed ScalableV ScalableM ScalableN ScalableMN.

Definition getFixed' (Fixed : Z) : t := ctor Fixed 0 0 0 0.
Definition getScalableV' (Scalable : Z) : t := ctor 0 Scalable 0 0 0.
Definition getScalableM' (Scalable : Z) : t := ctor 0 0 Scalable 0 0.
Definition getScalableN' (Scalable : Z) : t := ctor 0 0 0 Scalable 0.
Definition getScalableMN' (Scalable : Z) : t := ctor 0 0 0 0 Scalable.
Definition getScalable' (Scalable : Z) : t := getScalableV' Scalable.

(** [static StackOffset get(Fixed, ScalableV, ScalableM, ScalableN, ScalableMN)]
    returns [{Fixed, ScalableV, ScalableM, ScalableM, ScalableMN}]. *)
Definition get (Fixed ScalableV ScalableM ScalableN ScalableMN : Z) : t :=
  ctor Fixed ScalableV ScalableM ScalableM ScalableMN.

(** The getters (the static factories of the same C++ name carry a prime). *)
Definition getFixed (s : t) : Z := Fixed s.
Definition getScalable (s : t) : Z := ScalableV s.
Definition getScalableV (s : t) : Z := ScalableV s.
Definition getScalableM (s : t) : Z := ScalableM s.
Definition getScalableN (s : t) : Z := ScalableN s.
Definition getScalableMN (s : t) : Z := ScalableMN s.

Definition operator_eq (a b : t) : bool :=
  (Fixed a =? Fixed b) && (ScalableV a =? ScalableV b) && (ScalableM a =? ScalableM b)
  && (ScalableN a =? ScalableN b) && (ScalableMN a =? ScalableMN b).

(** [explicit operator bool()] *)
Definition to_bool (a : t) : bool :=
  negb (Fixed a =? 0) || negb (ScalableV a =? 0) || negb (ScalableM a =? 0)
  || negb (ScalableN a =? 0) || negb (ScalableMN a =? 0).

(** [StackOffset()]: every member at its default initialiser. *)
Definition default : t := mk 0 0 0 0 0.

(** The values an [int64_t] holds.  An arithmetic result outside of them
    is a signed overflow, which is undefined behaviour: [checked] and the
    operators built on it return [None] there. *)
Definition int64_min : Z := - 2 ^ 63.
Definition int64_max : Z := 2 ^ 63 - 1.

Definition checked (x : Z) : option Z :=
  if (int64_min <=? x) && (x <=? int64_max) then Some x else None.

Definition int64 (x : Z) : Prop := int64_min <= x <= int64_max.

Definition well_formed (s : t) : Prop :=
  int64 (Fixed s) /\ int64 (ScalableV s) /\ int64 (ScalableM s)
  /\ int64 (ScalableN s) /\ int64 (ScalableMN s).

(** The braced initialiser [{e1, e2, e3, e4, e5}] of five checked results. *)
Definition braced (e1 e2 e3 e4 e5 : option Z) : option t :=
  match e1, e2, e3, e4, e5 with
  | Some f, Some v, Some m, Some n, Some mn => Some (ctor f v m n mn)
  | _, _, _, _, _ => None
  end.

Definition operator_plus (a RHS : t) : option t :=
  braced (checked (Fixed a + Fixed RHS)) (checked (ScalableV a + ScalableV RHS))
         (checked (ScalableM a + ScalableM RHS)) (checked (ScalableN a + ScalableN RHS))
         (checked (ScalableMN a + ScalableMN RHS)).

Definition operator_minus (a RHS : t) : option t :=
  braced (checked (Fixed a - Fixed RHS)) (checked (ScalableV a - ScalableV RHS))
         (checked (ScalableM a - ScalableM RHS)) (checked (ScalableN a - ScalableN RHS))
         (checked (ScalableMN a - ScalableMN RHS)).

(** [operator+=] and [operator-=]: the five members updated in turn. *)
Definition operator_plus_eq (a RHS : t) : option t :=
  match checked (Fixed a + Fixed RHS) with
  | None => None
  | Some f =>
      let a := mk f (ScalableV a) (ScalableM a) (ScalableN a) (ScalableMN a) in
      match checked (ScalableV a + ScalableV RHS) with
      | None => None
      | Some v =>
          let a := mk (Fixed a) v (ScalableM a) (ScalableN a) (ScalableMN a) in
          match checked (ScalableM a + ScalableM RHS) with
          | None => None
          | Some m =>
              let a := mk (Fixed a) (ScalableV a) m (ScalableN a) (ScalableMN a) in
              match checked (ScalableN a + ScalableN RHS) with
              | None => None
              | Some n =>
                  let a := mk (Fixed a) (ScalableV a) (ScalableM a) n (ScalableMN a) in
                  match checked (ScalableMN a + ScalableMN RHS) with
                  | None => None
                  | Some mn => Some (mk (Fixed a) (ScalableV a) (ScalableM a) (ScalableN a) mn)
                  end
              end
          end
      end
  end.

Definition operator_minus_eq (a RHS : t) : option t :=
  match checked (Fixed a - Fixed RHS) with
  | None => None
  | Some f =>
      let a := mk f (ScalableV a) (ScalableM a) (ScalableN a) (ScalableMN a) in
      match checked (ScalableV a - ScalableV RHS) with
      | None => None
      | Some v =>
          let a := mk (Fixed a) v (ScalableM a) (ScalableN a) (ScalableMN a) in
          match checked (ScalableM a - ScalableM RHS) with
          | None => None
          | Some m =>
              let a := mk (Fixed a) (ScalableV a) m (ScalableN a) (ScalableMN a) in
              match checked (ScalableN a - ScalableN RHS) with
              | None => None
              | Some n =>
                  let a := mk (Fixed a) (ScalableV a) (ScalableM a) n (ScalableMN a) in
                  match checked (ScalableMN a - ScalableMN RHS) with
                  | None => None
                  | Some mn => Some (mk (Fixed a) (ScalableV a) (ScalableM a) (ScalableN a) mn)
                  end
              end
          end
      end
  end.

(** Unary [operator-]. *)
Definition operator_neg (a : t) : option t :=
  braced (checked (- Fixed a)) (checked (- ScalableV a)) (checked (- ScalableM a))
         (checked (- ScalableN a)) (checked (- ScalableMN a)).

Definition operator_ne (a b : t) : bool :=
  negb (Fixed a =? Fixed b) || negb (ScalableV a =? ScalableV b)
  || negb (ScalableM a =? ScalableM b) || negb (ScalableN a =? ScalableN b)
  || negb (ScalableMN a =? ScalableMN b).

End StackOffset.

(** ** enum class ScaleID : uint8_t *)
Module ScaleID.

Inductive t : Type := None | V | M | N | MN.

(** [static_cast<uint8_t>(Scale)]: None = 0, V = 1 << 0, M = 1 << 1,
    N = 1 << 2, MN = M | N. *)
Definition to_uint8 (s : t) : Z :=
  match s with
  | None => 0
  | V => Z.shiftl 1 0
  | M => Z.shiftl 1 1
  | N => Z.shiftl 1 2
  | MN => Z.lor (Z.shiftl 1 1) (Z.shiftl 1 2)
  end.

Definition eqb (a b : t) : bool := to_uint8 a =? to_uint8 b.

End ScaleID.

(** ** template class details::FixedOrScalableQuantity<LeafTy, ValueTy>

    [ElementCount] instantiates it with [unsigned] (32 bits) and [TypeSize]
    with [uint64_t]; the width of [ScalarTy] is the section variable [w]. *)
Module details.

Record FixedOrScalableQuantity : Type := mk {
  Quantity : Z;
  Scale : ScaleID.t
}.

(** [FixedOrScalableQuantity(ScalarTy Quantity, bool Scalable)] *)
Definition of_bool (Quantity : Z) (Scalable : bool) : FixedOrScalableQuantity :=
  mk Quantity (if Scalable then ScaleID.V else ScaleID.None).

Definition isZero (q : FixedOrScalableQuantity) : bool := Quantity q =? 0.
Definition isNonZero (q : FixedOrScalableQuantity) : bool := negb (Quantity q =? 0).
Definition getKnownMinValue (q : FixedOrScalableQuantity) : Z := Quantity q.
Definition getScale (q : FixedOrScalableQuantity) : ScaleID.t := Scale q.

Definition operator_eq (a b : FixedOrScalableQuantity) : bool :=
  (Quantity a =? Quantity b) && ScaleID.eqb (Scale a) (Scale b).
Definition operator_ne (a b : FixedOrScalableQuantity) : bool :=
  negb (Quantity a =? Quantity b) || negb (ScaleID.eqb (Scale a) (Scale b)).

Definition isScalable (q : FixedOrScalableQuantity) : bool :=
  negb (ScaleID.eqb (Scale q) ScaleID.None).
Definition isScalableV (q : FixedOrScalableQuantity) : bool :=
  Z.land (ScaleID.to_uint8 (Scale q)) (ScaleID.to_uint8 ScaleID.V)
  =? ScaleID.to_uint8 ScaleID.V.
Definition isScalableM (q : FixedOrScalableQuantity) : bool :=
  Z.land (ScaleID.to_uint8 (Scale q)) (ScaleID.to_uint8 ScaleID.M)
  =? ScaleID.to_uint8 ScaleID.M.
Definition isScalableN (q : FixedOrScalableQuantity) : bool :=
  Z.land (ScaleID.to_uint8 (Scale q)) (ScaleID.to_uint8 ScaleID.N)
  =? ScaleID.to_uint8 ScaleID.N.
Definition isScalableMN (q : FixedOrScalableQuantity) : bool :=
  isScalableM q && isScalableN q.

Definition isKnownEven (q : FixedOrScalableQuantity) : bool :=
  Z.land (getKnownMinValue q) 1 =? 0.

(** [getFixedValue]: the assertion, then the bare magnitude. *)
Definition getFixedValue (q : FixedOrScalableQuantity) : Outcome Z :=
  assert (negb (isScalable q) || isZero q)
         "Request for a fixed element count on a scalable object"
         (Ok (getKnownMinValue q)).

(** The four ordering predicates, guard by guard as in the source. *)
Definition isKnownLT (LHS RHS : FixedOrScalableQuantity) : bool :=
  if negb (isScalable LHS) || ScaleID.eqb (Scale RHS) (Scale LHS)
  then getKnownMinValue LHS <? getKnownMinValue RHS
  else false.

Definition isKnownGT (LHS RHS : FixedOrScalableQuantity) : bool :=
  if isScalable LHS || ScaleID.eqb (Scale RHS) (Scale LHS)
  then getKnownMinValue LHS >? getKnownMinValue RHS
  else false.

Definition isKnownLE (LHS RHS : FixedOrScalableQuantity) : bool :=
  if negb (isScalable LHS) || ScaleID.eqb (Scale RHS) (Scale LHS)
  then getKnownMinValue LHS <=? getKnownMinValue RHS
  else false.

Definition isKnownGE (LHS RHS : FixedOrScalableQuantity) : bool :=
  if negb (isScalable LHS) || ScaleID.eqb (Scale RHS) (Scale LHS)
  then getKnownMinValue LHS >=? getKnownMinValue RHS
  else false.

Section ScalarTy.

(** Bit width of [ScalarTy]. *)
Variable w : N.

(** [LeafTy::get(Quantity, Scale)] *)
Definition get (Quantity : Z) (Scale : ScaleID.t) : FixedOrScalableQuantity :=
  mk Quantity Scale.

(** The contract shared by [operator+=] and [operator-=]. *)
Definition compatible (LHS RHS : FixedOrScalableQuantity) : bool :=
  (Quantity LHS =? 0) || (Quantity RHS =? 0) || ScaleID.eqb (Scale LHS) (Scale RHS).

Definition operator_plus_eq (LHS RHS : FixedOrScalableQuantity)
  : Outcome FixedOrScalableQuantity :=
  assert (compatible LHS RHS) "Incompatible types"
    (let Quantity' := wrap w (Quantity LHS + Quantity RHS) in
     let Scale' := if negb (isZero RHS) then Scale RHS else Scale LHS in
     Ok (mk Quantity' Scale')).

Definition operator_minus_eq (LHS RHS : FixedOrScalableQuantity)
  : Outcome FixedOrScalableQuantity :=
  assert (compatible LHS RHS) "Incompatible types"
    (let Quantity' := wrap w (Quantity LHS - Quantity RHS) in
     let Scale' := if negb (isZero RHS) then Scale RHS else Scale LHS in
     Ok (mk Quantity' Scale')).

Definition operator_times_eq (LHS : FixedOrScalableQuantity) (RHS : Z)
  : FixedOrScalableQuantity :=
  mk (wrap w (Quantity LHS * RHS)) (Scale LHS).

(** [operator+], [operator-], [operator*]: copy, then the compound form. *)
Definition operator_plus (LHS RHS : FixedOrScalableQuantity) :=
  let Copy := LHS in operator_plus_eq Copy RHS.
Definition operator_minus (LHS RHS : FixedOrScalableQuantity) :=
  let Copy := LHS in operator_minus_eq Copy RHS.
Definition operator_times (LHS : FixedOrScalableQuantity) (RHS : Z) :=
  let Copy := LHS in operator_times_eq Copy RHS.

Definition getWithIncrement (q : FixedOrScalableQuantity) (RHS : Z) :=
  get (wrap w (Quantity q + RHS)) (Scale q).

(** [getKnownMinValue() % RHS == 0], no test of [RHS] before the [%]. *)
Definition isKnownMultipleOf (q : FixedOrScalableQuantity) (RHS : Z) : Outcome bool :=
  if RHS =? 0 then DivisionByZero
  else Ok (getKnownMinValue q mod RHS =? 0).

(** [LeafTy::get(getKnownMinValue() / RHS, getScale())], no test of
    [RHS] before the [/]. *)
Definition divideCoefficientBy (q : FixedOrScalableQuantity) (RHS : Z)
  : Outcome FixedOrScalableQuantity :=
  if RHS =? 0 then DivisionByZero
  else Ok (get (getKnownMinValue q / RHS) (getScale q)).

Definition multiplyCoefficientBy (q : FixedOrScalableQuantity) (RHS : Z)
  : FixedOrScalableQuantity :=
  get (wrap w (getKnownMinValue q * RHS)) (getScale q).

(** [getScale() == RHS.getScale() && getKnownMinValue() % RHS.getKnownMinValue() == 0]:
    the [&&] evaluates the [%] only when the scales are equal. *)
Definition hasKnownScalarFactor (q RHS : FixedOrScalableQuantity) : Outcome bool :=
  if ScaleID.eqb (getScale q) (getScale RHS) then
    if getKnownMinValue RHS =? 0 then DivisionByZero
    else Ok (getKnownMinValue q mod getKnownMinValue RHS =? 0)
  else Ok false.

Definition getKnownScalarFactor (q RHS : FixedOrScalableQuantity) : Outcome Z :=
  (b <- hasKnownScalarFactor q RHS ;;
   assert b "Expected RHS to be a known factor!"
     (if getKnownMinValue RHS =? 0 then DivisionByZero
      else Ok (getKnownMinValue q / getKnownMinValue RHS)))%outcome.

End ScalarTy.

(** [explicit operator bool()] *)
Definition to_bool (q : FixedOrScalableQuantity) : bool := isNonZero q.

(** Modelled from the spec: [raw_ostream::operator<<] on an unsigned
    integer ([raw_ostream.h], absent from the sources) writes its decimal
    digits. *)
Definition decimal (x : Z) : string :=
  NilZero.string_of_uint (N.to_uint (Z.to_N x)).

(** [void print(raw_ostream &OS) const]: the text written to [OS]. *)
Definition print (q : FixedOrScalableQuantity) : string :=
  ((if isScalableV q then "vscale x "
    else if isScalableM q then "mscale x "
    else if isScalableN q then "nscale x "
    else if isScalableMN q then "mnscale x "
    else "")
   ++ decimal (getKnownMinValue q))%string.

(** [0 <= Quantity < 2^w]: the values a [ScalarTy] of [w] bits holds. *)
Definition in_range (w : N) (q : FixedOrScalableQuantity) : Prop :=
  0 <= Quantity q < 2 ^ Z.of_N w.

End details.

Definition FixedOrScalableQuantity : Type := details.FixedOrScalableQuantity.

(** ** class ElementCount : FixedOrScalableQuantity<ElementCount, unsigned> *)
Module ElementCount.

Definition t : Type := FixedOrScalableQuantity.
Definition ScalarBits : N := 32%N.

Definition getFixed (MinVal : Z) : t := details.of_bool MinVal false.
Definition getScalable (MinVal : Z) : t := details.of_bool MinVal true.
Definition get_bool (MinVal : Z) (Scalable : bool) : t := details.of_bool MinVal Scalable.
Definition get (MinVal : Z) (Scale : ScaleID.t) : t := details.mk MinVal Scale.

(** Exactly one element. *)
Definition isScalar (c : t) : bool :=
  negb (details.isScalable c) && (details.getKnownMinValue c =? 1).

(** One or more elements. *)
Definition isVector (c : t) : bool :=
  (details.isScalableV c && negb (details.getKnownMinValue c =? 0))
  || (details.getKnownMinValue c >? 1).

End ElementCount.

(** ** template <> struct DenseMapInfo<ElementCount, void> *)
Module DenseMapInfo.

(** [~0U] *)
Definition all_ones : Z := wrap ElementCount.ScalarBits (Z.lnot 0).

Definition getEmptyKey : ElementCount.t := ElementCount.getScalable all_ones.

Definition getTombstoneKey : ElementCount.t :=
  ElementCount.getFixed (wrap ElementCount.ScalarBits (all_ones - 1)).

Definition getHashValue (EltCnt : ElementCount.t) : Z :=
  let HashVal := wrap ElementCount.ScalarBits (details.getKnownMinValue EltCnt * 37) in
  if details.isScalable EltCnt then wrap ElementCount.ScalarBits (HashVal - 1)
  else HashVal.

Definition isEqual (LHS RHS : ElementCount.t) : bool := details.operator_eq LHS RHS.

End DenseMapInfo.

(** ** class TypeSize : FixedOrScalableQuantity<TypeSize, uint64_t> *)
Module TypeSize.

Definition t : Type := FixedOrScalableQuantity.
Definition ScalarBits : N := 64%N.

Definition get_bool (Quantity : Z) (Scalable : bool) : t := details.of_bool Quantity Scalable.
Definition get (Quantity : Z) (Scale : ScaleID.t) : t := details.mk Quantity Scale.
Definition getFixed (ExactSize : Z) : t := details.of_bool ExactSize false.
Definition getScalable (MinimumSize : Z) : t := details.of_bool MinimumSize true.

(** [alignTo(Size, Align)]:
    [{(Size.getKnownMinValue() + Align - 1) / Align * Align, Size.getScale()}],
    every operator on [uint64_t]. *)
Definition alignTo (Size : t) (Align : Z) : Outcome t :=
  assert (negb (Align =? 0)) "Align must be non-zero"
    (let sum := wrap ScalarBits (details.getKnownMinValue Size + Align) in
     let dec := wrap ScalarBits (sum - 1) in
     let quo := dec / Align in
     Ok (get (wrap ScalarBits (quo * Align)) (details.getScale Size))).

(** [2^64], and the magnitude of [alignTo] in closed form: the two
    wrap-arounds of the sum folded into one, the wrap-around of the
    product dropped. *)
Definition modulus : Z := 2 ^ Z.of_N ScalarBits.
Definition aligned (q n : Z) : Z := ((q + n - 1) mod modulus) / n * n.

End TypeSize.

(* ===================================================================== *)
(** * The structural type graph (external collaborator) *)
(* ===================================================================== *)

(** Modelled from the spec: the structural types ([llvm/IR/Type.h],
    [llvm/IR/DerivedTypes.h], absent from the sources) as far as
    ValueTypes.cpp queries them: one constructor per [Type::TypeID] that
    the file names, with the payload its [cast<...>] accessors read, and
    [MetadataTy], [LabelTy], [TokenTy] for identifiers the file does not
    name.  The [LLVMContext] only interns types and is left out. *)
Module IR.

Inductive Ty : Type :=
| VoidTy                                        (* VoidTyID *)
| IntegerTy (BitWidth : Z)                      (* IntegerTyID *)
| BF8Ty | HF8Ty                                 (* BF8TyID, HF8TyID *)
| HalfTy | BFloatTy | FloatTy | DoubleTy        (* HalfTyID ... DoubleTyID *)
| X86_FP80Ty | FP128Ty | PPC_FP128Ty
| X86_MMXTy | X86_AMXTy
| TargetExtTy (Name : string)                   (* TargetExtTyID *)
| PointerTy (AddressSpace : Z)                  (* PointerTyID *)
| FixedVectorTy (ElementType : Ty) (NumElts : Z)
| ScalableVectorTy (ElementType : Ty) (MinNumElts : Z)
| ScalableMatrixTy (ElementType : Ty) (NumElts NumElts2 : Z) (Scalable : bool)
| MetadataTy | LabelTy | TokenTy.

Definition getVoidTy : Ty := VoidTy.
Definition IntegerType_get (NumBits : Z) : Ty := IntegerTy NumBits.
Definition getIntNTy (N : Z) : Ty := IntegerType_get N.
Definition getInt1Ty : Ty := IntegerTy 1.
Definition getInt8Ty : Ty := IntegerTy 8.
Definition getInt16Ty : Ty := IntegerTy 16.
Definition getInt32Ty : Ty := IntegerTy 32.
Definition getInt64Ty : Ty := IntegerTy 64.
Definition getInt128Ty : Ty := IntegerTy 128.
Definition getBF8Ty : Ty := BF8Ty.
Definition getHF8Ty : Ty := HF8Ty.
Definition getHalfTy : Ty := HalfTy.
Definition getBFloatTy : Ty := BFloatTy.
Definition getFloatTy : Ty := FloatTy.
Definition getDoubleTy : Ty := DoubleTy.
Definition getX86_FP80Ty : Ty := X86_FP80Ty.
Definition getFP128Ty : Ty := FP128Ty.
Definition getPPC_FP128Ty : Ty := PPC_FP128Ty.
Definition getX86_MMXTy : Ty := X86_MMXTy.
Definition getX86_AMXTy : Ty := X86_AMXTy.
Definition getMetadataTy : Ty := MetadataTy.
Definition TargetExtType_get (Name : string) : Ty := TargetExtTy Name.
(** WebAssembly reference types are opaque pointers in address spaces 10 and 20. *)
Definition getWasm_ExternrefTy : Ty := PointerTy 10.
Definition getWasm_FuncrefTy : Ty := PointerTy 20.
Definition FixedVectorType_get (ElementType : Ty) (NumElts : Z) : Ty :=
  FixedVectorTy ElementType NumElts.
Definition ScalableVectorType_get (ElementType : Ty) (MinNumElts : Z) : Ty :=
  ScalableVectorTy ElementType MinNumElts.
Definition ScalableMatrixType_get (ElementType : Ty) (NumElts NumElts2 : Z)
           (Scalable : bool) : Ty :=
  ScalableMatrixTy ElementType NumElts NumElts2 Scalable.

(** [VectorType::get(ElementType, EC)] *)
Definition VectorType_get (ElementType : Ty) (EC : ElementCount.t) : Ty :=
  if details.isScalable EC
  then ScalableVectorType_get ElementType (details.getKnownMinValue EC)
  else FixedVectorType_get ElementType (details.getKnownMinValue EC).

(** A [Type *], possibly [nullptr]. *)
Definition TypePtr : Type := option Ty.

(** Modelled from the spec: the kind queries of [Type] and the
    [isa<...>]/[cast<VectorType>] tests of ValueTypes.cpp. *)
Definition isIntegerTy (T : Ty) : bool :=
  match T with IntegerTy _ => true | _ => false end.
Definition isFixedVectorTy (T : Ty) : bool :=
  match T with FixedVectorTy _ _ => true | _ => false end.
Definition isScalableVectorTy (T : Ty) : bool :=
  match T with ScalableVectorTy _ _ => true | _ => false end.
Definition isVectorTy (T : Ty) : bool := isFixedVectorTy T || isScalableVectorTy T.

End IR.

(* ===================================================================== *)
(** * ValueTypes.cpp *)
(* ===================================================================== *)

(** ** class MVT

    The file is read with its two conditional regions, [SCALABLE_MATRIX]
    and [FP8_DATATYPES], compiled in (the braces of [MVT::getVT] only
    balance when [SCALABLE_MATRIX] is defined). *)
Module MVT.

(** Modelled from the spec: the closed enumeration [MVT::SimpleValueType]
    ([MachineValueType.h] and the generated [GenVT.inc], absent from the
    sources).  Its enumerators are the tags ValueTypes.cpp names: the
    invalid/extended sentinel, every [case] of [EVT::getTypeForEVT] in
    the order of the switch, then the tags only named by
    [EVT::getEVTString] and [MVT::getVT]. *)
Inductive SimpleValueType : Type :=
| INVALID_SIMPLE_VALUE_TYPE | isVoid | i1 | i2 | i4 | i8 | i16 | i32 | i64 | i128 | f16
| bf16 | bf8 | hf8 | f32 | f64 | f80 | f128 | ppcf128 | x86mmx | aarch64svcount | x86amx
| i64x8 | externref | funcref | v1i1 | v2i1 | v4i1 | v8i1 | v16i1 | v32i1 | v64i1
| v128i1 | v256i1 | v512i1 | v1024i1 | v2048i1 | v128i2 | v256i2 | v64i4 | v128i4 | v1i8
| v2i8 | v4i8 | v8i8 | v16i8 | v32i8 | v64i8 | v128i8 | v256i8 | v512i8 | v1024i8 | v1i16
| v2i16 | v3i16 | v4i16 | v8i16 | v16i16 | v32i16 | v64i16 | v128i16 | v256i16 | v512i16
| v1i32 | v2i32 | v3i32 | v4i32 | v5i32 | v6i32 | v7i32 | v8i32 | v9i32 | v10i32 | v11i32
| v12i32 | v16i32 | v32i32 | v64i32 | v128i32 | v256i32 | v512i32 | v1024i32 | v2048i32
| v1i64 | v2i64 | v3i64 | v4i64 | v8i64 | v16i64 | v32i64 | v64i64 | v128i64 | v256i64
| v1i128 | v1f16 | v2f16 | v3f16 | v4f16 | v8f16 | v16f16 | v32f16 | v64f16 | v128f16
| v256f16 | v512f16 | v2bf16 | v3bf16 | v4bf16 | v8bf16 | v16bf16 | v32bf16 | v64bf16
| v128bf16 | v1f32 | v2f32 | v3f32 | v4f32 | v5f32 | v6f32 | v7f32 | v8f32 | v9f32
| v10f32 | v11f32 | v12f32 | v16f32 | v32f32 | v64f32 | v128f32 | v256f32 | v512f32
| v1024f32 | v2048f32 | v1f64 | v2f64 | v3f64 | v4f64 | v8f64 | v16f64 | v32f64 | v64f64
| v128f64 | v256f64 | nxv1i1 | nxv2i1 | nxv4i1 | nxv8i1 | nxv16i1 | nxv32i1 | nxv64i1
| nxv1i8 | nxv2i8 | nxv4i8 | nxv8i8 | nxv16i8 | nxv32i8 | nxv64i8 | nxv1i16 | nxv2i16
| nxv4i16 | nxv8i16 | nxv16i16 | nxv32i16 | nxv1i32 | nxv2i32 | nxv4i32 | nxv8i32
| nxv16i32 | nxv32i32 | nxv1i64 | nxv2i64 | nxv4i64 | nxv8i64 | nxv16i64 | nxv32i64
| nxv1f16 | nxv2f16 | nxv4f16 | nxv8f16 | nxv16f16 | nxv32f16 | nxv1bf16 | nxv2bf16
| nxv4bf16 | nxv8bf16 | nxv16bf16 | nxv32bf16 | nxv1f32 | nxv2f32 | nxv4f32 | nxv8f32
| nxv16f32 | nxv1f64 | nxv2f64 | nxv4f64 | nxv8f64 | nxv1bf8 | nxv2bf8 | nxv4bf8
| nxv8bf8 | nxv16bf8 | nxv32bf8 | nxv64bf8 | nxv1hf8 | nxv2hf8 | nxv4hf8 | nxv8hf8
| nxv16hf8 | nxv32hf8 | nxv64hf8 | m1x1xi8 | m1x2xi8 | m1x4xi8 | m1x8xi8 | m1x16xi8
| m1x32xi8 | m1x64xi8 | m1x1xi16 | m1x2xi16 | m1x4xi16 | m1x8xi16 | m1x16xi16 | m1x32xi16
| m1x1xi32 | m1x2xi32 | m1x4xi32 | m1x8xi32 | m1x16xi32 | m1x1xi64 | m1x2xi64 | m1x4xi64
| m1x8xi64 | m1x1xbf8 | m1x2xbf8 | m1x4xbf8 | m1x8xbf8 | m1x16xbf8 | m1x32xbf8
| m1x64xbf8 | m1x1xhf8 | m1x2xhf8 | m1x4xhf8 | m1x8xhf8 | m1x16xhf8 | m1x32xhf8
| m1x64xhf8 | m1x1xbf16 | m1x2xbf16 | m1x4xbf16 | m1x8xbf16 | m1x16xbf16 | m1x32xbf16
| m1x1xf16 | m1x2xf16 | m1x4xf16 | m1x8xf16 | m1x16xf16 | m1x32xf16 | m1x1xf32 | m1x2xf32
| m1x4xf32 | m1x8xf32 | m1x16xf32 | m1x1xf64 | m1x2xf64 | m1x4xf64 | m1x8xf64
| mx1xnx1xi8 | mx1xnx2xi8 | mx1xnx4xi8 | mx1xnx8xi8 | mx1xnx16xi8 | mx1xnx32xi8
| mx1xnx64xi8 | mx1xnx1xi16 | mx1xnx2xi16 | mx1xnx4xi16 | mx1xnx8xi16 | mx1xnx16xi16
| mx1xnx32xi16 | mx1xnx1xi32 | mx1xnx2xi32 | mx1xnx4xi32 | mx1xnx8xi32 | mx1xnx16xi32
| mx1xnx1xi64 | mx1xnx2xi64 | mx1xnx4xi64 | mx1xnx8xi64 | mx1xnx1xbf8 | mx1xnx2xbf8
| mx1xnx4xbf8 | mx1xnx8xbf8 | mx1xnx16xbf8 | mx1xnx32xbf8 | mx1xnx64xbf8 | mx1xnx1xhf8
| mx1xnx2xhf8 | mx1xnx4xhf8 | mx1xnx8xhf8 | mx1xnx16xhf8 | mx1xnx32xhf8 | mx1xnx64xhf8
| mx1xnx1xbf16 | mx1xnx2xbf16 | mx1xnx4xbf16 | mx1xnx8xbf16 | mx1xnx16xbf16
| mx1xnx32xbf16 | mx1xnx1xf16 | mx1xnx2xf16 | mx1xnx4xf16 | mx1xnx8xf16 | mx1xnx16xf16
| mx1xnx32xf16 | mx1xnx1xf32 | mx1xnx2xf32 | mx1xnx4xf32 | mx1xnx8xf32 | mx1xnx16xf32
| mx1xnx1xf64 | mx1xnx2xf64 | mx1xnx4xf64 | mx1xnx8xf64 | Metadata | Other | Glue
| Untyped | spirvbuiltin | iPTR.

Definition t : Type := SimpleValueType.

(** Modelled from the spec: the enumerators' integer values are not in
    the sources; only that they are distinct matters, so they are
    numbered in the order of the declaration above. *)
Definition ordinal (t : SimpleValueType) : Z :=
  match t with
  | INVALID_SIMPLE_VALUE_TYPE => 0 | isVoid => 1 | i1 => 2 | i2 => 3 | i4 => 4 | i8 => 5
  | i16 => 6 | i32 => 7 | i64 => 8 | i128 => 9 | f16 => 10 | bf16 => 11 | bf8 => 12
  | hf8 => 13 | f32 => 14 | f64 => 15 | f80 => 16 | f128 => 17 | ppcf128 => 18
  | x86mmx => 19 | aarch64svcount => 20 | x86amx => 21 | i64x8 => 22 | externref => 23
  | funcref => 24 | v1i1 => 25 | v2i1 => 26 | v4i1 => 27 | v8i1 => 28 | v16i1 => 29
  | v32i1 => 30 | v64i1 => 31 | v128i1 => 32 | v256i1 => 33 | v512i1 => 34
  | v1024i1 => 35 | v2048i1 => 36 | v128i2 => 37 | v256i2 => 38 | v64i4 => 39
  | v128i4 => 40 | v1i8 => 41 | v2i8 => 42 | v4i8 => 43 | v8i8 => 44 | v16i8 => 45
  | v32i8 => 46 | v64i8 => 47 | v128i8 => 48 | v256i8 => 49 | v512i8 => 50
  | v1024i8 => 51 | v1i16 => 52 | v2i16 => 53 | v3i16 => 54 | v4i16 => 55 | v8i16 => 56
  | v16i16 => 57 | v32i16 => 58 | v64i16 => 59 | v128i16 => 60 | v256i16 => 61
  | v512i16 => 62 | v1i32 => 63 | v2i32 => 64 | v3i32 => 65 | v4i32 => 66 | v5i32 => 67
  | v6i32 => 68 | v7i32 => 69 | v8i32 => 70 | v9i32 => 71 | v10i32 => 72 | v11i32 => 73
  | v12i32 => 74 | v16i32 => 75 | v32i32 => 76 | v64i32 => 77 | v128i32 => 78
  | v256i32 => 79 | v512i32 => 80 | v1024i32 => 81 | v2048i32 => 82 | v1i64 => 83
  | v2i64 => 84 | v3i64 => 85 | v4i64 => 86 | v8i64 => 87 | v16i64 => 88 | v32i64 => 89
  | v64i64 => 90 | v128i64 => 91 | v256i64 => 92 | v1i128 => 93 | v1f16 => 94
  | v2f16 => 95 | v3f16 => 96 | v4f16 => 97 | v8f16 => 98 | v16f16 => 99 | v32f16 => 100
  | v64f16 => 101 | v128f16 => 102 | v256f16 => 103 | v512f16 => 104 | v2bf16 => 105
  | v3bf16 => 106 | v4bf16 => 107 | v8bf16 => 108 | v16bf16 => 109 | v32bf16 => 110
  | v64bf16 => 111 | v128bf16 => 112 | v1f32 => 113 | v2f32 => 114 | v3f32 => 115
  | v4f32 => 116 | v5f32 => 117 | v6f32 => 118 | v7f32 => 119 | v8f32 => 120
  | v9f32 => 121 | v10f32 => 122 | v11f32 => 123 | v12f32 => 124 | v16f32 => 125
  | v32f32 => 126 | v64f32 => 127 | v128f32 => 128 | v256f32 => 129 | v512f32 => 130
  | v1024f32 => 131 | v2048f32 => 132 | v1f64 => 133 | v2f64 => 134 | v3f64 => 135
  | v4f64 => 136 | v8f64 => 137 | v16f64 => 138 | v32f64 => 139 | v64f64 => 140
  | v128f64 => 141 | v256f64 => 142 | nxv1i1 => 143 | nxv2i1 => 144 | nxv4i1 => 145
  | nxv8i1 => 146 | nxv16i1 => 147 | nxv32i1 => 148 | nxv64i1 => 149 | nxv1i8 => 150
  | nxv2i8 => 151 | nxv4i8 => 152 | nxv8i8 => 153 | nxv16i8 => 154 | nxv32i8 => 155
  | nxv64i8 => 156 | nxv1i16 => 157 | nxv2i16 => 158 | nxv4i16 => 159 | nxv8i16 => 160
  | nxv16i16 => 161 | nxv32i16 => 162 | nxv1i32 => 163 | nxv2i32 => 164 | nxv4i32 => 165
  | nxv8i32 => 166 | nxv16i32 => 167 | nxv32i32 => 168 | nxv1i64 => 169 | nxv2i64 => 170
  | nxv4i64 => 171 | nxv8i64 => 172 | nxv16i64 => 173 | nxv32i64 => 174 | nxv1f16 => 175
  | nxv2f16 => 176 | nxv4f16 => 177 | nxv8f16 => 178 | nxv16f16 => 179 | nxv32f16 => 180
  | nxv1bf16 => 181 | nxv2bf16 => 182 | nxv4bf16 => 183 | nxv8bf16 => 184
  | nxv16bf16 => 185 | nxv32bf16 => 186 | nxv1f32 => 187 | nxv2f32 => 188
  | nxv4f32 => 189 | nxv8f32 => 190 | nxv16f32 => 191 | nxv1f64 => 192 | nxv2f64 => 193
  | nxv4f64 => 194 | nxv8f64 => 195 | nxv1bf8 => 196 | nxv2bf8 => 197 | nxv4bf8 => 198
  | nxv8bf8 => 199 | nxv16bf8 => 200 | nxv32bf8 => 201 | nxv64bf8 => 202 | nxv1hf8 => 203
  | nxv2hf8 => 204 | nxv4hf8 => 205 | nxv8hf8 => 206 | nxv16hf8 => 207 | nxv32hf8 => 208
  | nxv64hf8 => 209 | m1x1xi8 => 210 | m1x2xi8 => 211 | m1x4xi8 => 212 | m1x8xi8 => 213
  | m1x16xi8 => 214 | m1x32xi8 => 215 | m1x64xi8 => 216 | m1x1xi16 => 217
  | m1x2xi16 => 218 | m1x4xi16 => 219 | m1x8xi16 => 220 | m1x16xi16 => 221
  | m1x32xi16 => 222 | m1x1xi32 => 223 | m1x2xi32 => 224 | m1x4xi32 => 225
  | m1x8xi32 => 226 | m1x16xi32 => 227 | m1x1xi64 => 228 | m1x2xi64 => 229
  | m1x4xi64 => 230 | m1x8xi64 => 231 | m1x1xbf8 => 232 | m1x2xbf8 => 233
  | m1x4xbf8 => 234 | m1x8xbf8 => 235 | m1x16xbf8 => 236 | m1x32xbf8 => 237
  | m1x64xbf8 => 238 | m1x1xhf8 => 239 | m1x2xhf8 => 240 | m1x4xhf8 => 241
  | m1x8xhf8 => 242 | m1x16xhf8 => 243 | m1x32xhf8 => 244 | m1x64xhf8 => 245
  | m1x1xbf16 => 246 | m1x2xbf16 => 247 | m1x4xbf16 => 248 | m1x8xbf16 => 249
  | m1x16xbf16 => 250 | m1x32xbf16 => 251 | m1x1xf16 => 252 | m1x2xf16 => 253
  | m1x4xf16 => 254 | m1x8xf16 => 255 | m1x16xf16 => 256 | m1x32xf16 => 257
  | m1x1xf32 => 258 | m1x2xf32 => 259 | m1x4xf32 => 260 | m1x8xf32 => 261
  | m1x16xf32 => 262 | m1x1xf64 => 263 | m1x2xf64 => 264 | m1x4xf64 => 265
  | m1x8xf64 => 266 | mx1xnx1xi8 => 267 | mx1xnx2xi8 => 268 | mx1xnx4xi8 => 269
  | mx1xnx8xi8 => 270 | mx1xnx16xi8 => 271 | mx1xnx32xi8 => 272 | mx1xnx64xi8 => 273
  | mx1xnx1xi16 => 274 | mx1xnx2xi16 => 275 | mx1xnx4xi16 => 276 | mx1xnx8xi16 => 277
  | mx1xnx16xi16 => 278 | mx1xnx32xi16 => 279 | mx1xnx1xi32 => 280 | mx1xnx2xi32 => 281
  | mx1xnx4xi32 => 282 | mx1xnx8xi32 => 283 | mx1xnx16xi32 => 284 | mx1xnx1xi64 => 285
  | mx1xnx2xi64 => 286 | mx1xnx4xi64 => 287 | mx1xnx8xi64 => 288 | mx1xnx1xbf8 => 289
  | mx1xnx2xbf8 => 290 | mx1xnx4xbf8 => 291 | mx1xnx8xbf8 => 292 | mx1xnx16xbf8 => 293
  | mx1xnx32xbf8 => 294 | mx1xnx64xbf8 => 295 | mx1xnx1xhf8 => 296 | mx1xnx2xhf8 => 297
  | mx1xnx4xhf8 => 298 | mx1xnx8xhf8 => 299 | mx1xnx16xhf8 => 300 | mx1xnx32xhf8 => 301
  | mx1xnx64xhf8 => 302 | mx1xnx1xbf16 => 303 | mx1xnx2xbf16 => 304 | mx1xnx4xbf16 => 305
  | mx1xnx8xbf16 => 306 | mx1xnx16xbf16 => 307 | mx1xnx32xbf16 => 308
  | mx1xnx1xf16 => 309 | mx1xnx2xf16 => 310 | mx1xnx4xf16 => 311 | mx1xnx8xf16 => 312
  | mx1xnx16xf16 => 313 | mx1xnx32xf16 => 314 | mx1xnx1xf32 => 315 | mx1xnx2xf32 => 316
  | mx1xnx4xf32 => 317 | mx1xnx8xf32 => 318 | mx1xnx16xf32 => 319 | mx1xnx1xf64 => 320
  | mx1xnx2xf64 => 321 | mx1xnx4xf64 => 322 | mx1xnx8xf64 => 323 | Metadata => 324
  | Other => 325 | Glue => 326 | Untyped => 327 | spirvbuiltin => 328 | iPTR => 329
  end.

(** The enumerators in the order of their values. *)
Definition enumerators : list t :=
  [
   INVALID_SIMPLE_VALUE_TYPE; isVoid; i1; i2; i4; i8; i16; i32; i64; i128; f16; bf16; bf8;
   hf8; f32; f64; f80; f128; ppcf128; x86mmx; aarch64svcount; x86amx; i64x8; externref;
   funcref; v1i1; v2i1; v4i1; v8i1; v16i1; v32i1; v64i1; v128i1; v256i1; v512i1; v1024i1;
   v2048i1; v128i2; v256i2; v64i4; v128i4; v1i8; v2i8; v4i8; v8i8; v16i8; v32i8; v64i8;
   v128i8; v256i8; v512i8; v1024i8; v1i16; v2i16; v3i16; v4i16; v8i16; v16i16; v32i16;
   v64i16; v128i16; v256i16; v512i16; v1i32; v2i32; v3i32; v4i32; v5i32; v6i32; v7i32;
   v8i32; v9i32; v10i32; v11i32; v12i32; v16i32; v32i32; v64i32; v128i32; v256i32; v512i32;
   v1024i32; v2048i32; v1i64; v2i64; v3i64; v4i64; v8i64; v16i64; v32i64; v64i64; v128i64;
   v256i64; v1i128; v1f16; v2f16; v3f16; v4f16; v8f16; v16f16; v32f16; v64f16; v128f16;
   v256f16; v512f16; v2bf16; v3bf16; v4bf16; v8bf16; v16bf16; v32bf16; v64bf16; v128bf16;
   v1f32; v2f32; v3f32; v4f32; v5f32; v6f32; v7f32; v8f32; v9f32; v10f32; v11f32; v12f32;
   v16f32; v32f32; v64f32; v128f32; v256f32; v512f32; v1024f32; v2048f32; v1f64; v2f64;
   v3f64; v4f64; v8f64; v16f64; v32f64; v64f64; v128f64; v256f64; nxv1i1; nxv2i1; nxv4i1;
   nxv8i1; nxv16i1; nxv32i1; nxv64i1; nxv1i8; nxv2i8; nxv4i8; nxv8i8; nxv16i8; nxv32i8;
   nxv64i8; nxv1i16; nxv2i16; nxv4i16; nxv8i16; nxv16i16; nxv32i16; nxv1i32; nxv2i32;
   nxv4i32; nxv8i32; nxv16i32; nxv32i32; nxv1i64; nxv2i64; nxv4i64; nxv8i64; nxv16i64;
   nxv32i64; nxv1f16; nxv2f16; nxv4f16; nxv8f16; nxv16f16; nxv32f16; nxv1bf16; nxv2bf16;
   nxv4bf16; nxv8bf16; nxv16bf16; nxv32bf16; nxv1f32; nxv2f32; nxv4f32; nxv8f32; nxv16f32;
   nxv1f64; nxv2f64; nxv4f64; nxv8f64; nxv1bf8; nxv2bf8; nxv4bf8; nxv8bf8; nxv16bf8;
   nxv32bf8; nxv64bf8; nxv1hf8; nxv2hf8; nxv4hf8; nxv8hf8; nxv16hf8; nxv32hf8; nxv64hf8;
   m1x1xi8; m1x2xi8; m1x4xi8; m1x8xi8; m1x16xi8; m1x32xi8; m1x64xi8; m1x1xi16; m1x2xi16;
   m1x4xi16; m1x8xi16; m1x16xi16; m1x32xi16; m1x1xi32; m1x2xi32; m1x4xi32; m1x8xi32;
   m1x16xi32; m1x1xi64; m1x2xi64; m1x4xi64; m1x8xi64; m1x1xbf8; m1x2xbf8; m1x4xbf8;
   m1x8xbf8; m1x16xbf8; m1x32xbf8; m1x64xbf8; m1x1xhf8; m1x2xhf8; m1x4xhf8; m1x8xhf8;
   m1x16xhf8; m1x32xhf8; m1x64xhf8; m1x1xbf16; m1x2xbf16; m1x4xbf16; m1x8xbf16; m1x16xbf16;
   m1x32xbf16; m1x1xf16; m1x2xf16; m1x4xf16; m1x8xf16; m1x16xf16; m1x32xf16; m1x1xf32;
   m1x2xf32; m1x4xf32; m1x8xf32; m1x16xf32; m1x1xf64; m1x2xf64; m1x4xf64; m1x8xf64;
   mx1xnx1xi8; mx1xnx2xi8; mx1xnx4xi8; mx1xnx8xi8; mx1xnx16xi8; mx1xnx32xi8; mx1xnx64xi8;
   mx1xnx1xi16; mx1xnx2xi16; mx1xnx4xi16; mx1xnx8xi16; mx1xnx16xi16; mx1xnx32xi16;
   mx1xnx1xi32; mx1xnx2xi32; mx1xnx4xi32; mx1xnx8xi32; mx1xnx16xi32; mx1xnx1xi64;
   mx1xnx2xi64; mx1xnx4xi64; mx1xnx8xi64; mx1xnx1xbf8; mx1xnx2xbf8; mx1xnx4xbf8;
   mx1xnx8xbf8; mx1xnx16xbf8; mx1xnx32xbf8; mx1xnx64xbf8; mx1xnx1xhf8; mx1xnx2xhf8;
   mx1xnx4xhf8; mx1xnx8xhf8; mx1xnx16xhf8; mx1xnx32xhf8; mx1xnx64xhf8; mx1xnx1xbf16;
   mx1xnx2xbf16; mx1xnx4xbf16; mx1xnx8xbf16; mx1xnx16xbf16; mx1xnx32xbf16; mx1xnx1xf16;
   mx1xnx2xf16; mx1xnx4xf16; mx1xnx8xf16; mx1xnx16xf16; mx1xnx32xf16; mx1xnx1xf32;
   mx1xnx2xf32; mx1xnx4xf32; mx1xnx8xf32; mx1xnx16xf32; mx1xnx1xf64; mx1xnx2xf64;
   mx1xnx4xf64; mx1xnx8xf64; Metadata; Other; Glue; Untyped; spirvbuiltin; iPTR
  ].

(** [VT.SimpleTy == MVT::Tag] *)
Definition eqb (a b : t) : bool := ordinal a =? ordinal b.

(** Modelled from the spec: [MVT::getIntegerVT(BitWidth)], the enumerated
    integer tag of exactly that bit-width, the invalid sentinel when the
    enumeration has none. *)
Definition getIntegerVT (BitWidth : Z) : t :=
  match BitWidth with
  | 1 => i1
  | 2 => i2
  | 4 => i4
  | 8 => i8
  | 16 => i16
  | 32 => i32
  | 64 => i64
  | 128 => i128
  | _ => INVALID_SIMPLE_VALUE_TYPE
  end.

(** Modelled from the spec: the vector rows of [GenVT.inc],
    (tag, scalable, element count, element tag), one per enumerated
    vector tag, as the tag's name spells them. *)
Definition GenVT_VECATTR : list (t * bool * Z * t) :=
  [
     (v1i1, false, 1, i1); (v2i1, false, 2, i1); (v4i1, false, 4, i1);
     (v8i1, false, 8, i1); (v16i1, false, 16, i1); (v32i1, false, 32, i1);
     (v64i1, false, 64, i1); (v128i1, false, 128, i1); (v256i1, false, 256, i1);
     (v512i1, false, 512, i1); (v1024i1, false, 1024, i1); (v2048i1, false, 2048, i1);
     (v128i2, false, 128, i2); (v256i2, false, 256, i2); (v64i4, false, 64, i4);
     (v128i4, false, 128, i4); (v1i8, false, 1, i8); (v2i8, false, 2, i8);
     (v4i8, false, 4, i8); (v8i8, false, 8, i8); (v16i8, false, 16, i8);
     (v32i8, false, 32, i8); (v64i8, false, 64, i8); (v128i8, false, 128, i8);
     (v256i8, false, 256, i8); (v512i8, false, 512, i8); (v1024i8, false, 1024, i8);
     (v1i16, false, 1, i16); (v2i16, false, 2, i16); (v3i16, false, 3, i16);
     (v4i16, false, 4, i16); (v8i16, false, 8, i16); (v16i16, false, 16, i16);
     (v32i16, false, 32, i16); (v64i16, false, 64, i16); (v128i16, false, 128, i16);
     (v256i16, false, 256, i16); (v512i16, false, 512, i16); (v1i32, false, 1, i32);
     (v2i32, false, 2, i32); (v3i32, false, 3, i32); (v4i32, false, 4, i32);
     (v5i32, false, 5, i32); (v6i32, false, 6, i32); (v7i32, false, 7, i32);
     (v8i32, false, 8, i32); (v9i32, false, 9, i32); (v10i32, false, 10, i32);
     (v11i32, false, 11, i32); (v12i32, false, 12, i32); (v16i32, false, 16, i32);
     (v32i32, false, 32, i32); (v64i32, false, 64, i32); (v128i32, false, 128, i32);
     (v256i32, false, 256, i32); (v512i32, false, 512, i32); (v1024i32, false, 1024, i32);
     (v2048i32, false, 2048, i32); (v1i64, false, 1, i64); (v2i64, false, 2, i64);
     (v3i64, false, 3, i64); (v4i64, false, 4, i64); (v8i64, false, 8, i64);
     (v16i64, false, 16, i64); (v32i64, false, 32, i64); (v64i64, false, 64, i64);
     (v128i64, false, 128, i64); (v256i64, false, 256, i64); (v1i128, false, 1, i128);
     (v1f16, false, 1, f16); (v2f16, false, 2, f16); (v3f16, false, 3, f16);
     (v4f16, false, 4, f16); (v8f16, false, 8, f16); (v16f16, false, 16, f16);
     (v32f16, false, 32, f16); (v64f16, false, 64, f16); (v128f16, false, 128, f16);
     (v256f16, false, 256, f16); (v512f16, false, 512, f16); (v2bf16, false, 2, bf16);
     (v3bf16, false, 3, bf16); (v4bf16, false, 4, bf16); (v8bf16, false, 8, bf16);
     (v16bf16, false, 16, bf16); (v32bf16, false, 32, bf16); (v64bf16, false, 64, bf16);
     (v128bf16, false, 128, bf16); (v1f32, false, 1, f32); (v2f32, false, 2, f32);
     (v3f32, false, 3, f32); (v4f32, false, 4, f32); (v5f32, false, 5, f32);
     (v6f32, false, 6, f32); (v7f32, false, 7, f32); (v8f32, false, 8, f32);
     (v9f32, false, 9, f32); (v10f32, false, 10, f32); (v11f32, false, 11, f32);
     (v12f32, false, 12, f32); (v16f32, false, 16, f32); (v32f32, false, 32, f32);
     (v64f32, false, 64, f32); (v128f32, false, 128, f32); (v256f32, false, 256, f32);
     (v512f32, false, 512, f32); (v1024f32, false, 1024, f32);
     (v2048f32, false, 2048, f32); (v1f64, false, 1, f64); (v2f64, false, 2, f64);
     (v3f64, false, 3, f64); (v4f64, false, 4, f64); (v8f64, false, 8, f64);
     (v16f64, false, 16, f64); (v32f64, false, 32, f64); (v64f64, false, 64, f64);
     (v128f64, false, 128, f64); (v256f64, false, 256, f64); (nxv1i1, true, 1, i1);
     (nxv2i1, true, 2, i1); (nxv4i1, true, 4, i1); (nxv8i1, true, 8, i1);
     (nxv16i1, true, 16, i1); (nxv32i1, true, 32, i1); (nxv64i1, true, 64, i1);
     (nxv1i8, true, 1, i8); (nxv2i8, true, 2, i8); (nxv4i8, true, 4, i8);
     (nxv8i8, true, 8, i8); (nxv16i8, true, 16, i8); (nxv32i8, true, 32, i8);
     (nxv64i8, true, 64, i8); (nxv1i16, true, 1, i16); (nxv2i16, true, 2, i16);
     (nxv4i16, true, 4, i16); (nxv8i16, true, 8, i16); (nxv16i16, true, 16, i16);
     (nxv32i16, true, 32, i16); (nxv1i32, true, 1, i32); (nxv2i32, true, 2, i32);
     (nxv4i32, true, 4, i32); (nxv8i32, true, 8, i32); (nxv16i32, true, 16, i32);
     (nxv32i32, true, 32, i32); (nxv1i64, true, 1, i64); (nxv2i64, true, 2, i64);
     (nxv4i64, true, 4, i64); (nxv8i64, true, 8, i64); (nxv16i64, true, 16, i64);
     (nxv32i64, true, 32, i64); (nxv1f16, true, 1, f16); (nxv2f16, true, 2, f16);
     (nxv4f16, true, 4, f16); (nxv8f16, true, 8, f16); (nxv16f16, true, 16, f16);
     (nxv32f16, true, 32, f16); (nxv1bf16, true, 1, bf16); (nxv2bf16, true, 2, bf16);
     (nxv4bf16, true, 4, bf16); (nxv8bf16, true, 8, bf16); (nxv16bf16, true, 16, bf16);
     (nxv32bf16, true, 32, bf16); (nxv1f32, true, 1, f32); (nxv2f32, true, 2, f32);
     (nxv4f32, true, 4, f32); (nxv8f32, true, 8, f32); (nxv16f32, true, 16, f32);
     (nxv1f64, true, 1, f64); (nxv2f64, true, 2, f64); (nxv4f64, true, 4, f64);
     (nxv8f64, true, 8, f64); (nxv1bf8, true, 1, bf8); (nxv2bf8, true, 2, bf8);
     (nxv4bf8, true, 4, bf8); (nxv8bf8, true, 8, bf8); (nxv16bf8, true, 16, bf8);
     (nxv32bf8, true, 32, bf8); (nxv64bf8, true, 64, bf8); (nxv1hf8, true, 1, hf8);
     (nxv2hf8, true, 2, hf8); (nxv4hf8, true, 4, hf8); (nxv8hf8, true, 8, hf8);
     (nxv16hf8, true, 16, hf8); (nxv32hf8, true, 32, hf8); (nxv64hf8, true, 64, hf8)
  ].

(** Modelled from the spec: the matrix rows,
    (tag, scalable, rows, columns, element tag), as the names spell them:
    [m<R>x<C>x<elt>] is fixed, [mx<R>xnx<C>x<elt>] is scalable. *)
Definition GenVT_MATATTR : list (t * bool * Z * Z * t) :=
  [
     (m1x1xi8, false, 1, 1, i8); (m1x2xi8, false, 1, 2, i8); (m1x4xi8, false, 1, 4, i8);
     (m1x8xi8, false, 1, 8, i8); (m1x16xi8, false, 1, 16, i8);
     (m1x32xi8, false, 1, 32, i8); (m1x64xi8, false, 1, 64, i8);
     (m1x1xi16, false, 1, 1, i16); (m1x2xi16, false, 1, 2, i16);
     (m1x4xi16, false, 1, 4, i16); (m1x8xi16, false, 1, 8, i16);
     (m1x16xi16, false, 1, 16, i16); (m1x32xi16, false, 1, 32, i16);
     (m1x1xi32, false, 1, 1, i32); (m1x2xi32, false, 1, 2, i32);
     (m1x4xi32, false, 1, 4, i32); (m1x8xi32, false, 1, 8, i32);
     (m1x16xi32, false, 1, 16, i32); (m1x1xi64, false, 1, 1, i64);
     (m1x2xi64, false, 1, 2, i64); (m1x4xi64, false, 1, 4, i64);
     (m1x8xi64, false, 1, 8, i64); (m1x1xbf8, false, 1, 1, bf8);
     (m1x2xbf8, false, 1, 2, bf8); (m1x4xbf8, false, 1, 4, bf8);
     (m1x8xbf8, false, 1, 8, bf8); (m1x16xbf8, false, 1, 16, bf8);
     (m1x32xbf8, false, 1, 32, bf8); (m1x64xbf8, false, 1, 64, bf8);
     (m1x1xhf8, false, 1, 1, hf8); (m1x2xhf8, false, 1, 2, hf8);
     (m1x4xhf8, false, 1, 4, hf8); (m1x8xhf8, false, 1, 8, hf8);
     (m1x16xhf8, false, 1, 16, hf8); (m1x32xhf8, false, 1, 32, hf8);
     (m1x64xhf8, false, 1, 64, hf8); (m1x1xbf16, false, 1, 1, bf16);
     (m1x2xbf16, false, 1, 2, bf16); (m1x4xbf16, false, 1, 4, bf16);
     (m1x8xbf16, false, 1, 8, bf16); (m1x16xbf16, false, 1, 16, bf16);
     (m1x32xbf16, false, 1, 32, bf16); (m1x1xf16, false, 1, 1, f16);
     (m1x2xf16, false, 1, 2, f16); (m1x4xf16, false, 1, 4, f16);
     (m1x8xf16, false, 1, 8, f16); (m1x16xf16, false, 1, 16, f16);
     (m1x32xf16, false, 1, 32, f16); (m1x1xf32, false, 1, 1, f32);
     (m1x2xf32, false, 1, 2, f32); (m1x4xf32, false, 1, 4, f32);
     (m1x8xf32, false, 1, 8, f32); (m1x16xf32, false, 1, 16, f32);
     (m1x1xf64, false, 1, 1, f64); (m1x2xf64, false, 1, 2, f64);
     (m1x4xf64, false, 1, 4, f64); (m1x8xf64, false, 1, 8, f64);
     (mx1xnx1xi8, true, 1, 1, i8); (mx1xnx2xi8, true, 1, 2, i8);
     (mx1xnx4xi8, true, 1, 4, i8); (mx1xnx8xi8, true, 1, 8, i8);
     (mx1xnx16xi8, true, 1, 16, i8); (mx1xnx32xi8, true, 1, 32, i8);
     (mx1xnx64xi8, true, 1, 64, i8); (mx1xnx1xi16, true, 1, 1, i16);
     (mx1xnx2xi16, true, 1, 2, i16); (mx1xnx4xi16, true, 1, 4, i16);
     (mx1xnx8xi16, true, 1, 8, i16); (mx1xnx16xi16, true, 1, 16, i16);
     (mx1xnx32xi16, true, 1, 32, i16); (mx1xnx1xi32, true, 1, 1, i32);
     (mx1xnx2xi32, true, 1, 2, i32); (mx1xnx4xi32, true, 1, 4, i32);
     (mx1xnx8xi32, true, 1, 8, i32); (mx1xnx16xi32, true, 1, 16, i32);
     (mx1xnx1xi64, true, 1, 1, i64); (mx1xnx2xi64, true, 1, 2, i64);
     (mx1xnx4xi64, true, 1, 4, i64); (mx1xnx8xi64, true, 1, 8, i64);
     (mx1xnx1xbf8, true, 1, 1, bf8); (mx1xnx2xbf8, true, 1, 2, bf8);
     (mx1xnx4xbf8, true, 1, 4, bf8); (mx1xnx8xbf8, true, 1, 8, bf8);
     (mx1xnx16xbf8, true, 1, 16, bf8); (mx1xnx32xbf8, true, 1, 32, bf8);
     (mx1xnx64xbf8, true, 1, 64, bf8); (mx1xnx1xhf8, true, 1, 1, hf8);
     (mx1xnx2xhf8, true, 1, 2, hf8); (mx1xnx4xhf8, true, 1, 4, hf8);
     (mx1xnx8xhf8, true, 1, 8, hf8); (mx1xnx16xhf8, true, 1, 16, hf8);
     (mx1xnx32xhf8, true, 1, 32, hf8); (mx1xnx64xhf8, true, 1, 64, hf8);
     (mx1xnx1xbf16, true, 1, 1, bf16); (mx1xnx2xbf16, true, 1, 2, bf16);
     (mx1xnx4xbf16, true, 1, 4, bf16); (mx1xnx8xbf16, true, 1, 8, bf16);
     (mx1xnx16xbf16, true, 1, 16, bf16); (mx1xnx32xbf16, true, 1, 32, bf16);
     (mx1xnx1xf16, true, 1, 1, f16); (mx1xnx2xf16, true, 1, 2, f16);
     (mx1xnx4xf16, true, 1, 4, f16); (mx1xnx8xf16, true, 1, 8, f16);
     (mx1xnx16xf16, true, 1, 16, f16); (mx1xnx32xf16, true, 1, 32, f16);
     (mx1xnx1xf32, true, 1, 1, f32); (mx1xnx2xf32, true, 1, 2, f32);
     (mx1xnx4xf32, true, 1, 4, f32); (mx1xnx8xf32, true, 1, 8, f32);
     (mx1xnx16xf32, true, 1, 16, f32); (mx1xnx1xf64, true, 1, 1, f64);
     (mx1xnx2xf64, true, 1, 2, f64); (mx1xnx4xf64, true, 1, 4, f64);
     (mx1xnx8xf64, true, 1, 8, f64)
  ].

Definition vecattr (VT : t) : option (t * bool * Z * t) :=
  find (fun r => let '(Ty, _, _, _) := r in eqb Ty VT) GenVT_VECATTR.
Definition matattr (VT : t) : option (t * bool * Z * Z * t) :=
  find (fun r => let '(Ty, _, _, _, _) := r in eqb Ty VT) GenVT_MATATTR.

(** Modelled from the spec: the enumerated vector tag matching the
    (element type, count, scalability) triple, the invalid sentinel when
    no such combination is enumerated. *)
Definition getVectorVT_n (VT : t) (NumElements : Z) (IsScalable : bool) : t :=
  match find (fun r => let '(_, Sc, nElem, ElTy) := r in
                       Bool.eqb Sc IsScalable && eqb VT ElTy && (NumElements =? nElem))
             GenVT_VECATTR with
  | Some (Ty, _, _, _) => Ty
  | None => INVALID_SIMPLE_VALUE_TYPE
  end.

Definition getVectorVT (VT : t) (EC : ElementCount.t) : t :=
  getVectorVT_n VT (details.getKnownMinValue EC) (details.isScalable EC).

Definition getMatrixVT (VT : t) (NumElements NumElements2 : Z) (IsScalable : bool) : t :=
  match find (fun r => let '(_, Sc, nElem, nElem2, ElTy) := r in
                       Bool.eqb Sc IsScalable && eqb VT ElTy
                       && (NumElements =? nElem) && (NumElements2 =? nElem2))
             GenVT_MATATTR with
  | Some (Ty, _, _, _, _) => Ty
  | None => INVALID_SIMPLE_VALUE_TYPE
  end.

(** Modelled from the spec: the classification queries of [MVT], read off
    the same rows. *)
Definition isVector (VT : t) : bool :=
  match vecattr VT with Some _ => true | None => false end.
Definition isScalableVector (VT : t) : bool :=
  match vecattr VT with Some (_, Sc, _, _) => Sc | None => false end.
Definition getVectorMinNumElements (VT : t) : Outcome Z :=
  match vecattr VT with
  | Some (_, _, nElem, _) => Ok nElem
  | None => AssertionFailure "Not a vector MVT!"
  end.
Definition getVectorElementType (VT : t) : Outcome t :=
  match vecattr VT with
  | Some (_, _, _, ElTy) => Ok ElTy
  | None => AssertionFailure "Not a vector MVT!"
  end.
Definition getVectorElementCount (VT : t) : Outcome ElementCount.t :=
  (n <- getVectorMinNumElements VT ;;
   Ok (ElementCount.get_bool n (isScalableVector VT)))%outcome.

Definition isMatrix (VT : t) : bool :=
  match matattr VT with Some _ => true | None => false end.
Definition isScalableMatrix (VT : t) : bool :=
  match matattr VT with Some (_, Sc, _, _, _) => Sc | None => false end.
Definition getMatrixNumElements (VT : t) : Outcome Z :=
  match matattr VT with
  | Some (_, _, nElem, _, _) => Ok nElem
  | None => AssertionFailure "Not a matrix MVT!"
  end.
Definition getMatrixNumElements2 (VT : t) : Outcome Z :=
  match matattr VT with
  | Some (_, _, _, nElem2, _) => Ok nElem2
  | None => AssertionFailure "Not a matrix MVT!"
  end.
Definition getMatrixElementType (VT : t) : Outcome t :=
  match matattr VT with
  | Some (_, _, _, _, ElTy) => Ok ElTy
  | None => AssertionFailure "Not a matrix MVT!"
  end.

(** [MVT MVT::getVT(Type *Ty, bool HandleUnknown)], the switch over
    [Ty->getTypeID()] on a non-null [Ty]. *)
Fixpoint getVT_nonnull (Ty : IR.Ty) (HandleUnknown : bool) : Outcome t :=
  match Ty with
  | IR.VoidTy => Ok isVoid
  | IR.IntegerTy BitWidth => Ok (getIntegerVT BitWidth)
  | IR.BF8Ty => Ok bf8
  | IR.HF8Ty => Ok hf8
  | IR.HalfTy => Ok f16
  | IR.BFloatTy => Ok bf16
  | IR.FloatTy => Ok f32
  | IR.DoubleTy => Ok f64
  | IR.X86_FP80Ty => Ok f80
  | IR.X86_MMXTy => Ok x86mmx
  | IR.TargetExtTy Name =>
      if String.eqb Name "aarch64.svcount" then Ok aarch64svcount
      else if String.prefix "spirv." Name then Ok spirvbuiltin
      else if HandleUnknown then Ok Other
      else Unreachable "Unknown target ext type!"
  | IR.X86_AMXTy => Ok x86amx
  | IR.FP128Ty => Ok f128
  | IR.PPC_FP128Ty => Ok ppcf128
  | IR.PointerTy _ => Ok iPTR
  | IR.FixedVectorTy ElementType NumElts =>
      (EltVT <- getVT_nonnull ElementType false ;;
       Ok (getVectorVT EltVT (ElementCount.get_bool NumElts false)))%outcome
  | IR.ScalableVectorTy ElementType MinNumElts =>
      (EltVT <- getVT_nonnull ElementType false ;;
       Ok (getVectorVT EltVT (ElementCount.get_bool MinNumElts true)))%outcome
  | IR.ScalableMatrixTy ElementType NumElts NumElts2 Scalable =>
      (EltVT <- getVT_nonnull ElementType false ;;
       Ok (getMatrixVT EltVT NumElts NumElts2 Scalable))%outcome
  | IR.MetadataTy | IR.LabelTy | IR.TokenTy =>          (* default: *)
      if HandleUnknown then Ok Other else Unreachable "Unknown type!"
  end.

Definition getVT (Ty : IR.TypePtr) (HandleUnknown : bool) : Outcome t :=
  match Ty with
  | None => AssertionFailure "Invalid type"
  | Some Ty => getVT_nonnull Ty HandleUnknown
  end.

End MVT.

(** ** struct EVT *)
Module EVT.

Local Open Scope string_scope.

(** Modelled from the spec: the tagged union of [ValueTypes.h] (absent
    from the sources): an [MVT] plus, for the extended case, a handle
    into the structural type graph.  [isExtended()] is true iff the tag
    is the sentinel and the handle is non-null. *)
Record t : Type := mk {
  V : MVT.t;
  LLVMTy : IR.TypePtr
}.

(** [EVT()] and the conversion [EVT(MVT)]. *)
Definition default : t := mk MVT.INVALID_SIMPLE_VALUE_TYPE None.
Definition of_MVT (S : MVT.t) : t := mk S None.

Definition isSimple (e : t) : bool :=
  negb (MVT.eqb (V e) MVT.INVALID_SIMPLE_VALUE_TYPE).
Definition isExtended (e : t) : bool :=
  MVT.eqb (V e) MVT.INVALID_SIMPLE_VALUE_TYPE
  && match LLVMTy e with Some _ => true | None => false end.

Definition ret (ty : IR.Ty) : Outcome IR.TypePtr := Ok (Some ty).

(** [Type *EVT::getTypeForEVT(LLVMContext &Context) const] *)
Definition getTypeForEVT (e : t) : Outcome IR.TypePtr :=
  match V e with
  | MVT.isVoid => ret (IR.getVoidTy)
  | MVT.i1 => ret IR.getInt1Ty
  | MVT.i2 => ret (IR.getIntNTy 2)
  | MVT.i4 => ret (IR.getIntNTy 4)
  | MVT.i8 => ret IR.getInt8Ty
  | MVT.i16 => ret IR.getInt16Ty
  | MVT.i32 => ret IR.getInt32Ty
  | MVT.i64 => ret IR.getInt64Ty
  | MVT.i128 => ret (IR.IntegerType_get 128)
  | MVT.f16 => ret IR.getHalfTy
  | MVT.bf16 => ret IR.getBFloatTy
  | MVT.bf8 => ret IR.getBF8Ty
  | MVT.hf8 => ret IR.getHF8Ty
  | MVT.f32 => ret IR.getFloatTy
  | MVT.f64 => ret IR.getDoubleTy
  | MVT.f80 => ret (IR.getX86_FP80Ty)
  | MVT.f128 => ret (IR.getFP128Ty)
  | MVT.ppcf128 => ret (IR.getPPC_FP128Ty)
  | MVT.x86mmx => ret (IR.getX86_MMXTy)
  | MVT.aarch64svcount => ret (IR.TargetExtType_get "aarch64.svcount")
  | MVT.x86amx => ret (IR.getX86_AMXTy)
  | MVT.i64x8 => ret (IR.IntegerType_get 512)
  | MVT.externref => ret (IR.getWasm_ExternrefTy)
  | MVT.funcref => ret (IR.getWasm_FuncrefTy)
  | MVT.v1i1 => ret (IR.FixedVectorType_get IR.getInt1Ty 1)
  | MVT.v2i1 => ret (IR.FixedVectorType_get IR.getInt1Ty 2)
  | MVT.v4i1 => ret (IR.FixedVectorType_get IR.getInt1Ty 4)
  | MVT.v8i1 => ret (IR.FixedVectorType_get IR.getInt1Ty 8)
  | MVT.v16i1 => ret (IR.FixedVectorType_get IR.getInt1Ty 16)
  | MVT.v32i1 => ret (IR.FixedVectorType_get IR.getInt1Ty 32)
  | MVT.v64i1 => ret (IR.FixedVectorType_get IR.getInt1Ty 64)
  | MVT.v128i1 => ret (IR.FixedVectorType_get IR.getInt1Ty 128)
  | MVT.v256i1 => ret (IR.FixedVectorType_get IR.getInt1Ty 256)
  | MVT.v512i1 => ret (IR.FixedVectorType_get IR.getInt1Ty 512)
  | MVT.v1024i1 => ret (IR.FixedVectorType_get IR.getInt1Ty 1024)
  | MVT.v2048i1 => ret (IR.FixedVectorType_get IR.getInt1Ty 2048)
  | MVT.v128i2 => ret (IR.FixedVectorType_get (IR.getIntNTy 2) 128)
  | MVT.v256i2 => ret (IR.FixedVectorType_get (IR.getIntNTy 2) 256)
  | MVT.v64i4 => ret (IR.FixedVectorType_get (IR.getIntNTy 4) 64)
  | MVT.v128i4 => ret (IR.FixedVectorType_get (IR.getIntNTy 4) 128)
  | MVT.v1i8 => ret (IR.FixedVectorType_get IR.getInt8Ty 1)
  | MVT.v2i8 => ret (IR.FixedVectorType_get IR.getInt8Ty 2)
  | MVT.v4i8 => ret (IR.FixedVectorType_get IR.getInt8Ty 4)
  | MVT.v8i8 => ret (IR.FixedVectorType_get IR.getInt8Ty 8)
  | MVT.v16i8 => ret (IR.FixedVectorType_get IR.getInt8Ty 16)
  | MVT.v32i8 => ret (IR.FixedVectorType_get IR.getInt8Ty 32)
  | MVT.v64i8 => ret (IR.FixedVectorType_get IR.getInt8Ty 64)
  | MVT.v128i8 => ret (IR.FixedVectorType_get IR.getInt8Ty 128)
  | MVT.v256i8 => ret (IR.FixedVectorType_get IR.getInt8Ty 256)
  | MVT.v512i8 => ret (IR.FixedVectorType_get IR.getInt8Ty 512)
  | MVT.v1024i8 => ret (IR.FixedVectorType_get IR.getInt8Ty 1024)
  | MVT.v1i16 => ret (IR.FixedVectorType_get IR.getInt16Ty 1)
  | MVT.v2i16 => ret (IR.FixedVectorType_get IR.getInt16Ty 2)
  | MVT.v3i16 => ret (IR.FixedVectorType_get IR.getInt16Ty 3)
  | MVT.v4i16 => ret (IR.FixedVectorType_get IR.getInt16Ty 4)
  | MVT.v8i16 => ret (IR.FixedVectorType_get IR.getInt16Ty 8)
  | MVT.v16i16 => ret (IR.FixedVectorType_get IR.getInt16Ty 16)
  | MVT.v32i16 => ret (IR.FixedVectorType_get IR.getInt16Ty 32)
  | MVT.v64i16 => ret (IR.FixedVectorType_get IR.getInt16Ty 64)
  | MVT.v128i16 => ret (IR.FixedVectorType_get IR.getInt16Ty 128)
  | MVT.v256i16 => ret (IR.FixedVectorType_get IR.getInt16Ty 256)
  | MVT.v512i16 => ret (IR.FixedVectorType_get IR.getInt16Ty 512)
  | MVT.v1i32 => ret (IR.FixedVectorType_get IR.getInt32Ty 1)
  | MVT.v2i32 => ret (IR.FixedVectorType_get IR.getInt32Ty 2)
  | MVT.v3i32 => ret (IR.FixedVectorType_get IR.getInt32Ty 3)
  | MVT.v4i32 => ret (IR.FixedVectorType_get IR.getInt32Ty 4)
  | MVT.v5i32 => ret (IR.FixedVectorType_get IR.getInt32Ty 5)
  | MVT.v6i32 => ret (IR.FixedVectorType_get IR.getInt32Ty 6)
  | MVT.v7i32 => ret (IR.FixedVectorType_get IR.getInt32Ty 7)
  | MVT.v8i32 => ret (IR.FixedVectorType_get IR.getInt32Ty 8)
  | MVT.v9i32 => ret (IR.FixedVectorType_get IR.getInt32Ty 9)
  | MVT.v10i32 => ret (IR.FixedVectorType_get IR.getInt32Ty 10)
  | MVT.v11i32 => ret (IR.FixedVectorType_get IR.getInt32Ty 11)
  | MVT.v12i32 => ret (IR.FixedVectorType_get IR.getInt32Ty 12)
  | MVT.v16i32 => ret (IR.FixedVectorType_get IR.getInt32Ty 16)
  | MVT.v32i32 => ret (IR.FixedVectorType_get IR.getInt32Ty 32)
  | MVT.v64i32 => ret (IR.FixedVectorType_get IR.getInt32Ty 64)
  | MVT.v128i32 => ret (IR.FixedVectorType_get IR.getInt32Ty 128)
  | MVT.v256i32 => ret (IR.FixedVectorType_get IR.getInt32Ty 256)
  | MVT.v512i32 => ret (IR.FixedVectorType_get IR.getInt32Ty 512)
  | MVT.v1024i32 => ret (IR.FixedVectorType_get IR.getInt32Ty 1024)
  | MVT.v2048i32 => ret (IR.FixedVectorType_get IR.getInt32Ty 2048)
  | MVT.v1i64 => ret (IR.FixedVectorType_get IR.getInt64Ty 1)
  | MVT.v2i64 => ret (IR.FixedVectorType_get IR.getInt64Ty 2)
  | MVT.v3i64 => ret (IR.FixedVectorType_get IR.getInt64Ty 3)
  | MVT.v4i64 => ret (IR.FixedVectorType_get IR.getInt64Ty 4)
  | MVT.v8i64 => ret (IR.FixedVectorType_get IR.getInt64Ty 8)
  | MVT.v16i64 => ret (IR.FixedVectorType_get IR.getInt64Ty 16)
  | MVT.v32i64 => ret (IR.FixedVectorType_get IR.getInt64Ty 32)
  | MVT.v64i64 => ret (IR.FixedVectorType_get IR.getInt64Ty 64)
  | MVT.v128i64 => ret (IR.FixedVectorType_get IR.getInt64Ty 128)
  | MVT.v256i64 => ret (IR.FixedVectorType_get IR.getInt64Ty 256)
  | MVT.v1i128 => ret (IR.FixedVectorType_get IR.getInt128Ty 1)
  | MVT.v1f16 => ret (IR.FixedVectorType_get IR.getHalfTy 1)
  | MVT.v2f16 => ret (IR.FixedVectorType_get IR.getHalfTy 2)
  | MVT.v3f16 => ret (IR.FixedVectorType_get IR.getHalfTy 3)
  | MVT.v4f16 => ret (IR.FixedVectorType_get IR.getHalfTy 4)
  | MVT.v8f16 => ret (IR.FixedVectorType_get IR.getHalfTy 8)
  | MVT.v16f16 => ret (IR.FixedVectorType_get IR.getHalfTy 16)
  | MVT.v32f16 => ret (IR.FixedVectorType_get IR.getHalfTy 32)
  | MVT.v64f16 => ret (IR.FixedVectorType_get IR.getHalfTy 64)
  | MVT.v128f16 => ret (IR.FixedVectorType_get IR.getHalfTy 128)
  | MVT.v256f16 => ret (IR.FixedVectorType_get IR.getHalfTy 256)
  | MVT.v512f16 => ret (IR.FixedVectorType_get IR.getHalfTy 512)
  | MVT.v2bf16 => ret (IR.FixedVectorType_get IR.getBFloatTy 2)
  | MVT.v3bf16 => ret (IR.FixedVectorType_get IR.getBFloatTy 3)
  | MVT.v4bf16 => ret (IR.FixedVectorType_get IR.getBFloatTy 4)
  | MVT.v8bf16 => ret (IR.FixedVectorType_get IR.getBFloatTy 8)
  | MVT.v16bf16 => ret (IR.FixedVectorType_get IR.getBFloatTy 16)
  | MVT.v32bf16 => ret (IR.FixedVectorType_get IR.getBFloatTy 32)
  | MVT.v64bf16 => ret (IR.FixedVectorType_get IR.getBFloatTy 64)
  | MVT.v128bf16 => ret (IR.FixedVectorType_get IR.getBFloatTy 128)
  | MVT.v1f32 => ret (IR.FixedVectorType_get IR.getFloatTy 1)
  | MVT.v2f32 => ret (IR.FixedVectorType_get IR.getFloatTy 2)
  | MVT.v3f32 => ret (IR.FixedVectorType_get IR.getFloatTy 3)
  | MVT.v4f32 => ret (IR.FixedVectorType_get IR.getFloatTy 4)
  | MVT.v5f32 => ret (IR.FixedVectorType_get IR.getFloatTy 5)
  | MVT.v6f32 => ret (IR.FixedVectorType_get IR.getFloatTy 6)
  | MVT.v7f32 => ret (IR.FixedVectorType_get IR.getFloatTy 7)
  | MVT.v8f32 => ret (IR.FixedVectorType_get IR.getFloatTy 8)
  | MVT.v9f32 => ret (IR.FixedVectorType_get IR.getFloatTy 9)
  | MVT.v10f32 => ret (IR.FixedVectorType_get IR.getFloatTy 10)
  | MVT.v11f32 => ret (IR.FixedVectorType_get IR.getFloatTy 11)
  | MVT.v12f32 => ret (IR.FixedVectorType_get IR.getFloatTy 12)
  | MVT.v16f32 => ret (IR.FixedVectorType_get IR.getFloatTy 16)
  | MVT.v32f32 => ret (IR.FixedVectorType_get IR.getFloatTy 32)
  | MVT.v64f32 => ret (IR.FixedVectorType_get IR.getFloatTy 64)
  | MVT.v128f32 => ret (IR.FixedVectorType_get IR.getFloatTy 128)
  | MVT.v256f32 => ret (IR.FixedVectorType_get IR.getFloatTy 256)
  | MVT.v512f32 => ret (IR.FixedVectorType_get IR.getFloatTy 512)
  | MVT.v1024f32 => ret (IR.FixedVectorType_get IR.getFloatTy 1024)
  | MVT.v2048f32 => ret (IR.FixedVectorType_get IR.getFloatTy 2048)
  | MVT.v1f64 => ret (IR.FixedVectorType_get IR.getDoubleTy 1)
  | MVT.v2f64 => ret (IR.FixedVectorType_get IR.getDoubleTy 2)
  | MVT.v3f64 => ret (IR.FixedVectorType_get IR.getDoubleTy 3)
  | MVT.v4f64 => ret (IR.FixedVectorType_get IR.getDoubleTy 4)
  | MVT.v8f64 => ret (IR.FixedVectorType_get IR.getDoubleTy 8)
  | MVT.v16f64 => ret (IR.FixedVectorType_get IR.getDoubleTy 16)
  | MVT.v32f64 => ret (IR.FixedVectorType_get IR.getDoubleTy 32)
  | MVT.v64f64 => ret (IR.FixedVectorType_get IR.getDoubleTy 64)
  | MVT.v128f64 => ret (IR.FixedVectorType_get IR.getDoubleTy 128)
  | MVT.v256f64 => ret (IR.FixedVectorType_get IR.getDoubleTy 256)
  | MVT.nxv1i1 => ret (IR.ScalableVectorType_get IR.getInt1Ty 1)
  | MVT.nxv2i1 => ret (IR.ScalableVectorType_get IR.getInt1Ty 2)
  | MVT.nxv4i1 => ret (IR.ScalableVectorType_get IR.getInt1Ty 4)
  | MVT.nxv8i1 => ret (IR.ScalableVectorType_get IR.getInt1Ty 8)
  | MVT.nxv16i1 => ret (IR.ScalableVectorType_get IR.getInt1Ty 16)
  | MVT.nxv32i1 => ret (IR.ScalableVectorType_get IR.getInt1Ty 32)
  | MVT.nxv64i1 => ret (IR.ScalableVectorType_get IR.getInt1Ty 64)
  | MVT.nxv1i8 => ret (IR.ScalableVectorType_get IR.getInt8Ty 1)
  | MVT.nxv2i8 => ret (IR.ScalableVectorType_get IR.getInt8Ty 2)
  | MVT.nxv4i8 => ret (IR.ScalableVectorType_get IR.getInt8Ty 4)
  | MVT.nxv8i8 => ret (IR.ScalableVectorType_get IR.getInt8Ty 8)
  | MVT.nxv16i8 => ret (IR.ScalableVectorType_get IR.getInt8Ty 16)
  | MVT.nxv32i8 => ret (IR.ScalableVectorType_get IR.getInt8Ty 32)
  | MVT.nxv64i8 => ret (IR.ScalableVectorType_get IR.getInt8Ty 64)
  | MVT.nxv1i16 => ret (IR.ScalableVectorType_get IR.getInt16Ty 1)
  | MVT.nxv2i16 => ret (IR.ScalableVectorType_get IR.getInt16Ty 2)
  | MVT.nxv4i16 => ret (IR.ScalableVectorType_get IR.getInt16Ty 4)
  | MVT.nxv8i16 => ret (IR.ScalableVectorType_get IR.getInt16Ty 8)
  | MVT.nxv16i16 => ret (IR.ScalableVectorType_get IR.getInt16Ty 16)
  | MVT.nxv32i16 => ret (IR.ScalableVectorType_get IR.getInt16Ty 32)
  | MVT.nxv1i32 => ret (IR.ScalableVectorType_get IR.getInt32Ty 1)
  | MVT.nxv2i32 => ret (IR.ScalableVectorType_get IR.getInt32Ty 2)
  | MVT.nxv4i32 => ret (IR.ScalableVectorType_get IR.getInt32Ty 4)
  | MVT.nxv8i32 => ret (IR.ScalableVectorType_get IR.getInt32Ty 8)
  | MVT.nxv16i32 => ret (IR.ScalableVectorType_get IR.getInt32Ty 16)
  | MVT.nxv32i32 => ret (IR.ScalableVectorType_get IR.getInt32Ty 32)
  | MVT.nxv1i64 => ret (IR.ScalableVectorType_get IR.getInt64Ty 1)
  | MVT.nxv2i64 => ret (IR.ScalableVectorType_get IR.getInt64Ty 2)
  | MVT.nxv4i64 => ret (IR.ScalableVectorType_get IR.getInt64Ty 4)
  | MVT.nxv8i64 => ret (IR.ScalableVectorType_get IR.getInt64Ty 8)
  | MVT.nxv16i64 => ret (IR.ScalableVectorType_get IR.getInt64Ty 16)
  | MVT.nxv32i64 => ret (IR.ScalableVectorType_get IR.getInt64Ty 32)
  | MVT.nxv1f16 => ret (IR.ScalableVectorType_get IR.getHalfTy 1)
  | MVT.nxv2f16 => ret (IR.ScalableVectorType_get IR.getHalfTy 2)
  | MVT.nxv4f16 => ret (IR.ScalableVectorType_get IR.getHalfTy 4)
  | MVT.nxv8f16 => ret (IR.ScalableVectorType_get IR.getHalfTy 8)
  | MVT.nxv16f16 => ret (IR.ScalableVectorType_get IR.getHalfTy 16)
  | MVT.nxv32f16 => ret (IR.ScalableVectorType_get IR.getHalfTy 32)
  | MVT.nxv1bf16 => ret (IR.ScalableVectorType_get IR.getBFloatTy 1)
  | MVT.nxv2bf16 => ret (IR.ScalableVectorType_get IR.getBFloatTy 2)
  | MVT.nxv4bf16 => ret (IR.ScalableVectorType_get IR.getBFloatTy 4)
  | MVT.nxv8bf16 => ret (IR.ScalableVectorType_get IR.getBFloatTy 8)
  | MVT.nxv16bf16 => ret (IR.ScalableVectorType_get IR.getBFloatTy 16)
  | MVT.nxv32bf16 => ret (IR.ScalableVectorType_get IR.getBFloatTy 32)
  | MVT.nxv1f32 => ret (IR.ScalableVectorType_get IR.getFloatTy 1)
  | MVT.nxv2f32 => ret (IR.ScalableVectorType_get IR.getFloatTy 2)
  | MVT.nxv4f32 => ret (IR.ScalableVectorType_get IR.getFloatTy 4)
  | MVT.nxv8f32 => ret (IR.ScalableVectorType_get IR.getFloatTy 8)
  | MVT.nxv16f32 => ret (IR.ScalableVectorType_get IR.getFloatTy 16)
  | MVT.nxv1f64 => ret (IR.ScalableVectorType_get IR.getDoubleTy 1)
  | MVT.nxv2f64 => ret (IR.ScalableVectorType_get IR.getDoubleTy 2)
  | MVT.nxv4f64 => ret (IR.ScalableVectorType_get IR.getDoubleTy 4)
  | MVT.nxv8f64 => ret (IR.ScalableVectorType_get IR.getDoubleTy 8)
  | MVT.nxv1bf8 => ret (IR.ScalableVectorType_get IR.getBF8Ty 1)
  | MVT.nxv2bf8 => ret (IR.ScalableVectorType_get IR.getBF8Ty 2)
  | MVT.nxv4bf8 => ret (IR.ScalableVectorType_get IR.getBF8Ty 4)
  | MVT.nxv8bf8 => ret (IR.ScalableVectorType_get IR.getBF8Ty 8)
  | MVT.nxv16bf8 => ret (IR.ScalableVectorType_get IR.getBF8Ty 16)
  | MVT.nxv32bf8 => ret (IR.ScalableVectorType_get IR.getBF8Ty 32)
  | MVT.nxv64bf8 => ret (IR.ScalableVectorType_get IR.getBF8Ty 64)
  | MVT.nxv1hf8 => ret (IR.ScalableVectorType_get IR.getHF8Ty 1)
  | MVT.nxv2hf8 => ret (IR.ScalableVectorType_get IR.getHF8Ty 2)
  | MVT.nxv4hf8 => ret (IR.ScalableVectorType_get IR.getHF8Ty 4)
  | MVT.nxv8hf8 => ret (IR.ScalableVectorType_get IR.getHF8Ty 8)
  | MVT.nxv16hf8 => ret (IR.ScalableVectorType_get IR.getHF8Ty 16)
  | MVT.nxv32hf8 => ret (IR.ScalableVectorType_get IR.getHF8Ty 32)
  | MVT.nxv64hf8 => ret (IR.ScalableVectorType_get IR.getHF8Ty 64)
  | MVT.m1x1xi8 => ret (IR.ScalableMatrixType_get IR.getInt8Ty 1 1 false)
  | MVT.m1x2xi8 => ret (IR.ScalableMatrixType_get IR.getInt8Ty 1 2 false)
  | MVT.m1x4xi8 => ret (IR.ScalableMatrixType_get IR.getInt8Ty 1 4 false)
  | MVT.m1x8xi8 => ret (IR.ScalableMatrixType_get IR.getInt8Ty 1 8 false)
  | MVT.m1x16xi8 => ret (IR.ScalableMatrixType_get IR.getInt8Ty 1 16 false)
  | MVT.m1x32xi8 => ret (IR.ScalableMatrixType_get IR.getInt8Ty 1 32 false)
  | MVT.m1x64xi8 => ret (IR.ScalableMatrixType_get IR.getInt8Ty 1 64 false)
  | MVT.m1x1xi16 => ret (IR.ScalableMatrixType_get IR.getInt16Ty 1 1 false)
  | MVT.m1x2xi16 => ret (IR.ScalableMatrixType_get IR.getInt16Ty 1 2 false)
  | MVT.m1x4xi16 => ret (IR.ScalableMatrixType_get IR.getInt16Ty 1 4 false)
  | MVT.m1x8xi16 => ret (IR.ScalableMatrixType_get IR.getInt16Ty 1 8 false)
  | MVT.m1x16xi16 => ret (IR.ScalableMatrixType_get IR.getInt16Ty 1 16 false)
  | MVT.m1x32xi16 => ret (IR.ScalableMatrixType_get IR.getInt16Ty 1 32 false)
  | MVT.m1x1xi32 => ret (IR.ScalableMatrixType_get IR.getInt32Ty 1 1 false)
  | MVT.m1x2xi32 => ret (IR.ScalableMatrixType_get IR.getInt32Ty 1 2 false)
  | MVT.m1x4xi32 => ret (IR.ScalableMatrixType_get IR.getInt32Ty 1 4 false)
  | MVT.m1x8xi32 => ret (IR.ScalableMatrixType_get IR.getInt32Ty 1 8 false)
  | MVT.m1x16xi32 => ret (IR.ScalableMatrixType_get IR.getInt32Ty 1 16 false)
  | MVT.m1x1xi64 => ret (IR.ScalableMatrixType_get IR.getInt64Ty 1 1 false)
  | MVT.m1x2xi64 => ret (IR.ScalableMatrixType_get IR.getInt64Ty 1 2 false)
  | MVT.m1x4xi64 => ret (IR.ScalableMatrixType_get IR.getInt64Ty 1 4 false)
  | MVT.m1x8xi64 => ret (IR.ScalableMatrixType_get IR.getInt64Ty 1 8 false)
  | MVT.m1x1xbf8 => ret (IR.ScalableMatrixType_get IR.getBF8Ty 1 1 false)
  | MVT.m1x2xbf8 => ret (IR.ScalableMatrixType_get IR.getBF8Ty 1 2 false)
  | MVT.m1x4xbf8 => ret (IR.ScalableMatrixType_get IR.getBF8Ty 1 4 false)
  | MVT.m1x8xbf8 => ret (IR.ScalableMatrixType_get IR.getBF8Ty 1 8 false)
  | MVT.m1x16xbf8 => ret (IR.ScalableMatrixType_get IR.getBF8Ty 1 16 false)
  | MVT.m1x32xbf8 => ret (IR.ScalableMatrixType_get IR.getBF8Ty 1 32 false)
  | MVT.m1x64xbf8 => ret (IR.ScalableMatrixType_get IR.getBF8Ty 1 64 false)
  | MVT.m1x1xhf8 => ret (IR.ScalableMatrixType_get IR.getHF8Ty 1 1 false)
  | MVT.m1x2xhf8 => ret (IR.ScalableMatrixType_get IR.getHF8Ty 1 2 false)
  | MVT.m1x4xhf8 => ret (IR.ScalableMatrixType_get IR.getHF8Ty 1 4 false)
  | MVT.m1x8xhf8 => ret (IR.ScalableMatrixType_get IR.getHF8Ty 1 8 false)
  | MVT.m1x16xhf8 => ret (IR.ScalableMatrixType_get IR.getHF8Ty 1 16 false)
  | MVT.m1x32xhf8 => ret (IR.ScalableMatrixType_get IR.getHF8Ty 1 32 false)
  | MVT.m1x64xhf8 => ret (IR.ScalableMatrixType_get IR.getHF8Ty 1 64 false)
  | MVT.m1x1xbf16 => ret (IR.ScalableMatrixType_get IR.getBFloatTy 1 1 false)
  | MVT.m1x2xbf16 => ret (IR.ScalableMatrixType_get IR.getBFloatTy 1 2 false)
  | MVT.m1x4xbf16 => ret (IR.ScalableMatrixType_get IR.getBFloatTy 1 4 false)
  | MVT.m1x8xbf16 => ret (IR.ScalableMatrixType_get IR.getBFloatTy 1 8 false)
  | MVT.m1x16xbf16 => ret (IR.ScalableMatrixType_get IR.getBFloatTy 1 16 false)
  | MVT.m1x32xbf16 => ret (IR.ScalableMatrixType_get IR.getBFloatTy 1 32 false)
  | MVT.m1x1xf16 => ret (IR.ScalableMatrixType_get IR.getHalfTy 1 1 false)
  | MVT.m1x2xf16 => ret (IR.ScalableMatrixType_get IR.getHalfTy 1 2 false)
  | MVT.m1x4xf16 => ret (IR.ScalableMatrixType_get IR.getHalfTy 1 4 false)
  | MVT.m1x8xf16 => ret (IR.ScalableMatrixType_get IR.getHalfTy 1 8 false)
  | MVT.m1x16xf16 => ret (IR.ScalableMatrixType_get IR.getHalfTy 1 16 false)
  | MVT.m1x32xf16 => ret (IR.ScalableMatrixType_get IR.getHalfTy 1 32 false)
  | MVT.m1x1xf32 => ret (IR.ScalableMatrixType_get IR.getFloatTy 1 1 false)
  | MVT.m1x2xf32 => ret (IR.ScalableMatrixType_get IR.getFloatTy 1 2 false)
  | MVT.m1x4xf32 => ret (IR.ScalableMatrixType_get IR.getFloatTy 1 4 false)
  | MVT.m1x8xf32 => ret (IR.ScalableMatrixType_get IR.getFloatTy 1 8 false)
  | MVT.m1x16xf32 => ret (IR.ScalableMatrixType_get IR.getFloatTy 1 16 false)
  | MVT.m1x1xf64 => ret (IR.ScalableMatrixType_get IR.getDoubleTy 1 1 false)
  | MVT.m1x2xf64 => ret (IR.ScalableMatrixType_get IR.getDoubleTy 1 2 false)
  | MVT.m1x4xf64 => ret (IR.ScalableMatrixType_get IR.getDoubleTy 1 4 false)
  | MVT.m1x8xf64 => ret (IR.ScalableMatrixType_get IR.getDoubleTy 1 8 false)
  | MVT.mx1xnx1xi8 => ret (IR.ScalableMatrixType_get IR.getInt8Ty 1 1 true)
  | MVT.mx1xnx2xi8 => ret (IR.ScalableMatrixType_get IR.getInt8Ty 1 2 true)
  | MVT.mx1xnx4xi8 => ret (IR.ScalableMatrixType_get IR.getInt8Ty 1 4 true)
  | MVT.mx1xnx8xi8 => ret (IR.ScalableMatrixType_get IR.getInt8Ty 1 8 true)
  | MVT.mx1xnx16xi8 => ret (IR.ScalableMatrixType_get IR.getInt8Ty 1 16 true)
  | MVT.mx1xnx32xi8 => ret (IR.ScalableMatrixType_get IR.getInt8Ty 1 32 true)
  | MVT.mx1xnx64xi8 => ret (IR.ScalableMatrixType_get IR.getInt8Ty 1 64 true)
  | MVT.mx1xnx1xi16 => ret (IR.ScalableMatrixType_get IR.getInt16Ty 1 1 true)
  | MVT.mx1xnx2xi16 => ret (IR.ScalableMatrixType_get IR.getInt16Ty 1 2 true)
  | MVT.mx1xnx4xi16 => ret (IR.ScalableMatrixType_get IR.getInt16Ty 1 4 true)
  | MVT.mx1xnx8xi16 => ret (IR.ScalableMatrixType_get IR.getInt16Ty 1 8 true)
  | MVT.mx1xnx16xi16 => ret (IR.ScalableMatrixType_get IR.getInt16Ty 1 16 true)
  | MVT.mx1xnx32xi16 => ret (IR.ScalableMatrixType_get IR.getInt16Ty 1 32 true)
  | MVT.mx1xnx1xi32 => ret (IR.ScalableMatrixType_get IR.getInt32Ty 1 1 true)
  | MVT.mx1xnx2xi32 => ret (IR.ScalableMatrixType_get IR.getInt32Ty 1 2 true)
  | MVT.mx1xnx4xi32 => ret (IR.ScalableMatrixType_get IR.getInt32Ty 1 4 true)
  | MVT.mx1xnx8xi32 => ret (IR.ScalableMatrixType_get IR.getInt32Ty 1 8 true)
  | MVT.mx1xnx16xi32 => ret (IR.ScalableMatrixType_get IR.getInt32Ty 1 16 true)
  | MVT.mx1xnx1xi64 => ret (IR.ScalableMatrixType_get IR.getInt64Ty 1 1 true)
  | MVT.mx1xnx2xi64 => ret (IR.ScalableMatrixType_get IR.getInt64Ty 1 2 true)
  | MVT.mx1xnx4xi64 => ret (IR.ScalableMatrixType_get IR.getInt64Ty 1 4 true)
  | MVT.mx1xnx8xi64 => ret (IR.ScalableMatrixType_get IR.getInt64Ty 1 8 true)
  | MVT.mx1xnx1xbf8 => ret (IR.ScalableMatrixType_get IR.getBF8Ty 1 1 true)
  | MVT.mx1xnx2xbf8 => ret (IR.ScalableMatrixType_get IR.getBF8Ty 1 2 true)
  | MVT.mx1xnx4xbf8 => ret (IR.ScalableMatrixType_get IR.getBF8Ty 1 4 true)
  | MVT.mx1xnx8xbf8 => ret (IR.ScalableMatrixType_get IR.getBF8Ty 1 8 true)
  | MVT.mx1xnx16xbf8 => ret (IR.ScalableMatrixType_get IR.getBF8Ty 1 16 true)
  | MVT.mx1xnx32xbf8 => ret (IR.ScalableMatrixType_get IR.getBF8Ty 1 32 true)
  | MVT.mx1xnx64xbf8 => ret (IR.ScalableMatrixType_get IR.getBF8Ty 1 64 true)
  | MVT.mx1xnx1xhf8 => ret (IR.ScalableMatrixType_get IR.getHF8Ty 1 1 true)
  | MVT.mx1xnx2xhf8 => ret (IR.ScalableMatrixType_get IR.getHF8Ty 1 2 true)
  | MVT.mx1xnx4xhf8 => ret (IR.ScalableMatrixType_get IR.getHF8Ty 1 4 true)
  | MVT.mx1xnx8xhf8 => ret (IR.ScalableMatrixType_get IR.getHF8Ty 1 8 true)
  | MVT.mx1xnx16xhf8 => ret (IR.ScalableMatrixType_get IR.getHF8Ty 1 16 true)
  | MVT.mx1xnx32xhf8 => ret (IR.ScalableMatrixType_get IR.getHF8Ty 1 32 true)
  | MVT.mx1xnx64xhf8 => ret (IR.ScalableMatrixType_get IR.getHF8Ty 1 64 true)
  | MVT.mx1xnx1xbf16 => ret (IR.ScalableMatrixType_get IR.getBFloatTy 1 1 true)
  | MVT.mx1xnx2xbf16 => ret (IR.ScalableMatrixType_get IR.getBFloatTy 1 2 true)
  | MVT.mx1xnx4xbf16 => ret (IR.ScalableMatrixType_get IR.getBFloatTy 1 4 true)
  | MVT.mx1xnx8xbf16 => ret (IR.ScalableMatrixType_get IR.getBFloatTy 1 8 true)
  | MVT.mx1xnx16xbf16 => ret (IR.ScalableMatrixType_get IR.getBFloatTy 1 16 true)
  | MVT.mx1xnx32xbf16 => ret (IR.ScalableMatrixType_get IR.getBFloatTy 1 32 true)
  | MVT.mx1xnx1xf16 => ret (IR.ScalableMatrixType_get IR.getHalfTy 1 1 true)
  | MVT.mx1xnx2xf16 => ret (IR.ScalableMatrixType_get IR.getHalfTy 1 2 true)
  | MVT.mx1xnx4xf16 => ret (IR.ScalableMatrixType_get IR.getHalfTy 1 4 true)
  | MVT.mx1xnx8xf16 => ret (IR.ScalableMatrixType_get IR.getHalfTy 1 8 true)
  | MVT.mx1xnx16xf16 => ret (IR.ScalableMatrixType_get IR.getHalfTy 1 16 true)
  | MVT.mx1xnx32xf16 => ret (IR.ScalableMatrixType_get IR.getHalfTy 1 32 true)
  | MVT.mx1xnx1xf32 => ret (IR.ScalableMatrixType_get IR.getFloatTy 1 1 true)
  | MVT.mx1xnx2xf32 => ret (IR.ScalableMatrixType_get IR.getFloatTy 1 2 true)
  | MVT.mx1xnx4xf32 => ret (IR.ScalableMatrixType_get IR.getFloatTy 1 4 true)
  | MVT.mx1xnx8xf32 => ret (IR.ScalableMatrixType_get IR.getFloatTy 1 8 true)
  | MVT.mx1xnx16xf32 => ret (IR.ScalableMatrixType_get IR.getFloatTy 1 16 true)
  | MVT.mx1xnx1xf64 => ret (IR.ScalableMatrixType_get IR.getDoubleTy 1 1 true)
  | MVT.mx1xnx2xf64 => ret (IR.ScalableMatrixType_get IR.getDoubleTy 1 2 true)
  | MVT.mx1xnx4xf64 => ret (IR.ScalableMatrixType_get IR.getDoubleTy 1 4 true)
  | MVT.mx1xnx8xf64 => ret (IR.ScalableMatrixType_get IR.getDoubleTy 1 8 true)
  | MVT.Metadata => ret (IR.getMetadataTy)
  | _ =>                                                   (* default: *)
      assert (isExtended e) "Type is not extended!" (Ok (LLVMTy e))
  end.

(** [EVT::getExtendedIntegerVT] *)
Definition getExtendedIntegerVT (BitWidth : Z) : Outcome t :=
  let VT := default in
  let VT := mk (V VT) (Some (IR.IntegerType_get BitWidth)) in
  assert (isExtended VT) "Type is not extended!" (Ok VT).

(** [EVT::getExtendedVectorVT(Context, VT, EC)] *)
Definition getExtendedVectorVT (VT : t) (EC : ElementCount.t) : Outcome t :=
  (Elt <- getTypeForEVT VT ;;
   match Elt with
   | None => AssertionFailure "Elements of a VectorType must be a primitive type"
   | Some Elt =>
       let ResultVT := default in
       let ResultVT := mk (V ResultVT) (Some (IR.VectorType_get Elt EC)) in
       assert (isExtended ResultVT) "Type is not extended!" (Ok ResultVT)
   end)%outcome.

(** [EVT::getExtendedMatrixVT] *)
Definition getExtendedMatrixVT (VT : t) (NumElements NumElements2 : Z)
           (IsScalable : bool) : Outcome t :=
  (Elt <- getTypeForEVT VT ;;
   match Elt with
   | None => AssertionFailure "Elements of a matrix type must be a primitive type"
   | Some Elt =>
       let ResultVT := default in
       let ResultVT :=
         mk (V ResultVT)
            (Some (IR.ScalableMatrixType_get Elt NumElements NumElements2 IsScalable)) in
       assert (isExtended ResultVT) "Type is not extended!" (Ok ResultVT)
   end)%outcome.

(** Modelled from the spec: [EVT::getIntegerVT(Context, BitWidth)],
    [EVT::getVectorVT(Context, VT, EC)] and [EVT::getMatrixVT] of
    [ValueTypes.h] (absent from the sources): the simple tag when the
    closed enumeration has an exact match, the extended EVT otherwise. *)
Definition getIntegerVT (BitWidth : Z) : Outcome t :=
  let M := MVT.getIntegerVT BitWidth in
  if negb (MVT.eqb M MVT.INVALID_SIMPLE_VALUE_TYPE) then Ok (of_MVT M)
  else getExtendedIntegerVT BitWidth.

Definition getVectorVT (VT : t) (EC : ElementCount.t) : Outcome t :=
  let M := MVT.getVectorVT (V VT) EC in
  if negb (MVT.eqb M MVT.INVALID_SIMPLE_VALUE_TYPE) then Ok (of_MVT M)
  else getExtendedVectorVT VT EC.

Definition getMatrixVT (VT : t) (NumElements NumElements2 : Z) (IsScalable : bool)
  : Outcome t :=
  let M := MVT.getMatrixVT (V VT) NumElements NumElements2 IsScalable in
  if negb (MVT.eqb M MVT.INVALID_SIMPLE_VALUE_TYPE) then Ok (of_MVT M)
  else getExtendedMatrixVT VT NumElements NumElements2 IsScalable.

(** [EVT EVT::getEVT(Type *Ty, bool HandleUnknown)] *)
Fixpoint getEVT (Ty : IR.Ty) (HandleUnknown : bool) : Outcome t :=
  match Ty with
  | IR.IntegerTy BitWidth => getIntegerVT BitWidth
  | IR.FixedVectorTy ElementType NumElts =>
      (EltVT <- getEVT ElementType false ;;
       getVectorVT EltVT (ElementCount.get_bool NumElts false))%outcome
  | IR.ScalableVectorTy ElementType MinNumElts =>
      (EltVT <- getEVT ElementType false ;;
       getVectorVT EltVT (ElementCount.get_bool MinNumElts true))%outcome
  | IR.ScalableMatrixTy ElementType NumElts NumElts2 Scalable =>
      (EltVT <- getEVT ElementType false ;;
       getMatrixVT EltVT NumElts NumElts2 Scalable)%outcome
  | _ =>                                                   (* default: *)
      (M <- MVT.getVT (Some Ty) HandleUnknown ;; Ok (of_MVT M))%outcome
  end.

(** The extended-only queries on vectors.  [handle] is their common
    prefix: the assertion, then the dereference of [LLVMTy]. *)
Definition handle (e : t) : Outcome IR.Ty :=
  assert (isExtended e) "Type is not extended!"
    match LLVMTy e with
    | Some T => Ok T
    | None => AssertionFailure "Type is not extended!"
    end.

Definition isExtendedScalarInteger (e : t) : Outcome bool :=
  (T <- handle e ;; Ok (IR.isIntegerTy T))%outcome.

Definition isExtendedVector (e : t) : Outcome bool :=
  (T <- handle e ;; Ok (IR.isVectorTy T))%outcome.

Definition isExtendedFixedLengthVector (e : t) : Outcome bool :=
  (T <- handle e ;; Ok (IR.isVectorTy T && IR.isFixedVectorTy T))%outcome.

Definition isExtendedScalableVector (e : t) : Outcome bool :=
  (T <- handle e ;; Ok (IR.isVectorTy T && IR.isScalableVectorTy T))%outcome.

(** [EVT::getEVT(cast<VectorType>(LLVMTy)->getElementType())] *)
Definition getExtendedVectorElementType (e : t) : Outcome t :=
  (T <- handle e ;;
   match T with
   | IR.FixedVectorTy ElementType _
   | IR.ScalableVectorTy ElementType _ => getEVT ElementType false
   | _ => AssertionFailure "cast<Ty>() argument of incompatible type!"
   end)%outcome.

(** [cast<VectorType>(LLVMTy)->getElementCount()] *)
Definition getExtendedVectorElementCount (e : t) : Outcome ElementCount.t :=
  (T <- handle e ;;
   match T with
   | IR.FixedVectorTy _ NumElts => Ok (ElementCount.get_bool NumElts false)
   | IR.ScalableVectorTy _ MinNumElts => Ok (ElementCount.get_bool MinNumElts true)
   | _ => AssertionFailure "cast<Ty>() argument of incompatible type!"
   end)%outcome.

(** [getExtendedVectorNumElements]: the known minimum, paired with whether
    the warning about a scalable vector was written. *)
Definition getExtendedVectorNumElements (e : t) : Outcome (Z * bool) :=
  (EC <- getExtendedVectorElementCount e ;;
   Ok (details.getKnownMinValue EC, details.isScalable EC))%outcome.

Section ExtendedQueries.

(** [Type::getPrimitiveSizeInBits()] of the collaborator. *)
Variable getPrimitiveSizeInBits : IR.Ty -> TypeSize.t.

(** [TypeSize EVT::getExtendedSizeInBits() const]: [dyn_cast<IntegerType>],
    then [dyn_cast<VectorType>] (the fixed and the scalable vector). *)
Definition getExtendedSizeInBits (e : t) : Outcome TypeSize.t :=
  assert (isExtended e) "Type is not extended!"
    match LLVMTy e with
    | Some (IR.IntegerTy BitWidth) => Ok (TypeSize.getFixed BitWidth)
    | Some (IR.FixedVectorTy _ _ as VTy)
    | Some (IR.ScalableVectorTy _ _ as VTy) => Ok (getPrimitiveSizeInBits VTy)
    | _ => Unreachable "Unrecognized extended type!"
    end.

End ExtendedQueries.

End EVT.

(* ===================================================================== *)
(** * LowLevelType.cpp *)
(* ===================================================================== *)

Module LLT.

(** Modelled from the spec: the record of [LowLevelType.h] (absent from
    the sources): the four classification flags and, in place of the
    packed [RawData] word, the fields [init] is handed.  [RawData = 0]
    is [zero]. *)
Record Fields : Type := mkFields {
  EC : ElementCount.t;
  SizeInBits : Z;
  AddressSpace : Z;
  NumElements : Z;
  NumElements2 : Z;
  Scalable : bool
}.

Definition zero : Fields := mkFields (ElementCount.getFixed 0) 0 0 0 0 false.

Record t : Type := mk {
  IsScalar : bool;
  IsPointer : bool;
  IsVector : bool;
  IsMatrix : bool;
  RawData : Fields
}.

(** Modelled from the spec: [init] stores the flags and the fields as given. *)
Definition init (IsPointer IsMatrix IsVector IsScalar : bool) (EC : ElementCount.t)
           (SizeInBits AddressSpace NumElements NumElements2 : Z) (Scalable : bool) : t :=
  mk IsScalar IsPointer IsVector IsMatrix
     (mkFields EC SizeInBits AddressSpace NumElements NumElements2 Scalable).

Inductive Kind : Type := Invalid | Scalar | Pointer | Vector | Matrix.

(** The classifications an [LLT] carries: one per flag set, [Invalid]
    when no flag is set. *)
Definition kinds (l : t) : list Kind :=
  let flagged :=
    (if IsScalar l then [Scalar] else [])
    ++ (if IsPointer l then [Pointer] else [])
    ++ (if IsVector l then [Vector] else [])
    ++ (if IsMatrix l then [Matrix] else []) in
  match flagged with [] => [Invalid] | _ => flagged end.

Section FromMVT.

(** Queries of [MVT] that [MachineValueType.h] answers from tables the
    sources do not hold. *)
Variable getSizeInBits : MVT.t -> TypeSize.t.
Variable isValid : MVT.t -> bool.
Variable isScalableTargetExtVT : MVT.t -> bool.

(** The [TypeSize] handed to a [uint64_t] parameter. *)
Definition size_of (VT : MVT.t) : Z := details.getKnownMinValue (getSizeInBits VT).

(** [LLT::LLT(MVT VT)] *)
Definition of_MVT (VT : MVT.t) : Outcome t :=
  (if MVT.isMatrix VT then
     n <- MVT.getMatrixNumElements VT ;;
     n2 <- MVT.getMatrixNumElements2 VT ;;
     Elt <- MVT.getMatrixElementType VT ;;
     let asMatrix := ((n >? 1) && (n >? 1)) || MVT.isScalableMatrix VT in
     Ok (init false asMatrix false (negb asMatrix)
              (ElementCount.getFixed 0) (size_of Elt) 0 n n2 (MVT.isScalableMatrix VT))
   else if MVT.isVector VT then
     n <- MVT.getVectorMinNumElements VT ;;
     EC <- MVT.getVectorElementCount VT ;;
     Elt <- MVT.getVectorElementType VT ;;
     let asVector := (n >? 1) || MVT.isScalableVector VT in
     Ok (init false false asVector (negb asVector) EC (size_of Elt) 0 0 0 false)
   else if isValid VT && negb (isScalableTargetExtVT VT) then
     Ok (init false false false true (ElementCount.getFixed 0) (size_of VT) 0 0 0 false)
   else
     Ok (mk false false false false zero))%outcome.

End FromMVT.

End LLT.

(* ===================================================================== *)
(** * Proof automation *)
(* ===================================================================== *)

(** Splits the conjunctions, disjunctions and existentials of the context. *)
Ltac break_hyps :=
  repeat match goal with
         | H : _ /\ _ |- _ => destruct H
         | H : _ \/ _ |- _ => destruct H
         | H : exists _, _ |- _ => destruct H
         end.

(** Membership in a list of constants, and its refutation. *)
Ltac in_list := simpl; tauto.

Ltac not_in_list H :=
  simpl in H;
  repeat match type of H with
         | _ \/ _ => destruct H as [H | H]
         end;
  first [ discriminate H | contradiction ].

(* ===================================================================== *)
(** * The meaning of a scaled quantity *)
(* ===================================================================== *)

(** The value a quantity stands for at run time, [Min * Vscale] in the
    words of TypeSize.h: its magnitude times the runtime factor of its
    scale class. *)
Definition runtime_value (factor : ScaleID.t -> Z) (q : FixedOrScalableQuantity) : Z :=
  details.Quantity q * factor (details.Scale q).

(** The runtime factors when vscale, mscale and nscale all equal [k]: an
    MN-scaled quantity is scaled by both. *)
Definition uniform_scales (k : Z) (s : ScaleID.t) : Z :=
  match s with
  | ScaleID.None => 1
  | ScaleID.V | ScaleID.M | ScaleID.N => k
  | ScaleID.MN => k * k
  end.

(* ===================================================================== *)
(** * Classes of structural types and of EVTs *)
(* ===================================================================== *)

(** The structural types built from void, integers, floating-point and
    x86 types and the [aarch64.svcount] extension type, and the vectors
    and matrices of such types: no pointer, no metadata, label or token,
    no other target extension type. *)
Fixpoint value_type (Ty : IR.Ty) : bool :=
  match Ty with
  | IR.PointerTy _ | IR.MetadataTy | IR.LabelTy | IR.TokenTy => false
  | IR.TargetExtTy Name => String.eqb Name "aarch64.svcount"
  | IR.FixedVectorTy ElementType _
  | IR.ScalableVectorTy ElementType _
  | IR.ScalableMatrixTy ElementType _ _ _ => value_type ElementType
  | _ => true
  end.

(** The two shapes of an EVT: a simple tag without a handle, or the
    sentinel with a handle. *)
Definition well_shaped (e : EVT.t) : Prop :=
  (EVT.V e <> MVT.INVALID_SIMPLE_VALUE_TYPE /\ EVT.LLVMTy e = None)
  \/ (EVT.V e = MVT.INVALID_SIMPLE_VALUE_TYPE /\ exists T, EVT.LLVMTy e = Some T).

(** [FixedVectorType::get] or [ScalableVectorType::get], by the flag. *)
Definition vector_of (ElementType : IR.Ty) (n : Z) (Scalable : bool) : IR.Ty :=
  if Scalable then IR.ScalableVectorTy ElementType n else IR.FixedVectorTy ElementType n.

(** Bounds of [int64_t] components given as numerals. *)
Ltac int64_bounds :=
  unfold StackOffset.well_formed, StackOffset.int64, StackOffset.int64_min,
    StackOffset.int64_max; simpl; lia.

(* ===================================================================== *)
(** * Properties *)
(* ===================================================================== *)

(** ** Scale tags *)

Lemma ScaleID_eqb_eq (a b : ScaleID.t) : ScaleID.eqb a b = true <-> a = b.
Proof.
  split.
  - destruct a, b; simpl; intros H; first [reflexivity | discriminate H].
  - intros ->. destruct b; reflexivity.
Qed.

Lemma ScaleID_eqb_neq (a b : ScaleID.t) : ScaleID.eqb a b = false <-> a <> b.
Proof.
  rewrite <- ScaleID_eqb_eq. destruct (ScaleID.eqb a b); split; congruence.
Qed.

Lemma ScaleID_eqb_refl (a : ScaleID.t) : ScaleID.eqb a a = true.
Proof. now apply ScaleID_eqb_eq. Qed.

Lemma ScaleID_eqb_sym (a b : ScaleID.t) : ScaleID.eqb a b = ScaleID.eqb b a.
Proof. unfold ScaleID.eqb. apply Z.eqb_sym. Qed.

Lemma isScalable_true (q : FixedOrScalableQuantity) :
  details.isScalable q = true <-> details.Scale q <> ScaleID.None.
Proof.
  unfold details.isScalable. rewrite negb_true_iff. apply ScaleID_eqb_neq.
Qed.

Lemma isScalable_false (q : FixedOrScalableQuantity) :
  details.isScalable q = false <-> details.Scale q = ScaleID.None.
Proof.
  unfold details.isScalable. rewrite negb_false_iff. apply ScaleID_eqb_eq.
Qed.

(** Only the tag [V] has the V bit. *)
Lemma isScalableV_true (q : FixedOrScalableQuantity) :
  details.isScalableV q = true <-> details.Scale q = ScaleID.V.
Proof.
  unfold details.isScalableV.
  destruct (details.Scale q); simpl; split; intros H;
    first [reflexivity | discriminate H].
Qed.

Lemma operator_eq_true (a b : FixedOrScalableQuantity) :
  details.operator_eq a b = true <-> a = b.
Proof.
  unfold details.operator_eq. rewrite andb_true_iff, Z.eqb_eq, ScaleID_eqb_eq.
  destruct a, b; simpl; split.
  - intros [-> ->]; reflexivity.
  - intros H; injection H; auto.
Qed.

(** ** StackOffset *)

(** The four factories of a single component and the private constructor
    keep every argument on its own axis. *)
Lemma StackOffset_ctor_components (f v m n mn : Z) :
  let s := StackOffset.ctor f v m n mn in
  StackOffset.getFixed s = f /\ StackOffset.getScalableV s = v
  /\ StackOffset.getScalableM s = m /\ StackOffset.getScalableN s = n
  /\ StackOffset.getScalableMN s = mn.
Proof. repeat split. Qed.

(** What [get] builds: the N axis receives the M argument. *)
Lemma StackOffset_get_components (f v m n mn : Z) :
  let s := StackOffset.get f v m n mn in
  StackOffset.getFixed s = f /\ StackOffset.getScalableV s = v
  /\ StackOffset.getScalableM s = m /\ StackOffset.getScalableN s = m
  /\ StackOffset.getScalableMN s = mn.
Proof. repeat split. Qed.

(** C2, at the failing input: [StackOffset::get(0, 0, 1, 2, 0)] reads back
    1 on the N axis, where the argument was 2; the other four getters
    return their own arguments. *)
Theorem StackOffset_get_loses_ScalableN :
  let s := StackOffset.get 0 0 1 2 0 in
  StackOffset.getScalableN s = 1
  /\ StackOffset.getFixed s = 0 /\ StackOffset.getScalableV s = 0
  /\ StackOffset.getScalableM s = 1 /\ StackOffset.getScalableMN s = 0.
Proof.
  intros s. unfold s, StackOffset.get, StackOffset.ctor.
  repeat split.
Qed.

(** ** Conservative ordering *)

Section Ordering.

Variables a b : FixedOrScalableQuantity.
Hypothesis a_scalable : details.isScalable a = true.
Hypothesis tags_differ : details.Scale b <> details.Scale a.

Lemma guard_LT_closed :
  negb (details.isScalable a) || ScaleID.eqb (details.Scale b) (details.Scale a) = false.
Proof.
  rewrite a_scalable. simpl. now apply ScaleID_eqb_neq.
Qed.

Lemma guard_GT_open :
  details.isScalable a || ScaleID.eqb (details.Scale b) (details.Scale a) = true.
Proof. now rewrite a_scalable. Qed.

Lemma isKnownGT_compares :
  details.isKnownGT a b = (details.Quantity b <? details.Quantity a).
Proof.
  unfold details.isKnownGT. rewrite guard_GT_open.
  unfold details.getKnownMinValue. now rewrite Z.gtb_ltb.
Qed.

End Ordering.

(** C1 (amended).  For [a] scale-tagged and [b] untagged or tagged
    differently, [isKnownLT], [isKnownLE] and [isKnownGE] return false
    whatever the magnitudes are.  [isKnownGT] does not: its guard is open
    as soon as [a] is scale-tagged, so it returns false when
    [a.magnitude <= b.magnitude], and against an untagged [b] it is the
    comparison [a.magnitude > b.magnitude]. *)
Theorem ordering_across_scale_tags (a b : FixedOrScalableQuantity) :
  details.isScalable a = true ->
  details.Scale b <> details.Scale a ->
  details.isKnownLT a b = false
  /\ details.isKnownLE a b = false
  /\ details.isKnownGE a b = false
  /\ (details.Quantity a <= details.Quantity b -> details.isKnownGT a b = false)
  /\ (details.isScalable b = false ->
      details.isKnownGT a b = (details.Quantity b <? details.Quantity a)).
Proof.
  intros Ha Hab.
  pose proof (guard_LT_closed a b Ha Hab) as G.
  unfold details.isKnownLT, details.isKnownLE, details.isKnownGE.
  rewrite G. repeat split.
  - intros Hle. rewrite (isKnownGT_compares a b Ha). now apply Z.ltb_ge.
  - intros _. exact (isKnownGT_compares a b Ha).
Qed.

(** C1, witness: vscale x 5 against the fixed 3. *)
Lemma ordering_across_scale_tags_witness :
  details.isKnownLT (details.mk 5 ScaleID.V) (details.mk 3 ScaleID.None) = false
  /\ details.isKnownLE (details.mk 5 ScaleID.V) (details.mk 3 ScaleID.None) = false
  /\ details.isKnownGE (details.mk 5 ScaleID.V) (details.mk 3 ScaleID.None) = false.
Proof.
  pose proof (ordering_across_scale_tags
                (details.mk 5 ScaleID.V) (details.mk 3 ScaleID.None)
                eq_refl ltac:(discriminate)) as (H1 & H2 & H3 & _).
  exact (conj H1 (conj H2 H3)).
Defined.

(** C1, counterexample to the claim as stated: [a] = vscale x 5 is
    scale-tagged, [b] = 3 is not, and [isKnownGT(a, b)] returns true. *)
Lemma isKnownGT_scalable_vs_fixed :
  details.isScalable (details.mk 5 ScaleID.V) = true
  /\ details.isScalable (details.mk 3 ScaleID.None) = false
  /\ details.isKnownGT (details.mk 5 ScaleID.V) (details.mk 3 ScaleID.None) = true.
Proof. repeat split. Qed.

(** Scale-preserving ordering: between two quantities of the same tag the
    four predicates compare the magnitudes. *)
Theorem ordering_same_tag (a b : FixedOrScalableQuantity) :
  details.Scale a = details.Scale b ->
  details.isKnownLT a b = (details.Quantity a <? details.Quantity b)
  /\ details.isKnownGT a b = (details.Quantity b <? details.Quantity a)
  /\ details.isKnownLE a b = (details.Quantity a <=? details.Quantity b)
  /\ details.isKnownGE a b = (details.Quantity b <=? details.Quantity a).
Proof.
  intros H.
  unfold details.isKnownLT, details.isKnownGT, details.isKnownLE, details.isKnownGE,
    details.getKnownMinValue.
  rewrite H, ScaleID_eqb_refl, !orb_true_r.
  rewrite Z.gtb_ltb, Z.geb_leb. repeat split.
Qed.

Lemma ordering_same_tag_witness :
  details.isKnownLT (details.mk 2 ScaleID.V) (details.mk 4 ScaleID.V) = true.
Proof.
  exact (proj1 (ordering_same_tag (details.mk 2 ScaleID.V) (details.mk 4 ScaleID.V)
                  eq_refl)).
Defined.

(** ** getFixedValue *)

(** C9.  [getFixedValue] returns the bare magnitude exactly when the
    quantity is not scalable or has zero magnitude, and fails its
    assertion exactly when the quantity is scalable and non-zero; whenever
    it returns, it returns the magnitude. *)
Theorem getFixedValue_spec (q : FixedOrScalableQuantity) :
  (details.getFixedValue q = Ok (details.Quantity q)
   <-> details.isScalable q = false \/ details.Quantity q = 0)
  /\ (details.getFixedValue q
      = AssertionFailure "Request for a fixed element count on a scalable object"
      <-> details.isScalable q = true /\ details.Quantity q <> 0)
  /\ (forall v, details.getFixedValue q = Ok v -> v = details.Quantity q).
Proof.
  unfold details.getFixedValue, assert, details.getKnownMinValue, details.isZero.
  destruct (details.isScalable q); destruct (Z.eqb_spec (details.Quantity q) 0) as [Hz | Hz];
    cbn [negb orb]; (split; [ | split ]).
  all: try (split; intros H; break_hyps;
            first [ reflexivity | discriminate | contradiction | now auto ]).
  all: intros v H; first [ discriminate H | now injection H ].
Qed.

(** ** ElementCount *)

(** C6 (amended).  [isScalar] is true iff the count is not scalable and its
    magnitude is 1.  [isVector] is true iff the magnitude is greater than 1
    or the count carries the tag V (the test is [isScalableV], not
    [isScalable]) with a non-zero magnitude.  The two concrete cases of the
    spec hold. *)
Theorem isScalar_isVector_spec (c : ElementCount.t) :
  (ElementCount.isScalar c = true
   <-> details.isScalable c = false /\ details.Quantity c = 1)
  /\ (ElementCount.isVector c = true
      <-> details.Quantity c > 1
          \/ (details.Scale c = ScaleID.V /\ details.Quantity c <> 0))
  /\ ElementCount.isScalar (ElementCount.getFixed 1) = true
  /\ ElementCount.isVector (ElementCount.getScalable 1) = true.
Proof.
  unfold ElementCount.isScalar, ElementCount.isVector, details.getKnownMinValue.
  split; [ | split; [ | split; reflexivity ] ]; split.
  - intros H. apply andb_true_iff in H as [H1 H2].
    apply negb_true_iff in H1. apply Z.eqb_eq in H2. now split.
  - intros [H1 H2]. rewrite H1, H2. reflexivity.
  - intros H. apply orb_true_iff in H as [H | H].
    + apply andb_true_iff in H as [H1 H2]. right. split.
      * now apply isScalableV_true.
      * apply negb_true_iff, Z.eqb_neq in H2. exact H2.
    + left. rewrite Z.gtb_ltb in H. apply Z.ltb_lt in H. lia.
  - intros [H | [H1 H2]]; apply orb_true_iff.
    + right. rewrite Z.gtb_ltb. apply Z.ltb_lt. lia.
    + left. apply andb_true_iff. split.
      * now apply isScalableV_true.
      * now apply negb_true_iff, Z.eqb_neq.
Qed.

(** C6, counterexample to the claim as stated: the count 1 tagged M is
    scalable with a non-zero magnitude, and [isVector] is false on it. *)
Lemma isVector_false_on_mscale_1 :
  details.isScalable (ElementCount.get 1 ScaleID.M) = true
  /\ details.isNonZero (ElementCount.get 1 ScaleID.M) = true
  /\ ElementCount.isVector (ElementCount.get 1 ScaleID.M) = false.
Proof. repeat split. Qed.

(** ** The additive algebra *)

Lemma wrap_plus_minus (w : N) (x y : Z) :
  0 <= x < 2 ^ Z.of_N w -> wrap w (wrap w (x + y) - y) = x.
Proof.
  intros H. unfold wrap. rewrite Zminus_mod_idemp_l.
  replace (x + y - y) with x by lia. now apply Z.mod_small.
Qed.

(** The assertion of [operator-=] cannot fail on [(a + b) - b]. *)
Lemma sum_compatible (w : N) (a b s : FixedOrScalableQuantity) :
  details.operator_plus w a b = Ok s -> details.compatible s b = true.
Proof.
  unfold details.operator_plus, details.operator_plus_eq, assert.
  destruct (details.compatible a b); [ | discriminate ].
  intros H. injection H as <-. unfold details.compatible, details.isZero. simpl.
  destruct (details.Quantity b =? 0); simpl;
    rewrite ?orb_true_r; simpl; rewrite ?ScaleID_eqb_refl, ?orb_true_r; reflexivity.
Qed.

(** C4 (amended).  For compatible [a] and [b] both sums and the difference
    are defined, [(a + b) - b] has the magnitude of [a] and [a + b] the
    magnitude of [b + a].  With [==] comparing the scale tag as well:
    [(a + b) - b == a] holds exactly when [b] is zero or the tags are
    equal, and [a + b == b + a] exactly when [a] or [b] is non-zero or the
    tags are equal (the result inherits the tag of a non-zero right
    operand, and of the left operand otherwise). *)
Theorem plus_minus_commute (w : N) (a b : FixedOrScalableQuantity) :
  details.in_range w a ->
  details.compatible a b = true ->
  exists s s' d,
    details.operator_plus w a b = Ok s
    /\ details.operator_plus w b a = Ok s'
    /\ details.operator_minus w s b = Ok d
    /\ details.Quantity d = details.Quantity a
    /\ details.Quantity s = details.Quantity s'
    /\ details.operator_eq d a
       = (details.isZero b || ScaleID.eqb (details.Scale a) (details.Scale b))
    /\ details.operator_eq s s'
       = (negb (details.isZero a && details.isZero b)
          || ScaleID.eqb (details.Scale a) (details.Scale b)).
Proof.
  intros Ha Hc.
  assert (Hc' : details.compatible b a = true).
  { revert Hc. unfold details.compatible.
    rewrite (ScaleID_eqb_sym (details.Scale b)).
    destruct (details.Quantity a =? 0), (details.Quantity b =? 0); auto. }
  destruct (details.operator_plus w a b) as [s | | | ] eqn:Hs;
    try (unfold details.operator_plus, details.operator_plus_eq, assert in Hs;
         rewrite Hc in Hs; discriminate Hs).
  pose proof (sum_compatible w a b s Hs) as Hsb.
  unfold details.operator_plus, details.operator_plus_eq, assert in Hs.
  rewrite Hc in Hs. injection Hs as <-.
  eexists. eexists. eexists.
  split; [ reflexivity | ].
  split; [ unfold details.operator_plus, details.operator_plus_eq, assert;
           rewrite Hc'; reflexivity | ].
  split; [ unfold details.operator_minus, details.operator_minus_eq, assert;
           rewrite Hsb; reflexivity | ].
  cbn [details.Quantity details.Scale].
  assert (Hq : wrap w (wrap w (details.Quantity a + details.Quantity b)
                       - details.Quantity b) = details.Quantity a)
    by (now apply wrap_plus_minus).
  split; [ exact Hq | ].
  split; [ now rewrite Z.add_comm | ].
  unfold details.operator_eq, details.isZero. cbn [details.Quantity details.Scale].
  rewrite Hq, Z.eqb_refl, (Z.add_comm (details.Quantity b)), Z.eqb_refl.
  unfold details.compatible in Hc.
  destruct (details.Quantity a =? 0), (details.Quantity b =? 0); simpl in *;
    rewrite ?ScaleID_eqb_refl, ?(ScaleID_eqb_sym (details.Scale b)), ?Hc;
    split; reflexivity.
Qed.

(** C4, witness: vscale x 3 and vscale x 4 on 64 bits. *)
Lemma plus_minus_commute_witness :
  exists s s' d,
    details.operator_plus 64 (details.mk 3 ScaleID.V) (details.mk 4 ScaleID.V) = Ok s
    /\ details.operator_plus 64 (details.mk 4 ScaleID.V) (details.mk 3 ScaleID.V) = Ok s'
    /\ details.operator_minus 64 s (details.mk 4 ScaleID.V) = Ok d
    /\ details.operator_eq d (details.mk 3 ScaleID.V) = true
    /\ details.operator_eq s s' = true.
Proof.
  destruct (plus_minus_commute 64 (details.mk 3 ScaleID.V) (details.mk 4 ScaleID.V))
    as (s & s' & d & H1 & H2 & H3 & _ & _ & H6 & H7).
  - unfold details.in_range. simpl. lia.
  - reflexivity.
  - exists s, s', d. repeat split; assumption.
Defined.

(** C4, counterexample to the claim as stated.  [a] = the fixed 0 and
    [b] = vscale x 4 are compatible, yet [(a + b) - b] is the V-tagged 0,
    which [==] tells apart from [a]; [a'] = the V-tagged 0 and [a] are
    compatible, yet [a' + a] and [a + a'] carry different tags. *)
Lemma plus_minus_tag_mismatch :
  let a := TypeSize.getFixed 0 in
  let b := TypeSize.getScalable 4 in
  let a' := TypeSize.getScalable 0 in
  details.compatible a b = true
  /\ (s <- details.operator_plus 64 a b ;;
      d <- details.operator_minus 64 s b ;;
      Ok (details.operator_eq d a))%outcome = Ok false
  /\ details.compatible a' a = true
  /\ (s <- details.operator_plus 64 a' a ;;
      s' <- details.operator_plus 64 a a' ;;
      Ok (details.operator_eq s s'))%outcome = Ok false.
Proof. repeat split. Qed.

(** ** alignTo *)

Lemma modulus_pos : 0 < TypeSize.modulus.
Proof.
  unfold TypeSize.modulus. apply Z.pow_pos_nonneg; [ lia | apply N2Z.is_nonneg ].
Qed.

Lemma modulus_value : TypeSize.modulus = 2 ^ 64.
Proof. reflexivity. Qed.

Lemma aligned_bounds (q n : Z) :
  0 < n -> 0 <= TypeSize.aligned q n <= (q + n - 1) mod TypeSize.modulus.
Proof.
  intros Hn. unfold TypeSize.aligned.
  pose proof (Z.mod_pos_bound (q + n - 1) _ modulus_pos) as Hs.
  pose proof (Z.mul_div_le ((q + n - 1) mod TypeSize.modulus) n Hn) as Hle.
  pose proof (Z.div_pos ((q + n - 1) mod TypeSize.modulus) n (proj1 Hs) Hn) as Hq.
  nia.
Qed.

Lemma alignTo_value (x : TypeSize.t) (n : Z) :
  0 < n ->
  TypeSize.alignTo x n
  = Ok (TypeSize.get (TypeSize.aligned (details.Quantity x) n) (details.Scale x)).
Proof.
  intros Hn. unfold TypeSize.alignTo, assert.
  replace (n =? 0) with false by (symmetry; apply Z.eqb_neq; lia).
  cbn [negb]. unfold details.getKnownMinValue, details.getScale.
  f_equal. f_equal. unfold wrap. fold TypeSize.modulus.
  rewrite Zminus_mod_idemp_l.
  pose proof (aligned_bounds (details.Quantity x) n Hn) as Hb.
  pose proof (Z.mod_pos_bound (details.Quantity x + n - 1) _ modulus_pos) as Hs.
  unfold TypeSize.aligned in *. apply Z.mod_small. lia.
Qed.

(** Re-aligning an aligned magnitude [r]: unchanged when [r + n - 1]
    fits in 64 bits, 0 when it wraps. *)
Lemma aligned_again (r n : Z) :
  0 < n < TypeSize.modulus -> 0 <= r < TypeSize.modulus -> r mod n = 0 ->
  (r + n - 1 < TypeSize.modulus -> TypeSize.aligned r n = r)
  /\ (TypeSize.modulus <= r + n - 1 -> TypeSize.aligned r n = 0).
Proof.
  intros Hn Hr Hmod. unfold TypeSize.aligned.
  apply Z.mod_divide in Hmod; [ | lia ]. destruct Hmod as [k ->].
  split; intros H.
  - rewrite Z.mod_small by lia.
    replace (k * n + n - 1) with (n - 1 + k * n) by lia.
    rewrite Z.div_add by lia. rewrite (Z.div_small (n - 1)) by lia. lia.
  - replace ((k * n + n - 1) mod TypeSize.modulus)
      with (k * n + n - 1 - TypeSize.modulus).
    + rewrite Z.div_small by lia. reflexivity.
    + apply Z.mod_unique with (q := 1); lia.
Qed.

(** A multiple of a power of two below [2^64] leaves room for the
    rounding term. *)
Lemma pow2_multiple_room (r k : Z) :
  0 <= k -> 2 ^ k < 2 ^ 64 -> 0 <= r < 2 ^ 64 -> r mod 2 ^ k = 0 ->
  r + 2 ^ k - 1 < 2 ^ 64.
Proof.
  intros Hk Hn Hr Hmod.
  assert (Hp : 0 < 2 ^ k) by (apply Z.pow_pos_nonneg; lia).
  assert (Hk64 : k < 64).
  { destruct (Z_lt_le_dec k 64) as [ | Hge ]; [ assumption | exfalso ].
    apply (Z.pow_le_mono_r 2) in Hge; lia. }
  assert (Hm : 2 ^ 64 = 2 ^ k * 2 ^ (64 - k)).
  { rewrite <- Z.pow_add_r by lia. f_equal. lia. }
  apply Z.mod_divide in Hmod; [ | lia ]. destruct Hmod as [j Hj].
  assert (Hq : 0 < 2 ^ (64 - k)) by (apply Z.pow_pos_nonneg; lia).
  rewrite Hm in *. clear Hm Hn.
  subst r. revert Hr Hp Hq.
  generalize (2 ^ (64 - k)) as Q. generalize (2 ^ k) as P.
  intros P Q Hr HP HQ.
  assert (Hlt : j < Q) by nia.
  nia.
Qed.

(** C7 (amended).  For a [TypeSize] [x] and a 64-bit alignment [n]:
    [n = 0] fails the assertion; for [n <> 0], [alignTo(x, n)] returns a
    size [r] with the scale tag of [x] and a magnitude that is a multiple
    of [n].  Aligning [r] again returns [r] itself (so the two are [==])
    whenever [r.magnitude + n - 1] fits in 64 bits, in particular for
    every power of two [n]; when that sum wraps around, the second call
    returns 0 instead. *)
Theorem alignTo_spec (x : TypeSize.t) (n : Z) :
  0 <= n < 2 ^ 64 ->
  (n = 0 -> TypeSize.alignTo x n = AssertionFailure "Align must be non-zero")
  /\ (n <> 0 ->
      exists r,
        TypeSize.alignTo x n = Ok r
        /\ details.Scale r = details.Scale x
        /\ details.in_range TypeSize.ScalarBits r
        /\ details.Quantity r mod n = 0
        /\ (details.Quantity r + n - 1 < 2 ^ 64 -> TypeSize.alignTo r n = Ok r)
        /\ ((exists k, 0 <= k /\ n = 2 ^ k) -> TypeSize.alignTo r n = Ok r)
        /\ (2 ^ 64 <= details.Quantity r + n - 1 ->
            TypeSize.alignTo r n = Ok (TypeSize.get 0 (details.Scale x)))).
Proof.
  intros Hn. rewrite <- modulus_value in *. split.
  - intros ->. reflexivity.
  - intros Hnz. assert (Hpos : 0 < n) by lia.
    exists (TypeSize.get (TypeSize.aligned (details.Quantity x) n) (details.Scale x)).
    pose proof (aligned_bounds (details.Quantity x) n Hpos) as Hb.
    pose proof (Z.mod_pos_bound (details.Quantity x + n - 1) _ modulus_pos) as Hs.
    assert (Hr : 0 <= TypeSize.aligned (details.Quantity x) n < TypeSize.modulus) by lia.
    assert (Hmod : TypeSize.aligned (details.Quantity x) n mod n = 0).
    { unfold TypeSize.aligned. apply Z.mod_mul. lia. }
    destruct (aligned_again (TypeSize.aligned (details.Quantity x) n) n
                (conj Hpos (proj2 Hn)) Hr Hmod) as [Hfit Hwrap].
    split; [ now apply alignTo_value | ].
    split; [ reflexivity | ].
    split; [ exact Hr | ].
    split; [ exact Hmod | ].
    cbn [TypeSize.get details.Quantity details.Scale].
    split; [ | split ].
    + intros H. rewrite alignTo_value by assumption.
      cbn [TypeSize.get details.Quantity details.Scale]. now rewrite Hfit.
    + intros (k & Hk & ->). rewrite alignTo_value by assumption.
      cbn [TypeSize.get details.Quantity details.Scale].
      rewrite Hfit; [ reflexivity | ].
      rewrite modulus_value in *. now apply pow2_multiple_room.
    + intros H. rewrite alignTo_value by assumption.
      cbn [TypeSize.get details.Quantity details.Scale]. now rewrite Hwrap.
Qed.

(** C7, witness: 13 bits aligned to 8. *)
Lemma alignTo_spec_witness :
  exists r,
    TypeSize.alignTo (TypeSize.getFixed 13) 8 = Ok r
    /\ details.Quantity r mod 8 = 0
    /\ TypeSize.alignTo r 8 = Ok r.
Proof.
  destruct (alignTo_spec (TypeSize.getFixed 13) 8) as [_ H].
  - lia.
  - destruct H as (r & H1 & _ & _ & H4 & _ & H6 & _); [ lia | ].
    exists r. repeat split; try assumption.
    apply H6. exists 3. split; [ lia | reflexivity ].
Defined.

(** C7, counterexample to the claim as stated: [x] = 3 and the non-zero
    alignment [n = 2^63 + 1].  [alignTo(x, n)] is [n]; aligning that again
    wraps around and gives 0, which [==] tells apart from [n]. *)
Lemma alignTo_not_idempotent :
  let x := TypeSize.getFixed 3 in
  let n := 2 ^ 63 + 1 in
  TypeSize.alignTo x n = Ok (TypeSize.getFixed n)
  /\ TypeSize.alignTo (TypeSize.getFixed n) n = Ok (TypeSize.getFixed 0)
  /\ details.operator_eq (TypeSize.getFixed 0) (TypeSize.getFixed n) = false.
Proof. repeat split. Qed.

(** ** Division of the coefficient *)

(** C10.  Neither operation tests its divisor.  With a non-zero divisor
    both return: [divideCoefficientBy] the quantity with the quotient and
    the same scale tag, [hasKnownScalarFactor] the conjunction of the tag
    test and the zero-remainder test.  With a zero divisor the division is
    reached: by [divideCoefficientBy] always, by [hasKnownScalarFactor]
    when the tags are equal (the [&&] skips the remainder otherwise). *)
Theorem division_needs_nonzero_divisor (q RHS : FixedOrScalableQuantity) (d : Z) :
  (d <> 0 ->
   details.divideCoefficientBy q d
   = Ok (details.mk (details.Quantity q / d) (details.Scale q)))
  /\ (details.Quantity RHS <> 0 ->
      details.hasKnownScalarFactor q RHS
      = Ok (ScaleID.eqb (details.Scale q) (details.Scale RHS)
            && (details.Quantity q mod details.Quantity RHS =? 0)))
  /\ details.divideCoefficientBy q 0 = DivisionByZero
  /\ details.hasKnownScalarFactor q (details.mk 0 (details.Scale q)) = DivisionByZero
  /\ (details.Quantity RHS = 0 -> details.Scale q = details.Scale RHS ->
      details.hasKnownScalarFactor q RHS = DivisionByZero).
Proof.
  unfold details.divideCoefficientBy, details.hasKnownScalarFactor,
    details.getKnownMinValue, details.getScale, details.get.
  repeat split.
  - intros Hd. apply Z.eqb_neq in Hd. now rewrite Hd.
  - intros Hd. apply Z.eqb_neq in Hd. rewrite Hd.
    now destruct (ScaleID.eqb (details.Scale q) (details.Scale RHS)).
  - cbn [details.Scale details.Quantity]. now rewrite ScaleID_eqb_refl.
  - intros H0 Hs. rewrite H0, Hs, ScaleID_eqb_refl. reflexivity.
Qed.

(** C10, witness: vscale x 12 divided by 4 and tested against vscale x 4. *)
Lemma division_needs_nonzero_divisor_witness :
  details.divideCoefficientBy (details.mk 12 ScaleID.V) 4 = Ok (details.mk 3 ScaleID.V)
  /\ details.hasKnownScalarFactor (details.mk 12 ScaleID.V) (details.mk 4 ScaleID.V)
     = Ok true.
Proof.
  destruct (division_needs_nonzero_divisor
              (details.mk 12 ScaleID.V) (details.mk 4 ScaleID.V) 4)
    as (H1 & H2 & _).
  split.
  - apply H1. discriminate.
  - apply H2. discriminate.
Defined.

(** ** The closed enumeration and its table *)

(** The numbering of the enumerators is one-to-one, so that [MVT.eqb]
    decides equality of tags. *)
Lemma enumerators_nth (t : MVT.t) :
  nth_error MVT.enumerators (Z.to_nat (MVT.ordinal t)) = Some t.
Proof. destruct t; reflexivity. Qed.

Lemma ordinal_injective (a b : MVT.t) : MVT.ordinal a = MVT.ordinal b -> a = b.
Proof.
  intros H. pose proof (enumerators_nth a) as Ha. rewrite H in Ha.
  rewrite enumerators_nth in Ha. now injection Ha.
Qed.

Lemma MVT_eqb_eq (a b : MVT.t) : MVT.eqb a b = true <-> a = b.
Proof.
  unfold MVT.eqb. rewrite Z.eqb_eq. split.
  - apply ordinal_injective.
  - now intros ->.
Qed.

(** Every row of the two catalogues is found under its own tag: the
    numbering of the enumerators is one-to-one on them. *)
Lemma vecattr_rows :
  forallb (fun r => let '(Ty, Sc, nElem, ElTy) := r in
                    match MVT.vecattr Ty with
                    | Some (Ty', Sc', nElem', ElTy') =>
                        MVT.eqb Ty Ty' && Bool.eqb Sc Sc' && (nElem =? nElem')
                        && MVT.eqb ElTy ElTy'
                    | None => false
                    end) MVT.GenVT_VECATTR = true.
Proof. vm_compute. reflexivity. Qed.

Lemma matattr_rows :
  forallb (fun r => let '(Ty, Sc, nElem, nElem2, ElTy) := r in
                    match MVT.matattr Ty with
                    | Some (Ty', Sc', nElem', nElem2', ElTy') =>
                        MVT.eqb Ty Ty' && Bool.eqb Sc Sc' && (nElem =? nElem')
                        && (nElem2 =? nElem2') && MVT.eqb ElTy ElTy'
                    | None => false
                    end) MVT.GenVT_MATATTR = true.
Proof. vm_compute. reflexivity. Qed.

(** No tag is both a vector and a matrix. *)
Lemma vector_xor_matrix (VT : MVT.t) : MVT.isVector VT && MVT.isMatrix VT = false.
Proof. destruct VT; vm_compute; reflexivity. Qed.

(** C3 (amended).  [getTypeForEVT] has an entry for every enumerated tag
    except [Other], [Glue], [Untyped], [spirvbuiltin] and [iPTR], on which
    (as on the sentinel without a handle) it fails its assertion; and
    [getVT(getTypeForEVT(t), false)] returns [t] for every tag with an
    entry except [i64x8], [externref], [funcref] and [Metadata]. *)
Theorem getTypeForEVT_round_trip (t : MVT.t) :
  (forall Ty,
      EVT.getTypeForEVT (EVT.of_MVT t) = Ok Ty ->
      ~ In t [MVT.i64x8; MVT.externref; MVT.funcref; MVT.Metadata] ->
      MVT.getVT Ty false = Ok t)
  /\ (In t [MVT.Other; MVT.Glue; MVT.Untyped; MVT.spirvbuiltin; MVT.iPTR] ->
      EVT.getTypeForEVT (EVT.of_MVT t) = AssertionFailure "Type is not extended!")
  /\ (~ In t [MVT.INVALID_SIMPLE_VALUE_TYPE; MVT.Other; MVT.Glue; MVT.Untyped;
              MVT.spirvbuiltin; MVT.iPTR] ->
      exists ty, EVT.getTypeForEVT (EVT.of_MVT t) = Ok (Some ty)).
Proof.
  destruct t;
    (split;
     [ intros Ty H Hn;
       first [ discriminate H
             | injection H as <-; vm_compute; reflexivity
             | exfalso; apply Hn; in_list ]
     | split;
       [ intros Hin; first [ reflexivity | exfalso; not_in_list Hin ]
       | intros Hn; first [ eexists; reflexivity | exfalso; apply Hn; in_list ] ] ]).
Qed.

(** C3, witness: the tag [v4i32]. *)
Lemma getTypeForEVT_round_trip_witness :
  MVT.getVT (Some (IR.FixedVectorTy (IR.IntegerTy 32) 4)) false = Ok MVT.v4i32.
Proof.
  apply (proj1 (getTypeForEVT_round_trip MVT.v4i32)).
  - reflexivity.
  - intros H. not_in_list H.
Defined.

(** C3, counterexample to the claim as stated.  [Other] is an enumerated
    tag and not the extended sentinel, and [getTypeForEVT] has no entry
    for it; [Metadata] has an entry, on which [getVT] reaches
    [llvm_unreachable]; the entries of [i64x8] and [externref] map back to
    other tags. *)
Lemma getTypeForEVT_not_exhaustive :
  MVT.eqb MVT.Other MVT.INVALID_SIMPLE_VALUE_TYPE = false
  /\ EVT.isExtended (EVT.of_MVT MVT.Other) = false
  /\ EVT.getTypeForEVT (EVT.of_MVT MVT.Other) = AssertionFailure "Type is not extended!"
  /\ (Ty <- EVT.getTypeForEVT (EVT.of_MVT MVT.Metadata) ;; MVT.getVT Ty false)%outcome
     = Unreachable "Unknown type!"
  /\ (Ty <- EVT.getTypeForEVT (EVT.of_MVT MVT.i64x8) ;; MVT.getVT Ty false)%outcome
     = Ok MVT.INVALID_SIMPLE_VALUE_TYPE
  /\ (Ty <- EVT.getTypeForEVT (EVT.of_MVT MVT.externref) ;; MVT.getVT Ty false)%outcome
     = Ok MVT.iPTR.
Proof. repeat split. Qed.

(** ** The extended fallback *)

Lemma getIntegerVT_not_enumerated (BitWidth : Z) :
  ~ In BitWidth [1; 2; 4; 8; 16; 32; 64; 128] ->
  MVT.getIntegerVT BitWidth = MVT.INVALID_SIMPLE_VALUE_TYPE.
Proof.
  intros H. unfold MVT.getIntegerVT.
  destruct BitWidth as [ | p | p ]; try reflexivity.
  repeat (destruct p as [ p | p | ]; try reflexivity);
    exfalso; apply H; in_list.
Qed.

(** C8.  An integer type whose bit-width is none of the enumerated integer
    widths 1, 2, 4, 8, 16, 32, 64, 128 is given an extended EVT by
    [getEVT], and [getExtendedSizeInBits] of that EVT is the fixed
    [TypeSize] of exactly that bit-width. *)
Theorem getEVT_extended_integer
        (getPrimitiveSizeInBits : IR.Ty -> TypeSize.t)
        (BitWidth : Z) (HandleUnknown : bool) :
  ~ In BitWidth [1; 2; 4; 8; 16; 32; 64; 128] ->
  exists e,
    EVT.getEVT (IR.IntegerTy BitWidth) HandleUnknown = Ok e
    /\ EVT.isExtended e = true
    /\ EVT.isSimple e = false
    /\ EVT.getExtendedSizeInBits getPrimitiveSizeInBits e
       = Ok (TypeSize.getFixed BitWidth)
    /\ details.getKnownMinValue (TypeSize.getFixed BitWidth) = BitWidth
    /\ details.isScalable (TypeSize.getFixed BitWidth) = false.
Proof.
  intros H. apply getIntegerVT_not_enumerated in H.
  exists (EVT.mk MVT.INVALID_SIMPLE_VALUE_TYPE (Some (IR.IntegerTy BitWidth))).
  split.
  - cbn [EVT.getEVT]. unfold EVT.getIntegerVT. rewrite H. reflexivity.
  - repeat split.
Qed.

(** C8, witness: the 17-bit integer of the spec. *)
Lemma getEVT_extended_integer_witness :
  exists e,
    EVT.getEVT (IR.IntegerTy 17) false = Ok e
    /\ EVT.isExtended e = true
    /\ EVT.getExtendedSizeInBits (fun _ => TypeSize.getFixed 0) e
       = Ok (TypeSize.getFixed 17).
Proof.
  destruct (getEVT_extended_integer (fun _ => TypeSize.getFixed 0) 17 false)
    as (e & H1 & H2 & _ & H4 & _).
  - intros H. not_in_list H.
  - exists e. repeat split; assumption.
Defined.

(** ** LLT from an MVT *)

(** The constructor always returns and sets at most one flag, so that its
    result carries exactly one classification among invalid, scalar,
    pointer, vector and matrix. *)
Theorem LLT_one_kind
        (getSizeInBits : MVT.t -> TypeSize.t)
        (isValid isScalableTargetExtVT : MVT.t -> bool) (VT : MVT.t) :
  exists l k,
    LLT.of_MVT getSizeInBits isValid isScalableTargetExtVT VT = Ok l
    /\ LLT.kinds l = [k].
Proof.
  unfold LLT.of_MVT.
  destruct (MVT.isMatrix VT) eqn:Hm.
  - unfold MVT.isMatrix, MVT.getMatrixNumElements, MVT.getMatrixNumElements2,
      MVT.getMatrixElementType, MVT.isScalableMatrix in *.
    destruct (MVT.matattr VT) as [ [[[[Ty Sc] n] n2] Elt] | ]; [ | discriminate Hm ].
    cbn [bind].
    destruct ((n >? 1) && (n >? 1) || Sc);
      eexists; eexists; split; reflexivity.
  - destruct (MVT.isVector VT) eqn:Hv.
    + unfold MVT.isVector, MVT.getVectorElementCount, MVT.getVectorMinNumElements,
        MVT.getVectorElementType, MVT.isScalableVector in *.
      destruct (MVT.vecattr VT) as [ [[[Ty Sc] n] Elt] | ]; [ | discriminate Hv ].
      cbn [bind].
      destruct ((n >? 1) || Sc);
        eexists; eexists; split; reflexivity.
    + destruct (isValid VT && negb (isScalableTargetExtVT VT));
        eexists; eexists; split; reflexivity.
Qed.

(** The vector branch: a vector tag is classified as vector unless its
    element count is exactly 1 and it is not scalable, in which case it is
    classified as scalar.  No enumerated vector has a count below 1. *)
Theorem LLT_vector_kind
        (getSizeInBits : MVT.t -> TypeSize.t)
        (isValid isScalableTargetExtVT : MVT.t -> bool) (VT : MVT.t) :
  MVT.isVector VT = true ->
  exists l n,
    LLT.of_MVT getSizeInBits isValid isScalableTargetExtVT VT = Ok l
    /\ MVT.getVectorMinNumElements VT = Ok n
    /\ 1 <= n
    /\ LLT.kinds l
       = [if (n =? 1) && negb (MVT.isScalableVector VT) then LLT.Scalar else LLT.Vector].
Proof.
  intros H.
  destruct VT; try discriminate H;
    eexists; eexists;
    (split; [ reflexivity | split; [ reflexivity | split; [ lia | reflexivity ] ] ]).
Qed.

Lemma LLT_vector_kind_witness :
  exists l,
    LLT.of_MVT (fun _ => TypeSize.getFixed 32) (fun _ => true) (fun _ => false) MVT.v1i32
    = Ok l
    /\ LLT.kinds l = [LLT.Scalar].
Proof.
  destruct (LLT_vector_kind (fun _ => TypeSize.getFixed 32) (fun _ => true)
              (fun _ => false) MVT.v1i32 eq_refl)
    as (l & n & H1 & H2 & _ & H4).
  exists l. split; [ exact H1 | ].
  injection H2 as <-. exact H4.
Defined.

(** The remaining branches: a tag that is neither a matrix nor a vector
    becomes a scalar of its own bit-width when it is valid and not a
    scalable target-extension type, and the invalid [LLT], with no flag
    set and every field zero, otherwise. *)
Theorem LLT_scalar_or_invalid
        (getSizeInBits : MVT.t -> TypeSize.t)
        (isValid isScalableTargetExtVT : MVT.t -> bool) (VT : MVT.t) :
  MVT.isMatrix VT = false ->
  MVT.isVector VT = false ->
  exists l,
    LLT.of_MVT getSizeInBits isValid isScalableTargetExtVT VT = Ok l
    /\ (if isValid VT && negb (isScalableTargetExtVT VT)
        then LLT.kinds l = [LLT.Scalar]
             /\ LLT.SizeInBits (LLT.RawData l)
                = details.getKnownMinValue (getSizeInBits VT)
        else LLT.kinds l = [LLT.Invalid] /\ l = LLT.mk false false false false LLT.zero).
Proof.
  intros Hm Hv. unfold LLT.of_MVT. rewrite Hm, Hv.
  destruct (isValid VT && negb (isScalableTargetExtVT VT));
    eexists; (split; [ reflexivity | split; reflexivity ]).
Qed.

Lemma LLT_scalar_or_invalid_witness :
  exists l,
    LLT.of_MVT (fun _ => TypeSize.getFixed 32) (fun _ => true) (fun _ => false) MVT.i32
    = Ok l
    /\ LLT.kinds l = [LLT.Scalar]
    /\ LLT.SizeInBits (LLT.RawData l) = 32.
Proof.
  destruct (LLT_scalar_or_invalid (fun _ => TypeSize.getFixed 32) (fun _ => true)
              (fun _ => false) MVT.i32 eq_refl eq_refl)
    as (l & H1 & H2 & H3).
  exists l. repeat split; assumption.
Defined.

(** C5, at the failing input: [m1x2xi8] is a matrix tag, not scalable, of
    1 x 2 elements, and the constructor classifies it as scalar: the test
    [getMatrixNumElements() > 1 && getMatrixNumElements() > 1] reads the
    first dimension twice and never the second. *)
Theorem LLT_of_m1x2xi8_is_scalar
        (getSizeInBits : MVT.t -> TypeSize.t)
        (isValid isScalableTargetExtVT : MVT.t -> bool) :
  MVT.isMatrix MVT.m1x2xi8 = true
  /\ MVT.isScalableMatrix MVT.m1x2xi8 = false
  /\ MVT.getMatrixNumElements MVT.m1x2xi8 = Ok 1
  /\ MVT.getMatrixNumElements2 MVT.m1x2xi8 = Ok 2
  /\ exists l,
      LLT.of_MVT getSizeInBits isValid isScalableTargetExtVT MVT.m1x2xi8 = Ok l
      /\ LLT.kinds l = [LLT.Scalar]
      /\ LLT.IsMatrix l = false.
Proof.
  repeat split. eexists. split; [ reflexivity | split; reflexivity ].
Qed.

(* ===================================================================== *)
(** * Further properties of TypeSize.h *)
(* ===================================================================== *)

(** ** StackOffset: equality and arithmetic *)

Lemma checked_Some (x y : Z) :
  StackOffset.checked x = Some y <-> y = x /\ StackOffset.int64 x.
Proof.
  unfold StackOffset.checked, StackOffset.int64.
  destruct (StackOffset.int64_min <=? x) eqn:E1;
    destruct (x <=? StackOffset.int64_max) eqn:E2; simpl;
    rewrite ?Z.leb_le, ?Z.leb_gt in E1, E2; split; intros Hx;
    try discriminate Hx; try (destruct Hx; lia).
  - injection Hx as <-. split; [ reflexivity | lia ].
  - destruct Hx as [-> _]. reflexivity.
Qed.

Lemma checked_in_range (x : Z) :
  StackOffset.int64 x -> StackOffset.checked x = Some x.
Proof. intros H. apply checked_Some. now split. Qed.

Lemma checked_None (x : Z) :
  StackOffset.checked x = None <-> ~ StackOffset.int64 x.
Proof.
  destruct (StackOffset.checked x) as [y | ] eqn:E.
  - apply checked_Some in E as [_ E]. split; [ discriminate | tauto ].
  - split; [ | reflexivity ]. intros _ H.
    rewrite (checked_in_range x H) in E. discriminate E.
Qed.

Lemma braced_Some (e1 e2 e3 e4 e5 : option Z) (s : StackOffset.t) :
  StackOffset.braced e1 e2 e3 e4 e5 = Some s <->
  e1 = Some (StackOffset.Fixed s) /\ e2 = Some (StackOffset.ScalableV s)
  /\ e3 = Some (StackOffset.ScalableM s) /\ e4 = Some (StackOffset.ScalableN s)
  /\ e5 = Some (StackOffset.ScalableMN s).
Proof.
  unfold StackOffset.braced, StackOffset.ctor.
  destruct e1, e2, e3, e4, e5, s; simpl; split; intros H;
    try discriminate H; try (destruct H as (? & ? & ? & ? & ?); discriminate).
  - injection H as -> -> -> -> ->. repeat split.
  - destruct H as (H1 & H2 & H3 & H4 & H5).
    injection H1 as ->. injection H2 as ->. injection H3 as ->.
    injection H4 as ->. injection H5 as ->. reflexivity.
Qed.

(** [operator==] holds exactly between equal offsets, [operator!=] is its
    negation, and [operator bool] is [!=] against the default-constructed
    offset. *)
Theorem StackOffset_equality (a b : StackOffset.t) :
  (StackOffset.operator_eq a b = true <-> a = b)
  /\ StackOffset.operator_ne a b = negb (StackOffset.operator_eq a b)
  /\ StackOffset.to_bool a = StackOffset.operator_ne a StackOffset.default.
Proof.
  split; [ | split ].
  - unfold StackOffset.operator_eq. rewrite !andb_true_iff, !Z.eqb_eq.
    destruct a, b; simpl. split.
    + intros [[[[-> ->] ->] ->] ->]. reflexivity.
    + intros H. injection H as -> -> -> -> ->. repeat split.
  - unfold StackOffset.operator_ne, StackOffset.operator_eq.
    rewrite !negb_andb. reflexivity.
  - reflexivity.
Qed.

(** When none of the five component sums overflows, [a + b] is the
    component-wise sum, [b + a] and [a += b] give the same offset, and
    subtracting [b] again gives back [a]. *)
Theorem StackOffset_plus_minus (a b : StackOffset.t) :
  StackOffset.well_formed a ->
  StackOffset.int64 (StackOffset.Fixed a + StackOffset.Fixed b) ->
  StackOffset.int64 (StackOffset.ScalableV a + StackOffset.ScalableV b) ->
  StackOffset.int64 (StackOffset.ScalableM a + StackOffset.ScalableM b) ->
  StackOffset.int64 (StackOffset.ScalableN a + StackOffset.ScalableN b) ->
  StackOffset.int64 (StackOffset.ScalableMN a + StackOffset.ScalableMN b) ->
  let s := StackOffset.mk (StackOffset.Fixed a + StackOffset.Fixed b)
                          (StackOffset.ScalableV a + StackOffset.ScalableV b)
                          (StackOffset.ScalableM a + StackOffset.ScalableM b)
                          (StackOffset.ScalableN a + StackOffset.ScalableN b)
                          (StackOffset.ScalableMN a + StackOffset.ScalableMN b) in
  StackOffset.operator_plus a b = Some s
  /\ StackOffset.operator_plus b a = Some s
  /\ StackOffset.operator_plus_eq a b = Some s
  /\ StackOffset.operator_minus s b = Some a
  /\ StackOffset.operator_minus_eq s b = Some a.
Proof.
  intros (Wf & Wv & Wm & Wn & Wmn) Hf Hv Hm Hn Hmn s.
  assert (Hplus : StackOffset.operator_plus a b = Some s).
  { unfold StackOffset.operator_plus.
    rewrite !checked_in_range by assumption. reflexivity. }
  assert (Hminus : StackOffset.operator_minus s b = Some a).
  { unfold StackOffset.operator_minus, s. cbn [StackOffset.Fixed StackOffset.ScalableV
      StackOffset.ScalableM StackOffset.ScalableN StackOffset.ScalableMN].
    rewrite !Z.add_simpl_r, !checked_in_range by assumption.
    destruct a; reflexivity. }
  split; [ exact Hplus | ].
  split.
  { unfold StackOffset.operator_plus.
    rewrite (Z.add_comm (StackOffset.Fixed b)), (Z.add_comm (StackOffset.ScalableV b)),
      (Z.add_comm (StackOffset.ScalableM b)), (Z.add_comm (StackOffset.ScalableN b)),
      (Z.add_comm (StackOffset.ScalableMN b)).
    exact Hplus. }
  split.
  { unfold StackOffset.operator_plus_eq.
    repeat (cbn zeta;
            cbn [StackOffset.Fixed StackOffset.ScalableV StackOffset.ScalableM
                 StackOffset.ScalableN StackOffset.ScalableMN];
            rewrite checked_in_range by assumption).
    reflexivity. }
  split; [ exact Hminus | ].
  unfold StackOffset.operator_minus_eq, s.
  repeat (cbn zeta;
          cbn [StackOffset.Fixed StackOffset.ScalableV StackOffset.ScalableM
               StackOffset.ScalableN StackOffset.ScalableMN];
          rewrite ?Z.add_simpl_r;
          rewrite checked_in_range by assumption).
  destruct a; reflexivity.
Qed.

(** Witness: [StackOffset::getFixed(8) + StackOffset::getScalableV(2)] has
    8 fixed bytes, 2 V-scaled bytes and nothing else. *)
Lemma StackOffset_plus_minus_witness :
  StackOffset.operator_plus (StackOffset.getFixed' 8) (StackOffset.getScalableV' 2)
  = Some (StackOffset.mk 8 2 0 0 0).
Proof.
  apply (StackOffset_plus_minus (StackOffset.getFixed' 8) (StackOffset.getScalableV' 2));
    int64_bounds.
Defined.

(** The unary minus of a well-formed offset is undefined exactly when one
    of its components is the least [int64_t]; where it is defined it is
    an involution, [a + (-a)] is the default (zero) offset, and
    subtracting [a] is adding [-a]. *)
Theorem StackOffset_negation (a b : StackOffset.t) :
  StackOffset.well_formed a ->
  (StackOffset.operator_neg a = None
   <-> StackOffset.Fixed a = StackOffset.int64_min
       \/ StackOffset.ScalableV a = StackOffset.int64_min
       \/ StackOffset.ScalableM a = StackOffset.int64_min
       \/ StackOffset.ScalableN a = StackOffset.int64_min
       \/ StackOffset.ScalableMN a = StackOffset.int64_min)
  /\ (forall n,
         StackOffset.operator_neg a = Some n ->
         StackOffset.operator_neg n = Some a
         /\ StackOffset.operator_plus a n = Some StackOffset.default
         /\ StackOffset.to_bool StackOffset.default = false
         /\ StackOffset.operator_minus b a = StackOffset.operator_plus b n).
Proof.
  intros (Wf & Wv & Wm & Wn & Wmn).
  unfold StackOffset.int64, StackOffset.int64_min, StackOffset.int64_max in *.
  split.
  - unfold StackOffset.operator_neg, StackOffset.braced.
    repeat match goal with
           | |- context [StackOffset.checked ?x] =>
               let E := fresh "E" in
               destruct (StackOffset.checked x) eqn:E;
               [ apply checked_Some in E | apply checked_None in E ]
           end;
      unfold StackOffset.int64, StackOffset.int64_min, StackOffset.int64_max in *;
      split; intros H; first [ discriminate H | reflexivity | lia ].
  - intros n Hn. unfold StackOffset.operator_neg in Hn.
    apply braced_Some in Hn as (Hf & Hv & Hm & Hn' & Hmn).
    apply checked_Some in Hf as [Ef Rf], Hv as [Ev Rv], Hm as [Em Rm],
        Hn' as [En Rn], Hmn as [Emn Rmn].
    unfold StackOffset.int64, StackOffset.int64_min, StackOffset.int64_max in *.
    assert (Hback : forall x y, y = - x -> - y = x) by (intros; lia).
    repeat split.
    + unfold StackOffset.operator_neg. rewrite Ef, Ev, Em, En, Emn, !Z.opp_involutive.
      rewrite !checked_in_range
        by (unfold StackOffset.int64, StackOffset.int64_min, StackOffset.int64_max; lia).
      destruct a; reflexivity.
    + unfold StackOffset.operator_plus. rewrite Ef, Ev, Em, En, Emn, !Z.add_opp_diag_r.
      reflexivity.
    + unfold StackOffset.operator_minus, StackOffset.operator_plus.
      rewrite Ef, Ev, Em, En, Emn. reflexivity.
Qed.

(** Witness: negating 8 fixed bytes and -2 V-scaled bytes. *)
Lemma StackOffset_negation_witness :
  StackOffset.operator_neg (StackOffset.mk (-8) 2 0 0 0)
  = Some (StackOffset.mk 8 (-2) 0 0 0).
Proof.
  apply (proj2 (StackOffset_negation (StackOffset.mk 8 (-2) 0 0 0) StackOffset.default
                  ltac:(int64_bounds))).
  reflexivity.
Defined.

(** ** The coefficient of a quantity *)

(** [getWithIncrement(RHS)] is the sum with the quantity of magnitude
    [RHS] and of the same scale tag; the assertion of that sum never
    fails. *)
Theorem getWithIncrement_is_plus (w : N) (q : FixedOrScalableQuantity) (RHS : Z) :
  details.operator_plus w q (details.get RHS (details.Scale q))
  = Ok (details.getWithIncrement w q RHS).
Proof.
  unfold details.operator_plus, details.operator_plus_eq, assert, details.compatible,
    details.getWithIncrement, details.get, details.isZero.
  cbn [details.Quantity details.Scale].
  rewrite ScaleID_eqb_refl, orb_true_r.
  now destruct (negb (RHS =? 0)).
Qed.

(** [isKnownMultipleOf(RHS)] tells whether [divideCoefficientBy(RHS)] is
    lossless: for a non-zero [RHS] it returns true exactly when
    multiplying the quotient by [RHS] again gives the quantity back.  In
    the other direction, dividing a product that did not wrap around
    gives the factor back. *)
Theorem lossless_division (w : N) (q : FixedOrScalableQuantity) (RHS : Z) :
  details.in_range w q ->
  0 < RHS ->
  exists d,
    details.divideCoefficientBy q RHS = Ok d
    /\ details.Scale d = details.Scale q
    /\ details.in_range w d
    /\ (details.isKnownMultipleOf q RHS = Ok true
        <-> details.multiplyCoefficientBy w d RHS = q)
    /\ (details.isKnownMultipleOf q RHS = Ok false
        <-> details.multiplyCoefficientBy w d RHS <> q)
    /\ (details.Quantity q * RHS < 2 ^ Z.of_N w ->
        details.divideCoefficientBy (details.multiplyCoefficientBy w q RHS) RHS = Ok q).
Proof.
  intros Hq Hr. unfold details.in_range in *.
  unfold details.divideCoefficientBy, details.isKnownMultipleOf,
    details.multiplyCoefficientBy, details.getKnownMinValue, details.getScale,
    details.get.
  replace (RHS =? 0) with false by (symmetry; apply Z.eqb_neq; lia).
  eexists. split; [ reflexivity | ]. cbn [details.Quantity details.Scale].
  pose proof (Z.mul_div_le (details.Quantity q) RHS Hr) as Hle.
  pose proof (Z.div_pos (details.Quantity q) RHS (proj1 Hq) Hr) as Hpos.
  assert (Hsmall : wrap w (details.Quantity q / RHS * RHS) = details.Quantity q / RHS * RHS).
  { unfold wrap. apply Z.mod_small. nia. }
  assert (Hiff : details.Quantity q mod RHS = 0
                 <-> details.Quantity q / RHS * RHS = details.Quantity q).
  { pose proof (Z.div_mod (details.Quantity q) RHS ltac:(lia)). lia. }
  split; [ reflexivity | ].
  split; [ assert (details.Quantity q / RHS <= details.Quantity q) by nia; lia | ].
  rewrite Hsmall.
  split; [ | split ].
  - split.
    + intros H. injection H as H. apply Z.eqb_eq, Hiff in H. rewrite H.
      now destruct q.
    + intros H. f_equal. apply Z.eqb_eq, Hiff.
      now rewrite <- H at 2.
  - split.
    + intros H. injection H as H. apply Z.eqb_neq in H. intros E. apply H, Hiff.
      now rewrite <- E at 2.
    + intros H. f_equal. apply Z.eqb_neq. intros E. apply H. apply Hiff in E.
      rewrite E. now destruct q.
  - intros Hfit. cbn [details.Quantity details.Scale].
    unfold wrap. rewrite Z.mod_small by nia.
    rewrite Z.div_mul by lia. now destruct q.
Qed.

(** Witness: 12 elements divided by 4. *)
Lemma lossless_division_witness :
  exists d,
    details.divideCoefficientBy (details.mk 12 ScaleID.V) 4 = Ok d
    /\ (details.isKnownMultipleOf (details.mk 12 ScaleID.V) 4 = Ok true
        <-> details.multiplyCoefficientBy 32 d 4 = details.mk 12 ScaleID.V).
Proof.
  destruct (lossless_division 32 (details.mk 12 ScaleID.V) 4)
    as (d & H1 & _ & _ & H4 & _).
  - unfold details.in_range. simpl. lia.
  - lia.
  - exists d. split; assumption.
Defined.

(** [getKnownScalarFactor(RHS)], for a right-hand side of non-zero
    magnitude: when [hasKnownScalarFactor(RHS)] holds it returns an [X]
    with [RHS.multiplyCoefficientBy(X)] equal to the quantity; otherwise
    its assertion fails. *)
Theorem getKnownScalarFactor_spec (w : N) (q RHS : FixedOrScalableQuantity) :
  details.in_range w q ->
  0 < details.Quantity RHS ->
  (details.hasKnownScalarFactor q RHS = Ok true ->
   exists X,
     details.getKnownScalarFactor q RHS = Ok X
     /\ 0 <= X <= details.Quantity q
     /\ details.multiplyCoefficientBy w RHS X = q)
  /\ (details.hasKnownScalarFactor q RHS = Ok false ->
      details.getKnownScalarFactor q RHS
      = AssertionFailure "Expected RHS to be a known factor!")
  /\ (details.hasKnownScalarFactor q RHS = Ok true
      \/ details.hasKnownScalarFactor q RHS = Ok false).
Proof.
  intros Hq Hr. unfold details.in_range in Hq.
  assert (Hnz : (details.Quantity RHS =? 0) = false) by (apply Z.eqb_neq; lia).
  unfold details.getKnownScalarFactor.
  unfold details.hasKnownScalarFactor, details.getKnownMinValue, details.getScale.
  rewrite Hnz.
  destruct (ScaleID.eqb (details.Scale q) (details.Scale RHS)) eqn:Es.
  - apply ScaleID_eqb_eq in Es.
    destruct (details.Quantity q mod details.Quantity RHS =? 0) eqn:Em;
      cbn [bind assert]; (split; [ | split ]);
      try (intros H; discriminate H); try reflexivity; try (now left); try (now right).
    intros _. eexists. split; [ reflexivity | ].
    apply Z.eqb_eq in Em.
    pose proof (Z.div_mod (details.Quantity q) (details.Quantity RHS) ltac:(lia)) as Hdm.
    pose proof (Z.div_pos (details.Quantity q) (details.Quantity RHS) (proj1 Hq) Hr).
    split; [ nia | ].
    unfold details.multiplyCoefficientBy, details.get, details.getKnownMinValue,
      details.getScale.
    rewrite <- Es. unfold wrap.
    replace (details.Quantity RHS * (details.Quantity q / details.Quantity RHS))
      with (details.Quantity q) by lia.
    rewrite Z.mod_small by lia. now destruct q.
  - cbn [bind assert]. (split; [ | split ]);
      try (intros H; discriminate H); try reflexivity; now right.
Qed.

(** Witness: vscale x 12 against vscale x 4 on 32 bits. *)
Lemma getKnownScalarFactor_spec_witness :
  exists X,
    details.getKnownScalarFactor (details.mk 12 ScaleID.V) (details.mk 4 ScaleID.V) = Ok X
    /\ details.multiplyCoefficientBy 32 (details.mk 4 ScaleID.V) X = details.mk 12 ScaleID.V.
Proof.
  destruct (getKnownScalarFactor_spec 32 (details.mk 12 ScaleID.V) (details.mk 4 ScaleID.V))
    as (H & _).
  - unfold details.in_range. simpl. lia.
  - simpl. lia.
  - destruct (H eq_refl) as (X & H1 & _ & H3). exists X. split; assumption.
Defined.

(** [isKnownEven] is [isKnownMultipleOf(2)]: the test of the lowest bit
    agrees with the remainder by 2. *)
Theorem isKnownEven_is_multiple_of_2 (q : FixedOrScalableQuantity) :
  details.isKnownMultipleOf q 2 = Ok (details.isKnownEven q).
Proof.
  unfold details.isKnownMultipleOf, details.isKnownEven.
  cbn [Z.eqb]. f_equal.
  change 1 with (Z.ones 1). rewrite Z.land_ones by lia. reflexivity.
Qed.

(** ** The ordering predicates as a relation *)

(** A proven [isKnownLT(a, b)] is never contradicted by the other three
    predicates: it comes with [isKnownLE(a, b)] and [isKnownGT(b, a)],
    and excludes [isKnownGE(a, b)] and [isKnownGT(a, b)]; likewise
    [isKnownLE(a, b)] excludes [isKnownGT(a, b)]. *)
Theorem ordering_consistent (a b : FixedOrScalableQuantity) :
  (details.isKnownLT a b = true ->
   details.isKnownLE a b = true /\ details.isKnownGT b a = true
   /\ details.isKnownGE a b = false /\ details.isKnownGT a b = false)
  /\ (details.isKnownLE a b = true -> details.isKnownGT a b = false)
  /\ details.isKnownLE a a = true /\ details.isKnownGE a a = true
  /\ details.isKnownLT a a = false /\ details.isKnownGT a a = false.
Proof.
  destruct a as [qa sa], b as [qb sb].
  unfold details.isKnownLT, details.isKnownLE, details.isKnownGT, details.isKnownGE,
    details.getKnownMinValue, details.isScalable.
  cbn [details.Quantity details.Scale].
  rewrite !Z.gtb_ltb, !Z.geb_leb, Z.ltb_irrefl, Z.leb_refl.
  destruct (Z.ltb_spec qa qb); destruct (Z.ltb_spec qb qa);
    destruct (Z.leb_spec qa qb); destruct (Z.leb_spec qb qa); try lia;
    destruct sa, sb; cbn; intuition discriminate.
Qed.

(** Witness: the fixed 3 is known to be less than vscale x 4. *)
Lemma ordering_consistent_witness :
  details.isKnownGT (details.mk 4 ScaleID.V) (details.mk 3 ScaleID.None) = true.
Proof.
  apply (proj1 (ordering_consistent (details.mk 3 ScaleID.None) (details.mk 4 ScaleID.V))).
  reflexivity.
Defined.

Lemma guard_LT_trans (a b c : FixedOrScalableQuantity) :
  negb (details.isScalable a) || ScaleID.eqb (details.Scale b) (details.Scale a) = true ->
  negb (details.isScalable b) || ScaleID.eqb (details.Scale c) (details.Scale b) = true ->
  negb (details.isScalable a) || ScaleID.eqb (details.Scale c) (details.Scale a) = true.
Proof.
  unfold details.isScalable.
  destruct (details.Scale a), (details.Scale b), (details.Scale c); simpl; auto.
Qed.

(** [isKnownLT] and [isKnownLE] are transitive. *)
Theorem ordering_transitive (a b c : FixedOrScalableQuantity) :
  (details.isKnownLT a b = true -> details.isKnownLT b c = true ->
   details.isKnownLT a c = true)
  /\ (details.isKnownLE a b = true -> details.isKnownLE b c = true ->
      details.isKnownLE a c = true).
Proof.
  unfold details.isKnownLT, details.isKnownLE, details.getKnownMinValue.
  split; intros Hab Hbc;
    destruct (negb (details.isScalable a)
              || ScaleID.eqb (details.Scale b) (details.Scale a)) eqn:Gab;
    try discriminate Hab;
    destruct (negb (details.isScalable b)
              || ScaleID.eqb (details.Scale c) (details.Scale b)) eqn:Gbc;
    try discriminate Hbc;
    rewrite (guard_LT_trans a b c Gab Gbc).
  - apply Z.ltb_lt in Hab, Hbc. apply Z.ltb_lt. lia.
  - apply Z.leb_le in Hab, Hbc. apply Z.leb_le. lia.
Qed.

(** Witness: 2 < vscale x 3 < vscale x 5. *)
Lemma ordering_transitive_witness :
  details.isKnownLT (details.mk 2 ScaleID.None) (details.mk 5 ScaleID.V) = true.
Proof.
  apply (proj1 (ordering_transitive (details.mk 2 ScaleID.None) (details.mk 3 ScaleID.V)
                  (details.mk 5 ScaleID.V))); reflexivity.
Defined.

(** ** The ordering predicates against the runtime values *)

Section RuntimeScale.

(** The runtime factor of every scale class: 1 for an untagged quantity,
    at least 1 otherwise. *)
Variable factor : ScaleID.t -> Z.
Hypothesis factor_None : factor ScaleID.None = 1.
Hypothesis factor_ge_1 : forall s, 1 <= factor s.

Lemma guarded_cases (a b : FixedOrScalableQuantity) :
  negb (details.isScalable a) || ScaleID.eqb (details.Scale b) (details.Scale a) = true ->
  factor (details.Scale a) = 1 \/ details.Scale b = details.Scale a.
Proof.
  intros H. apply orb_true_iff in H as [H | H].
  - left. apply negb_true_iff, isScalable_false in H. now rewrite H.
  - right. now apply ScaleID_eqb_eq.
Qed.

(** [isKnownLT] and [isKnownLE] are sound: whatever the runtime factors
    are, a true answer orders the runtime values. *)
Lemma isKnownLT_LE_sound (a b : FixedOrScalableQuantity) :
  0 <= details.Quantity a ->
  (details.isKnownLT a b = true -> runtime_value factor a < runtime_value factor b)
  /\ (details.isKnownLE a b = true -> runtime_value factor a <= runtime_value factor b).
Proof.
  intros Ha. unfold details.isKnownLT, details.isKnownLE, details.getKnownMinValue,
    runtime_value.
  pose proof (factor_ge_1 (details.Scale a)) as Fa.
  pose proof (factor_ge_1 (details.Scale b)) as Fb.
  split; intros H;
    destruct (negb (details.isScalable a)
              || ScaleID.eqb (details.Scale b) (details.Scale a)) eqn:G;
    try discriminate H;
    destruct (guarded_cases a b G) as [E | E];
    try (apply Z.ltb_lt in H); try (apply Z.leb_le in H);
    rewrite ?E in *; nia.
Qed.

(** [isKnownGT] is sound against an untagged or equally tagged right
    operand, [isKnownGE] between equally tagged operands. *)
Lemma isKnownGT_GE_sound (a b : FixedOrScalableQuantity) :
  0 <= details.Quantity b ->
  (details.isKnownGT a b = true ->
   details.isScalable b = false \/ details.Scale b = details.Scale a ->
   runtime_value factor a > runtime_value factor b)
  /\ (details.isKnownGE a b = true ->
      details.Scale b = details.Scale a ->
      runtime_value factor a >= runtime_value factor b).
Proof.
  intros Hb. unfold details.isKnownGT, details.isKnownGE, details.getKnownMinValue,
    runtime_value.
  pose proof (factor_ge_1 (details.Scale a)) as Fa.
  pose proof (factor_ge_1 (details.Scale b)) as Fb.
  split; intros H.
  - destruct (details.isScalable a
              || ScaleID.eqb (details.Scale b) (details.Scale a)); try discriminate H.
    rewrite Z.gtb_ltb in H. apply Z.ltb_lt in H.
    intros [E | E].
    + apply isScalable_false in E. rewrite E, factor_None. nia.
    + rewrite E. nia.
  - destruct (negb (details.isScalable a)
              || ScaleID.eqb (details.Scale b) (details.Scale a)); try discriminate H.
    rewrite Z.geb_leb in H. apply Z.leb_le in H.
    intros E. rewrite E. nia.
Qed.

End RuntimeScale.

(** Conservative ordering: for every assignment of runtime factors that
    are at least 1 (and 1 for an untagged quantity), a true [isKnownLT] or
    [isKnownLE] orders the runtime values [magnitude * factor]; so does a
    true [isKnownGT] against an untagged or equally tagged right operand,
    and a true [isKnownGE] between operands of the same tag. *)
Theorem ordering_sound (factor : ScaleID.t -> Z) (a b : FixedOrScalableQuantity) :
  factor ScaleID.None = 1 ->
  (forall s, 1 <= factor s) ->
  0 <= details.Quantity a ->
  0 <= details.Quantity b ->
  (details.isKnownLT a b = true -> runtime_value factor a < runtime_value factor b)
  /\ (details.isKnownLE a b = true -> runtime_value factor a <= runtime_value factor b)
  /\ (details.isKnownGT a b = true ->
      details.isScalable b = false \/ details.Scale b = details.Scale a ->
      runtime_value factor a > runtime_value factor b)
  /\ (details.isKnownGE a b = true ->
      details.Scale b = details.Scale a ->
      runtime_value factor a >= runtime_value factor b).
Proof.
  intros F1 Fge Ha Hb.
  destruct (isKnownLT_LE_sound factor F1 Fge a b Ha) as [H1 H2].
  destruct (isKnownGT_GE_sound factor F1 Fge a b Hb) as [H3 H4].
  repeat split; assumption.
Qed.

(** Witness: the fixed 3 against vscale x 4 with every runtime factor 2. *)
Lemma ordering_sound_witness :
  runtime_value (fun s => match s with ScaleID.None => 1 | _ => 2 end)
                (details.mk 3 ScaleID.None)
  < runtime_value (fun s => match s with ScaleID.None => 1 | _ => 2 end)
                  (details.mk 4 ScaleID.V).
Proof.
  apply (proj1 (ordering_sound (fun s => match s with ScaleID.None => 1 | _ => 2 end)
                  (details.mk 3 ScaleID.None) (details.mk 4 ScaleID.V)
                  eq_refl
                  (fun s => match s with
                            | ScaleID.None => Z.le_refl 1
                            | _ => Z.le_succ_diag_r 1
                            end)
                  ltac:(simpl; lia) ltac:(simpl; lia))).
  reflexivity.
Defined.

(** [isKnownGE] with an untagged left operand compares the magnitudes
    whatever the right operand is: for a scale-tagged [b] with
    [0 < b.magnitude <= a.magnitude] it returns true, although the runtime
    value of [b] exceeds that of [a] as soon as every runtime factor is
    [a.magnitude + 1]. *)
Theorem isKnownGE_fixed_vs_scalable (a b : FixedOrScalableQuantity) :
  details.isScalable a = false ->
  details.isScalable b = true ->
  0 < details.Quantity b <= details.Quantity a ->
  details.isKnownGE a b = true
  /\ uniform_scales (details.Quantity a + 1) ScaleID.None = 1
  /\ (forall s, 1 <= uniform_scales (details.Quantity a + 1) s)
  /\ runtime_value (uniform_scales (details.Quantity a + 1)) a
     < runtime_value (uniform_scales (details.Quantity a + 1)) b.
Proof.
  intros Ha Hb Hq.
  split.
  { unfold details.isKnownGE, details.getKnownMinValue. rewrite Ha. cbn [negb orb].
    rewrite Z.geb_leb. apply Z.leb_le. lia. }
  split; [ reflexivity | ].
  split; [ intros s; destruct s; simpl; nia | ].
  unfold runtime_value.
  apply isScalable_false in Ha. apply isScalable_true in Hb.
  rewrite Ha. destruct (details.Scale b); try (now contradiction Hb); simpl; nia.
Qed.

(** Witness: the fixed 4 against vscale x 4. *)
Lemma isKnownGE_fixed_vs_scalable_witness :
  details.isKnownGE (details.mk 4 ScaleID.None) (details.mk 4 ScaleID.V) = true
  /\ runtime_value (uniform_scales 5) (details.mk 4 ScaleID.None)
     < runtime_value (uniform_scales 5) (details.mk 4 ScaleID.V).
Proof.
  destruct (isKnownGE_fixed_vs_scalable (details.mk 4 ScaleID.None) (details.mk 4 ScaleID.V)
              eq_refl eq_refl ltac:(simpl; lia)) as (H1 & _ & _ & H4).
  split; [ exact H1 | exact H4 ].
Defined.

(** ** Printing *)

(** [print] writes the decimal magnitude after a prefix chosen by the
    scale tag: none for an untagged quantity, "vscale x " for V,
    "mscale x " for M and "nscale x " for N.  The test for M comes before
    the test for MN and MN carries the bit of M, so an MN-tagged quantity
    is written with the prefix of M and the prefix "mnscale x " is never
    written. *)
Theorem print_prefix (q : FixedOrScalableQuantity) :
  details.print q
  = ((match details.Scale q with
      | ScaleID.None => ""
      | ScaleID.V => "vscale x "
      | ScaleID.M | ScaleID.MN => "mscale x "
      | ScaleID.N => "nscale x "
      end) ++ details.decimal (details.Quantity q))%string
  /\ details.print (details.mk (details.Quantity q) ScaleID.MN)
     = details.print (details.mk (details.Quantity q) ScaleID.M)
  /\ details.print (TypeSize.getScalable 4) = "vscale x 4"%string.
Proof.
  unfold details.print, details.getKnownMinValue.
  repeat split. destruct q as [n s]. now destruct s.
Qed.

(** ** DenseMapInfo<ElementCount> *)

Lemma times_37_injective (x y : Z) :
  0 <= x < 2 ^ 32 -> 0 <= y < 2 ^ 32 ->
  (x * 37) mod 2 ^ 32 = (y * 37) mod 2 ^ 32 -> x = y.
Proof.
  intros Hx Hy H.
  assert (Hd : (2 ^ 32 | 37 * (x - y))).
  { apply Z.mod_divide; [ lia | ].
    replace (37 * (x - y)) with (x * 37 - y * 37) by lia.
    rewrite Zminus_mod, H, Z.sub_diag. reflexivity. }
  apply Z.gauss in Hd; [ | reflexivity ].
  destruct Hd as [k Hk]. nia.
Qed.

Lemma minus_1_injective (x y : Z) :
  0 <= x < 2 ^ 32 -> 0 <= y < 2 ^ 32 ->
  (x - 1) mod 2 ^ 32 = (y - 1) mod 2 ^ 32 -> x = y.
Proof.
  intros Hx Hy H.
  assert (Hd : (2 ^ 32 | x - y)).
  { apply Z.mod_divide; [ lia | ].
    replace (x - y) with ((x - 1) - (y - 1)) by lia.
    rewrite Zminus_mod, H, Z.sub_diag. reflexivity. }
  destruct Hd as [k Hk]. nia.
Qed.

(** The empty key and the tombstone key are 32-bit counts that [isEqual]
    tells apart, and [getHashValue] is one-to-one on the 32-bit counts of
    one scale tag (37 is invertible modulo 2^32).  The hash does not
    depend on which tag a scalable count carries. *)
Theorem DenseMapInfo_keys_and_hash (a b : ElementCount.t) :
  details.in_range ElementCount.ScalarBits a ->
  details.in_range ElementCount.ScalarBits b ->
  (details.Scale a = details.Scale b ->
   DenseMapInfo.getHashValue a = DenseMapInfo.getHashValue b ->
   DenseMapInfo.isEqual a b = true)
  /\ (details.isScalable a = true -> details.isScalable b = true ->
      details.Quantity a = details.Quantity b ->
      DenseMapInfo.getHashValue a = DenseMapInfo.getHashValue b)
  /\ DenseMapInfo.isEqual DenseMapInfo.getEmptyKey DenseMapInfo.getTombstoneKey = false
  /\ details.in_range ElementCount.ScalarBits DenseMapInfo.getEmptyKey
  /\ details.in_range ElementCount.ScalarBits DenseMapInfo.getTombstoneKey.
Proof.
  intros Ha Hb. unfold details.in_range in *.
  change (Z.of_N ElementCount.ScalarBits) with 32 in *.
  split; [ | split; [ | repeat split; vm_compute; congruence ] ].
  - intros Es Hh. unfold DenseMapInfo.isEqual. apply operator_eq_true.
    unfold DenseMapInfo.getHashValue, details.isScalable, details.getKnownMinValue,
      wrap in Hh.
    change (Z.of_N ElementCount.ScalarBits) with 32 in Hh.
    rewrite Es in Hh.
    assert (Hq : details.Quantity a = details.Quantity b).
    { destruct (negb (ScaleID.eqb (details.Scale b) ScaleID.None)).
      - apply times_37_injective; try assumption.
        apply minus_1_injective; try assumption;
          apply Z.mod_pos_bound; lia.
      - now apply times_37_injective. }
    destruct a, b; simpl in *. now subst.
  - intros Sa Sb Hq. unfold DenseMapInfo.getHashValue, details.getKnownMinValue.
    now rewrite Sa, Sb, Hq.
Qed.

(** Witness: the counts vscale x 5 and vscale x 5. *)
Lemma DenseMapInfo_keys_and_hash_witness :
  DenseMapInfo.isEqual (ElementCount.getScalable 5) (ElementCount.getScalable 5) = true.
Proof.
  apply (proj1 (DenseMapInfo_keys_and_hash (ElementCount.getScalable 5)
                  (ElementCount.getScalable 5)
                  ltac:(unfold details.in_range; simpl; lia)
                  ltac:(unfold details.in_range; simpl; lia)));
    reflexivity.
Defined.

(* ===================================================================== *)
(** * Further properties of ValueTypes.cpp *)
(* ===================================================================== *)

(** ** The catalogues against the table of [getTypeForEVT] *)

(** Every vector row agrees with the entry of its tag in [getTypeForEVT]. *)
Lemma vecattr_entries :
  Forall (fun r => let '(Ty, Sc, nElem, ElTy) := r in
                   exists E,
                     EVT.getTypeForEVT (EVT.of_MVT ElTy) = Ok (Some E)
                     /\ EVT.getTypeForEVT (EVT.of_MVT Ty)
                        = Ok (Some (vector_of E nElem Sc)))
         MVT.GenVT_VECATTR.
Proof.
  unfold MVT.GenVT_VECATTR.
  repeat (apply Forall_cons; [ eexists; split; reflexivity | ]).
  apply Forall_nil.
Qed.

Lemma matattr_entries :
  Forall (fun r => let '(Ty, Sc, nElem, nElem2, ElTy) := r in
                   exists E,
                     EVT.getTypeForEVT (EVT.of_MVT ElTy) = Ok (Some E)
                     /\ EVT.getTypeForEVT (EVT.of_MVT Ty)
                        = Ok (Some (IR.ScalableMatrixTy E nElem nElem2 Sc)))
         MVT.GenVT_MATATTR.
Proof.
  unfold MVT.GenVT_MATATTR.
  repeat (apply Forall_cons; [ eexists; split; reflexivity | ]).
  apply Forall_nil.
Qed.

(** A vector tag found by [MVT::getVectorVT] has the entry built from the
    entry of the element tag. *)
Lemma getVectorVT_entry (VT : MVT.t) (n : Z) (sc : bool) :
  MVT.getVectorVT_n VT n sc <> MVT.INVALID_SIMPLE_VALUE_TYPE ->
  exists E,
    EVT.getTypeForEVT (EVT.of_MVT VT) = Ok (Some E)
    /\ EVT.getTypeForEVT (EVT.of_MVT (MVT.getVectorVT_n VT n sc))
       = Ok (Some (vector_of E n sc)).
Proof.
  unfold MVT.getVectorVT_n.
  destruct (find _ MVT.GenVT_VECATTR) as [ [[[Ty Sc] nElem] ElTy] | ] eqn:F;
    [ intros _ | intros H; now contradiction H ].
  apply find_some in F as [Hin Hp].
  apply andb_true_iff in Hp as [Hp Hn]. apply andb_true_iff in Hp as [Hs Ht].
  apply Z.eqb_eq in Hn. apply MVT_eqb_eq in Ht. apply Bool.eqb_prop in Hs.
  subst.
  exact (proj1 (Forall_forall _ _) vecattr_entries _ Hin).
Qed.

Lemma getMatrixVT_entry (VT : MVT.t) (n n2 : Z) (sc : bool) :
  MVT.getMatrixVT VT n n2 sc <> MVT.INVALID_SIMPLE_VALUE_TYPE ->
  exists E,
    EVT.getTypeForEVT (EVT.of_MVT VT) = Ok (Some E)
    /\ EVT.getTypeForEVT (EVT.of_MVT (MVT.getMatrixVT VT n n2 sc))
       = Ok (Some (IR.ScalableMatrixTy E n n2 sc)).
Proof.
  unfold MVT.getMatrixVT.
  destruct (find _ MVT.GenVT_MATATTR) as [ [[[[Ty Sc] nElem] nElem2] ElTy] | ] eqn:F;
    [ intros _ | intros H; now contradiction H ].
  apply find_some in F as [Hin Hp].
  apply andb_true_iff in Hp as [Hp Hn2]. apply andb_true_iff in Hp as [Hp Hn].
  apply andb_true_iff in Hp as [Hs Ht].
  apply Z.eqb_eq in Hn, Hn2. apply MVT_eqb_eq in Ht. apply Bool.eqb_prop in Hs.
  subst.
  exact (proj1 (Forall_forall _ _) matattr_entries _ Hin).
Qed.

(** The sentinel is the element tag of no row. *)
Lemma getVectorVT_of_INVALID (n : Z) (sc : bool) :
  MVT.getVectorVT_n MVT.INVALID_SIMPLE_VALUE_TYPE n sc = MVT.INVALID_SIMPLE_VALUE_TYPE.
Proof.
  destruct (MVT.getVectorVT_n MVT.INVALID_SIMPLE_VALUE_TYPE n sc) eqn:E; try reflexivity;
    (destruct (getVectorVT_entry MVT.INVALID_SIMPLE_VALUE_TYPE n sc) as (T & H & _);
     [ rewrite E; discriminate | discriminate H ]).
Qed.

Lemma getMatrixVT_of_INVALID (n n2 : Z) (sc : bool) :
  MVT.getMatrixVT MVT.INVALID_SIMPLE_VALUE_TYPE n n2 sc = MVT.INVALID_SIMPLE_VALUE_TYPE.
Proof.
  destruct (MVT.getMatrixVT MVT.INVALID_SIMPLE_VALUE_TYPE n n2 sc) eqn:E; try reflexivity;
    (destruct (getMatrixVT_entry MVT.INVALID_SIMPLE_VALUE_TYPE n n2 sc) as (T & H & _);
     [ rewrite E; discriminate | discriminate H ]).
Qed.

(** An enumerated integer width has the integer type of that width as its
    entry. *)
Lemma getIntegerVT_entry (BitWidth : Z) :
  MVT.getIntegerVT BitWidth <> MVT.INVALID_SIMPLE_VALUE_TYPE ->
  EVT.getTypeForEVT (EVT.of_MVT (MVT.getIntegerVT BitWidth))
  = Ok (Some (IR.IntegerTy BitWidth)).
Proof.
  unfold MVT.getIntegerVT. intros H.
  destruct BitWidth as [ | p | p ]; try (now contradiction H).
  repeat (destruct p as [ p | p | ]; try (now contradiction H); try reflexivity).
Qed.

Lemma MVT_eqb_neq (a b : MVT.t) : MVT.eqb a b = false <-> a <> b.
Proof.
  rewrite <- MVT_eqb_eq. destruct (MVT.eqb a b); split; congruence.
Qed.

(** ** From a structural type to an EVT and back *)

Lemma isScalable_get_bool (n : Z) (sc : bool) :
  details.isScalable (ElementCount.get_bool n sc) = sc.
Proof. now destruct sc. Qed.

Lemma VectorType_get_get_bool (Elt : IR.Ty) (n : Z) (sc : bool) :
  IR.VectorType_get Elt (ElementCount.get_bool n sc) = vector_of Elt n sc.
Proof. now destruct sc. Qed.

Lemma well_shaped_simple (e : EVT.t) :
  well_shaped e -> EVT.V e <> MVT.INVALID_SIMPLE_VALUE_TYPE -> e = EVT.of_MVT (EVT.V e).
Proof.
  intros [[_ H] | [H _]] Hn; [ | contradiction ].
  destruct e; simpl in *. now subst.
Qed.

Lemma extended_entry (T : IR.Ty) :
  EVT.getTypeForEVT (EVT.mk MVT.INVALID_SIMPLE_VALUE_TYPE (Some T)) = Ok (Some T).
Proof. reflexivity. Qed.

Lemma well_shaped_extended (T : IR.Ty) :
  well_shaped (EVT.mk MVT.INVALID_SIMPLE_VALUE_TYPE (Some T)).
Proof. right. split; [ reflexivity | now exists T ]. Qed.

Lemma well_shaped_of_MVT (M : MVT.t) :
  M <> MVT.INVALID_SIMPLE_VALUE_TYPE -> well_shaped (EVT.of_MVT M).
Proof. intros H. left. now split. Qed.

(** [EVT::getVectorVT] on the EVT of the element type. *)
Lemma getVectorVT_round_trip (Elt : IR.Ty) (n : Z) (sc : bool) (EltVT e : EVT.t) :
  well_shaped EltVT ->
  (forall T', EVT.getTypeForEVT EltVT = Ok T' -> T' = Some Elt) ->
  EVT.getVectorVT EltVT (ElementCount.get_bool n sc) = Ok e ->
  well_shaped e /\ EVT.getTypeForEVT e = Ok (Some (vector_of Elt n sc)).
Proof.
  intros Hs Hback. unfold EVT.getVectorVT, MVT.getVectorVT.
  rewrite isScalable_get_bool.
  change (details.getKnownMinValue (ElementCount.get_bool n sc)) with n.
  destruct (MVT.eqb (MVT.getVectorVT_n (EVT.V EltVT) n sc) MVT.INVALID_SIMPLE_VALUE_TYPE)
    eqn:EM; cbn [negb].
  - unfold EVT.getExtendedVectorVT.
    destruct (EVT.getTypeForEVT EltVT) as [ [El | ] | | | ]; cbn [bind];
      try discriminate.
    specialize (Hback _ eq_refl). injection Hback as ->.
    rewrite VectorType_get_get_bool. cbn. intros H. injection H as <-.
    split; [ apply well_shaped_extended | reflexivity ].
  - apply MVT_eqb_neq in EM. intros H. injection H as <-.
    split; [ now apply well_shaped_of_MVT | ].
    destruct (getVectorVT_entry _ _ _ EM) as (E & HE & HM).
    assert (Hv : EVT.V EltVT <> MVT.INVALID_SIMPLE_VALUE_TYPE).
    { intros Hv. rewrite Hv, getVectorVT_of_INVALID in EM. now apply EM. }
    rewrite <- (well_shaped_simple _ Hs Hv) in HE.
    specialize (Hback _ HE). injection Hback as ->. exact HM.
Qed.

Lemma getVectorVT_returns (Elt : IR.Ty) (EC : ElementCount.t) (EltVT : EVT.t) :
  EVT.getTypeForEVT EltVT = Ok (Some Elt) ->
  exists e, EVT.getVectorVT EltVT EC = Ok e.
Proof.
  intros H. unfold EVT.getVectorVT.
  destruct (negb (MVT.eqb (MVT.getVectorVT (EVT.V EltVT) EC)
                          MVT.INVALID_SIMPLE_VALUE_TYPE)).
  - eexists. reflexivity.
  - unfold EVT.getExtendedVectorVT. rewrite H. cbn. eexists. reflexivity.
Qed.

(** [EVT::getMatrixVT] on the EVT of the element type. *)
Lemma getMatrixVT_round_trip (Elt : IR.Ty) (n n2 : Z) (sc : bool) (EltVT e : EVT.t) :
  well_shaped EltVT ->
  (forall T', EVT.getTypeForEVT EltVT = Ok T' -> T' = Some Elt) ->
  EVT.getMatrixVT EltVT n n2 sc = Ok e ->
  well_shaped e /\ EVT.getTypeForEVT e = Ok (Some (IR.ScalableMatrixTy Elt n n2 sc)).
Proof.
  intros Hs Hback. unfold EVT.getMatrixVT.
  destruct (MVT.eqb (MVT.getMatrixVT (EVT.V EltVT) n n2 sc) MVT.INVALID_SIMPLE_VALUE_TYPE)
    eqn:EM; cbn [negb].
  - unfold EVT.getExtendedMatrixVT.
    destruct (EVT.getTypeForEVT EltVT) as [ [El | ] | | | ]; cbn [bind];
      try discriminate.
    specialize (Hback _ eq_refl). injection Hback as ->.
    cbn. intros H. injection H as <-.
    split; [ apply well_shaped_extended | reflexivity ].
  - apply MVT_eqb_neq in EM. intros H. injection H as <-.
    split; [ now apply well_shaped_of_MVT | ].
    destruct (getMatrixVT_entry _ _ _ _ EM) as (E & HE & HM).
    assert (Hv : EVT.V EltVT <> MVT.INVALID_SIMPLE_VALUE_TYPE).
    { intros Hv. rewrite Hv, getMatrixVT_of_INVALID in EM. now apply EM. }
    rewrite <- (well_shaped_simple _ Hs Hv) in HE.
    specialize (Hback _ HE). injection Hback as ->. exact HM.
Qed.

Lemma getMatrixVT_returns (Elt : IR.Ty) (n n2 : Z) (sc : bool) (EltVT : EVT.t) :
  EVT.getTypeForEVT EltVT = Ok (Some Elt) ->
  exists e, EVT.getMatrixVT EltVT n n2 sc = Ok e.
Proof.
  intros H. unfold EVT.getMatrixVT.
  destruct (negb (MVT.eqb (MVT.getMatrixVT (EVT.V EltVT) n n2 sc)
                          MVT.INVALID_SIMPLE_VALUE_TYPE)).
  - eexists. reflexivity.
  - unfold EVT.getExtendedMatrixVT. rewrite H. cbn. eexists. reflexivity.
Qed.

(** The invariant of [getEVT], by induction on the structural type. *)
Lemma getEVT_invariant (Ty : IR.Ty) (HandleUnknown : bool) :
  (forall e,
      EVT.getEVT Ty HandleUnknown = Ok e ->
      well_shaped e /\ forall T', EVT.getTypeForEVT e = Ok T' -> T' = Some Ty)
  /\ (value_type Ty = true ->
      exists e, EVT.getEVT Ty HandleUnknown = Ok e
                /\ EVT.getTypeForEVT e = Ok (Some Ty)).
Proof.
  revert HandleUnknown.
  induction Ty as [ | BitWidth | | | | | | | | | | | | Name | AddressSpace
                  | Elt IH NumElts | Elt IH MinNumElts
                  | Elt IH NumElts NumElts2 Scalable | | | ];
    intros HandleUnknown.
  all: try (split;
            [ intros e H; cbn in H; injection H as <-;
              split; [ left; split; [ discriminate | reflexivity ]
                     | intros T' H'; cbn in H'; now injection H' as <- ]
            | intros _; eexists; split; reflexivity ]).
  - (* IntegerTy *)
    cbn [EVT.getEVT]. unfold EVT.getIntegerVT.
    destruct (MVT.eqb (MVT.getIntegerVT BitWidth) MVT.INVALID_SIMPLE_VALUE_TYPE) eqn:EM;
      cbn [negb].
    + split.
      * intros e H. cbn in H. injection H as <-.
        split; [ apply well_shaped_extended | ].
        intros T' H'. cbn in H'. now injection H' as <-.
      * intros _. eexists. split; reflexivity.
    + apply MVT_eqb_neq in EM. split.
      * intros e H. injection H as <-.
        split; [ now apply well_shaped_of_MVT | ].
        intros T' H'. rewrite (getIntegerVT_entry _ EM) in H'. now injection H' as <-.
      * intros _. eexists. split; [ reflexivity | now apply getIntegerVT_entry ].
  - (* TargetExtTy *)
    cbn [EVT.getEVT MVT.getVT MVT.getVT_nonnull value_type].
    destruct (String.eqb_spec Name "aarch64.svcount") as [-> | Hne].
    + split.
      * intros e H. cbn in H. injection H as <-.
        split; [ left; split; [ discriminate | reflexivity ] | ].
        intros T' H'. cbn in H'. now injection H' as <-.
      * intros _. eexists. split; reflexivity.
    + split; [ | discriminate ].
      intros e H.
      destruct (String.prefix "spirv." Name); [ | destruct HandleUnknown ];
        cbn in H; try discriminate H; injection H as <-;
        (split; [ left; split; [ discriminate | reflexivity ]
                | intros T' H'; discriminate H' ]).
  - (* PointerTy *)
    split; [ | discriminate ].
    intros e H. cbn in H. injection H as <-.
    split; [ left; split; [ discriminate | reflexivity ] | intros T' H'; discriminate H' ].
  - (* FixedVectorTy *)
    destruct (IH false) as [IH1 IH2]. cbn [EVT.getEVT value_type]. split.
    + intros e H.
      destruct (EVT.getEVT Elt false) as [ EltVT | | | ]; cbn [bind] in H;
        try discriminate H.
      destruct (IH1 _ eq_refl) as [Hs Hback].
      destruct (getVectorVT_round_trip Elt NumElts false EltVT e Hs Hback H) as [Hs' He].
      split; [ exact Hs' | ]. intros T' H'. rewrite He in H'. now injection H' as <-.
    + intros Hv. destruct (IH2 Hv) as (EltVT & HE & HT). rewrite HE. cbn [bind].
      destruct (getVectorVT_returns Elt (ElementCount.get_bool NumElts false) EltVT HT)
        as (e & He).
      exists e. split; [ exact He | ].
      destruct (IH1 _ HE) as [Hs Hback].
      exact (proj2 (getVectorVT_round_trip Elt NumElts false EltVT e Hs Hback He)).
  - (* ScalableVectorTy *)
    destruct (IH false) as [IH1 IH2]. cbn [EVT.getEVT value_type]. split.
    + intros e H.
      destruct (EVT.getEVT Elt false) as [ EltVT | | | ]; cbn [bind] in H;
        try discriminate H.
      destruct (IH1 _ eq_refl) as [Hs Hback].
      destruct (getVectorVT_round_trip Elt MinNumElts true EltVT e Hs Hback H) as [Hs' He].
      split; [ exact Hs' | ]. intros T' H'. rewrite He in H'. now injection H' as <-.
    + intros Hv. destruct (IH2 Hv) as (EltVT & HE & HT). rewrite HE. cbn [bind].
      destruct (getVectorVT_returns Elt (ElementCount.get_bool MinNumElts true) EltVT HT)
        as (e & He).
      exists e. split; [ exact He | ].
      destruct (IH1 _ HE) as [Hs Hback].
      exact (proj2 (getVectorVT_round_trip Elt MinNumElts true EltVT e Hs Hback He)).
  - (* ScalableMatrixTy *)
    destruct (IH false) as [IH1 IH2]. cbn [EVT.getEVT value_type]. split.
    + intros e H.
      destruct (EVT.getEVT Elt false) as [ EltVT | | | ]; cbn [bind] in H;
        try discriminate H.
      destruct (IH1 _ eq_refl) as [Hs Hback].
      destruct (getMatrixVT_round_trip Elt NumElts NumElts2 Scalable EltVT e Hs Hback H)
        as [Hs' He].
      split; [ exact Hs' | ]. intros T' H'. rewrite He in H'. now injection H' as <-.
    + intros Hv. destruct (IH2 Hv) as (EltVT & HE & HT). rewrite HE. cbn [bind].
      destruct (getMatrixVT_returns Elt NumElts NumElts2 Scalable EltVT HT) as (e & He).
      exists e. split; [ exact He | ].
      destruct (IH1 _ HE) as [Hs Hback].
      exact (proj2 (getMatrixVT_round_trip Elt NumElts NumElts2 Scalable EltVT e
                      Hs Hback He)).
  - (* MetadataTy *)
    split; [ | discriminate ].
    intros e H. destruct HandleUnknown; cbn in H; try discriminate H. injection H as <-.
    split; [ left; split; [ discriminate | reflexivity ] | intros T' H'; discriminate H' ].
  - (* LabelTy *)
    split; [ | discriminate ].
    intros e H. destruct HandleUnknown; cbn in H; try discriminate H. injection H as <-.
    split; [ left; split; [ discriminate | reflexivity ] | intros T' H'; discriminate H' ].
  - (* TokenTy *)
    split; [ | discriminate ].
    intros e H. destruct HandleUnknown; cbn in H; try discriminate H. injection H as <-.
    split; [ left; split; [ discriminate | reflexivity ] | intros T' H'; discriminate H' ].
Qed.

(** [getEVT] followed by [getTypeForEVT] gives the structural type back.
    On every type built from void, integers of any width, floating-point
    and x86 types and [aarch64.svcount], and on the vectors and matrices
    of such types, both calls return; on any type, whenever both return,
    the type returned is the type given, and the EVT is either a simple
    tag without a handle or the sentinel with a handle. *)
Theorem getEVT_getTypeForEVT (Ty : IR.Ty) (HandleUnknown : bool) :
  (value_type Ty = true ->
   exists e, EVT.getEVT Ty HandleUnknown = Ok e
             /\ EVT.getTypeForEVT e = Ok (Some Ty))
  /\ (forall e T',
         EVT.getEVT Ty HandleUnknown = Ok e ->
         EVT.getTypeForEVT e = Ok T' ->
         T' = Some Ty)
  /\ (forall e, EVT.getEVT Ty HandleUnknown = Ok e -> well_shaped e).
Proof.
  destruct (getEVT_invariant Ty HandleUnknown) as [H1 H2].
  split; [ exact H2 | split ].
  - intros e T' He. exact (proj2 (H1 e He) T').
  - intros e He. exact (proj1 (H1 e He)).
Qed.

(** Witness: the vector of three 17-bit integers, which no tag names. *)
Lemma getEVT_getTypeForEVT_witness :
  exists e,
    EVT.getEVT (IR.FixedVectorTy (IR.IntegerTy 17) 3) false = Ok e
    /\ EVT.getTypeForEVT e = Ok (Some (IR.FixedVectorTy (IR.IntegerTy 17) 3)).
Proof.
  apply (proj1 (getEVT_getTypeForEVT (IR.FixedVectorTy (IR.IntegerTy 17) 3) false)).
  reflexivity.
Defined.

(** ** The two classification functions *)

(** Whenever [MVT::getVT] finds an enumerated tag for a type, [EVT::getEVT]
    returns the simple EVT of that very tag. *)
Theorem getEVT_agrees_with_getVT (Ty : IR.Ty) (HandleUnknown : bool) (VT : MVT.t) :
  MVT.getVT (Some Ty) HandleUnknown = Ok VT ->
  VT <> MVT.INVALID_SIMPLE_VALUE_TYPE ->
  EVT.getEVT Ty HandleUnknown = Ok (EVT.of_MVT VT).
Proof.
  revert HandleUnknown VT.
  induction Ty as [ | BitWidth | | | | | | | | | | | | Name | AddressSpace
                  | Elt IH NumElts | Elt IH MinNumElts
                  | Elt IH NumElts NumElts2 Scalable | | | ];
    intros HandleUnknown VT H Hn; cbn [MVT.getVT] in *;
    try (cbn [EVT.getEVT MVT.getVT]; rewrite H; reflexivity).
  - (* IntegerTy *)
    cbn in H. injection H as <-.
    cbn [EVT.getEVT]. unfold EVT.getIntegerVT.
    apply MVT_eqb_neq in Hn. now rewrite Hn.
  - (* FixedVectorTy *)
    cbn [MVT.getVT_nonnull] in H.
    destruct (MVT.getVT_nonnull Elt false) as [ EltVT | | | ] eqn:HE; cbn [bind] in H;
      try discriminate H.
    injection H as <-.
    assert (Hv : EltVT <> MVT.INVALID_SIMPLE_VALUE_TYPE).
    { intros ->. apply Hn. apply getVectorVT_of_INVALID. }
    cbn [EVT.getEVT]. rewrite (IH false EltVT HE Hv). cbn [bind].
    unfold EVT.getVectorVT. cbn [EVT.V EVT.of_MVT].
    apply MVT_eqb_neq in Hn. now rewrite Hn.
  - (* ScalableVectorTy *)
    cbn [MVT.getVT_nonnull] in H.
    destruct (MVT.getVT_nonnull Elt false) as [ EltVT | | | ] eqn:HE; cbn [bind] in H;
      try discriminate H.
    injection H as <-.
    assert (Hv : EltVT <> MVT.INVALID_SIMPLE_VALUE_TYPE).
    { intros ->. apply Hn. apply getVectorVT_of_INVALID. }
    cbn [EVT.getEVT]. rewrite (IH false EltVT HE Hv). cbn [bind].
    unfold EVT.getVectorVT. cbn [EVT.V EVT.of_MVT].
    apply MVT_eqb_neq in Hn. now rewrite Hn.
  - (* ScalableMatrixTy *)
    cbn [MVT.getVT_nonnull] in H.
    destruct (MVT.getVT_nonnull Elt false) as [ EltVT | | | ] eqn:HE; cbn [bind] in H;
      try discriminate H.
    injection H as <-.
    assert (Hv : EltVT <> MVT.INVALID_SIMPLE_VALUE_TYPE).
    { intros ->. apply Hn. apply getMatrixVT_of_INVALID. }
    cbn [EVT.getEVT]. rewrite (IH false EltVT HE Hv). cbn [bind].
    unfold EVT.getMatrixVT. cbn [EVT.V EVT.of_MVT].
    apply MVT_eqb_neq in Hn. now rewrite Hn.
Qed.

(** Witness: four 32-bit integers. *)
Lemma getEVT_agrees_with_getVT_witness :
  EVT.getEVT (IR.FixedVectorTy (IR.IntegerTy 32) 4) false = Ok (EVT.of_MVT MVT.v4i32).
Proof.
  apply (getEVT_agrees_with_getVT (IR.FixedVectorTy (IR.IntegerTy 32) 4) false MVT.v4i32).
  - reflexivity.
  - discriminate.
Defined.

(** [HandleUnknown] in [MVT::getVT].  A null type fails the assertion.
    With [HandleUnknown] set, every type that is not a vector or a matrix
    gets a tag ([Other] where the switch has no case).  For a vector or a
    matrix the flag is not passed on to the element type: the result is
    the same for both values of the flag, and an element type without a
    case reaches [llvm_unreachable] even when the flag is set. *)
Theorem getVT_HandleUnknown (Ty Elt : IR.Ty) (n n2 : Z) (sc h : bool) :
  MVT.getVT None h = AssertionFailure "Invalid type"
  /\ (IR.isVectorTy Ty = false ->
      (forall E a b c, Ty <> IR.ScalableMatrixTy E a b c) ->
      exists VT, MVT.getVT (Some Ty) true = Ok VT)
  /\ MVT.getVT (Some (vector_of Elt n sc)) h = MVT.getVT (Some (vector_of Elt n sc)) false
  /\ MVT.getVT (Some (IR.ScalableMatrixTy Elt n n2 sc)) h
     = MVT.getVT (Some (IR.ScalableMatrixTy Elt n n2 sc)) false
  /\ (MVT.getVT (Some Elt) false = Unreachable "Unknown type!" ->
      MVT.getVT (Some (vector_of Elt n sc)) true = Unreachable "Unknown type!").
Proof.
  split; [ reflexivity | ].
  split.
  { intros Hv Hm.
    destruct Ty; try discriminate Hv; try (eexists; reflexivity).
    - cbn. destruct (String.eqb Name "aarch64.svcount"); [ eexists; reflexivity | ].
      destruct (String.prefix "spirv." Name); eexists; reflexivity.
    - exfalso. eapply Hm. reflexivity. }
  split; [ now destruct sc | ].
  split; [ reflexivity | ].
  intros H. cbn [MVT.getVT] in *. destruct sc; cbn [vector_of MVT.getVT_nonnull];
    now rewrite H.
Qed.

(** Witness: a vector of metadata with [HandleUnknown] set. *)
Lemma getVT_HandleUnknown_witness :
  MVT.getVT (Some (IR.FixedVectorTy IR.MetadataTy 4)) true = Unreachable "Unknown type!".
Proof.
  apply (proj2 (proj2 (proj2 (proj2
           (getVT_HandleUnknown IR.VoidTy IR.MetadataTy 4 0 false true))))).
  reflexivity.
Defined.

(** ** The extended queries on a vector *)

(** When [getEVT] answers a vector type with an extended EVT (the
    enumeration has no tag for it), the extended queries read the vector
    back: it is a vector, fixed-length or scalable as the type is, with
    the type's element count; its element EVT is [getEVT] of the element
    type; [getExtendedVectorNumElements] returns the minimum count and
    writes its warning exactly for the scalable vector. *)
Theorem extended_vector_queries
        (Elt : IR.Ty) (n : Z) (sc HandleUnknown : bool) (e : EVT.t) :
  EVT.getEVT (vector_of Elt n sc) HandleUnknown = Ok e ->
  EVT.isExtended e = true ->
  EVT.LLVMTy e = Some (vector_of Elt n sc)
  /\ EVT.isExtendedVector e = Ok true
  /\ EVT.isExtendedScalarInteger e = Ok false
  /\ EVT.isExtendedFixedLengthVector e = Ok (negb sc)
  /\ EVT.isExtendedScalableVector e = Ok sc
  /\ EVT.getExtendedVectorElementCount e = Ok (ElementCount.get_bool n sc)
  /\ EVT.getExtendedVectorNumElements e = Ok (n, sc)
  /\ EVT.getExtendedVectorElementType e = EVT.getEVT Elt false.
Proof.
  intros He Hx.
  assert (HT : EVT.LLVMTy e = Some (vector_of Elt n sc)).
  { destruct (getEVT_invariant (vector_of Elt n sc) HandleUnknown) as [H _].
    destruct (H e He) as [_ Hback].
    apply Hback.
    unfold EVT.isExtended in Hx. apply andb_true_iff in Hx as [Hv Hl].
    apply MVT_eqb_eq in Hv. destruct e as [V T]. simpl in *. subst V.
    destruct T; [ reflexivity | discriminate Hl ]. }
  split; [ exact HT | ].
  unfold EVT.isExtendedVector, EVT.isExtendedScalarInteger,
    EVT.isExtendedFixedLengthVector, EVT.isExtendedScalableVector,
    EVT.getExtendedVectorNumElements, EVT.getExtendedVectorElementCount,
    EVT.getExtendedVectorElementType, EVT.handle, assert.
  rewrite Hx, HT. destruct sc; repeat split; reflexivity.
Qed.

(** Witness: the vector of five 8-bit integers. *)
Lemma extended_vector_queries_witness :
  exists e,
    EVT.getEVT (IR.FixedVectorTy (IR.IntegerTy 8) 5) false = Ok e
    /\ EVT.getExtendedVectorElementCount e = Ok (ElementCount.getFixed 5)
    /\ EVT.getExtendedVectorElementType e = Ok (EVT.of_MVT MVT.i8).
Proof.
  eexists. split; [ reflexivity | ].
  destruct (extended_vector_queries (IR.IntegerTy 8) 5 false false _ eq_refl eq_refl)
    as (_ & _ & _ & _ & _ & H6 & _ & H8).
  split; [ exact H6 | exact H8 ].
Defined.

(** ** What [getVT] keeps of the type *)

Lemma vecattr_tag_isVector :
  Forall (fun r => let '(Ty, _, _, _) := r in
                   MVT.isVector Ty = true /\ MVT.isMatrix Ty = false)
         MVT.GenVT_VECATTR.
Proof.
  unfold MVT.GenVT_VECATTR.
  repeat (apply Forall_cons; [ split; reflexivity | ]).
  apply Forall_nil.
Qed.

Lemma matattr_tag_isMatrix :
  Forall (fun r => let '(Ty, _, _, _, _) := r in
                   MVT.isMatrix Ty = true /\ MVT.isVector Ty = false)
         MVT.GenVT_MATATTR.
Proof.
  unfold MVT.GenVT_MATATTR.
  repeat (apply Forall_cons; [ split; reflexivity | ]).
  apply Forall_nil.
Qed.

Lemma getVectorVT_isVector (VT : MVT.t) (n : Z) (sc : bool) :
  MVT.getVectorVT_n VT n sc <> MVT.INVALID_SIMPLE_VALUE_TYPE ->
  MVT.isVector (MVT.getVectorVT_n VT n sc) = true
  /\ MVT.isMatrix (MVT.getVectorVT_n VT n sc) = false.
Proof.
  unfold MVT.getVectorVT_n.
  destruct (find _ MVT.GenVT_VECATTR) as [ [[[Ty Sc] nElem] ElTy] | ] eqn:F;
    [ intros _ | intros H; now contradiction H ].
  apply find_some in F as [Hin _].
  exact (proj1 (Forall_forall _ _) vecattr_tag_isVector _ Hin).
Qed.

Lemma getMatrixVT_isMatrix (VT : MVT.t) (n n2 : Z) (sc : bool) :
  MVT.getMatrixVT VT n n2 sc <> MVT.INVALID_SIMPLE_VALUE_TYPE ->
  MVT.isMatrix (MVT.getMatrixVT VT n n2 sc) = true
  /\ MVT.isVector (MVT.getMatrixVT VT n n2 sc) = false.
Proof.
  unfold MVT.getMatrixVT.
  destruct (find _ MVT.GenVT_MATATTR) as [ [[[[Ty Sc] nElem] nElem2] ElTy] | ] eqn:F;
    [ intros _ | intros H; now contradiction H ].
  apply find_some in F as [Hin _].
  exact (proj1 (Forall_forall _ _) matattr_tag_isMatrix _ Hin).
Qed.

Lemma getIntegerVT_scalar (BitWidth : Z) :
  MVT.isVector (MVT.getIntegerVT BitWidth) = false
  /\ MVT.isMatrix (MVT.getIntegerVT BitWidth) = false.
Proof.
  unfold MVT.getIntegerVT.
  destruct BitWidth as [ | p | p ]; try (split; reflexivity).
  repeat (destruct p as [ p | p | ]; try (split; reflexivity)).
Qed.

(** [getVT] keeps the shape of the type: the tag it returns, unless it is
    the invalid sentinel, is a vector tag exactly for a vector type and a
    matrix tag exactly for a matrix type. *)
Theorem getVT_preserves_shape (Ty : IR.Ty) (HandleUnknown : bool) (VT : MVT.t) :
  MVT.getVT (Some Ty) HandleUnknown = Ok VT ->
  VT <> MVT.INVALID_SIMPLE_VALUE_TYPE ->
  MVT.isVector VT = IR.isVectorTy Ty
  /\ MVT.isMatrix VT
     = match Ty with IR.ScalableMatrixTy _ _ _ _ => true | _ => false end.
Proof.
  intros H Hn. cbn [MVT.getVT] in H.
  destruct Ty; cbn [MVT.getVT_nonnull] in H;
    try (injection H as <-; split; reflexivity).
  - injection H as <-. apply getIntegerVT_scalar.
  - destruct (String.eqb Name "aarch64.svcount");
      [ | destruct (String.prefix "spirv." Name); [ | destruct HandleUnknown ] ];
      try discriminate H; injection H as <-; split; reflexivity.
  - destruct (MVT.getVT_nonnull Ty false); cbn [bind] in H; try discriminate H.
    injection H as <-. now apply getVectorVT_isVector.
  - destruct (MVT.getVT_nonnull Ty false); cbn [bind] in H; try discriminate H.
    injection H as <-. now apply getVectorVT_isVector.
  - destruct (MVT.getVT_nonnull Ty false); cbn [bind] in H; try discriminate H.
    injection H as <-. destruct (getMatrixVT_isMatrix _ _ _ _ Hn). now split.
  - destruct HandleUnknown; try discriminate H. injection H as <-; split; reflexivity.
  - destruct HandleUnknown; try discriminate H. injection H as <-; split; reflexivity.
  - destruct HandleUnknown; try discriminate H. injection H as <-; split; reflexivity.
Qed.

(** Witness: the scalable vector of two doubles. *)
Lemma getVT_preserves_shape_witness :
  MVT.isVector MVT.nxv2f64 = true.
Proof.
  apply (proj1 (getVT_preserves_shape (IR.ScalableVectorTy IR.DoubleTy 2) false
                  MVT.nxv2f64 eq_refl ltac:(discriminate))).
Defined.

(** ** alignTo without wrap-around *)

(** When [Size + Align - 1] fits in 64 bits, [alignTo] returns the least
    multiple of [Align] that is not below the size: the result is a
    multiple of [Align], at least the size, and less than [Align] above
    it. *)
Theorem alignTo_least_multiple (x : TypeSize.t) (n : Z) :
  0 <= details.Quantity x ->
  0 < n ->
  details.Quantity x + n - 1 < 2 ^ 64 ->
  exists r,
    TypeSize.alignTo x n = Ok r
    /\ details.Scale r = details.Scale x
    /\ details.Quantity r mod n = 0
    /\ details.Quantity x <= details.Quantity r < details.Quantity x + n
    /\ (forall k, details.Quantity x <= k * n -> details.Quantity r <= k * n).
Proof.
  intros Hq Hn Hfit. rewrite <- modulus_value in Hfit.
  exists (TypeSize.get (TypeSize.aligned (details.Quantity x) n) (details.Scale x)).
  split; [ now apply alignTo_value | ].
  split; [ reflexivity | ].
  cbn [TypeSize.get details.Quantity].
  unfold TypeSize.aligned.
  rewrite (Z.mod_small (details.Quantity x + n - 1) TypeSize.modulus) by lia.
  pose proof (Z.div_mod (details.Quantity x + n - 1) n ltac:(lia)) as Hdm.
  pose proof (Z.mod_pos_bound (details.Quantity x + n - 1) n Hn) as Hb.
  split; [ apply Z.mod_mul; lia | ].
  split; [ lia | ].
  intros k Hk.
  assert (Hlt : (details.Quantity x + n - 1) / n < k + 1); [ | nia ].
  apply Z.div_lt_upper_bound; nia.
Qed.

(** Witness: 13 bits aligned to 8 give 16. *)
Lemma alignTo_least_multiple_witness :
  exists r,
    TypeSize.alignTo (TypeSize.getFixed 13) 8 = Ok r
    /\ 13 <= details.Quantity r < 13 + 8.
Proof.
  destruct (alignTo_least_multiple (TypeSize.getFixed 13) 8)
    as (r & H1 & _ & _ & H4 & _).
  - simpl. lia.
  - lia.
  - simpl. lia.
  - exists r. split; assumption.
Defined.
